(** * Tixoraa: the email verification-code lifecycle

    A shallow embedding of the verification-code scripts of the Tixoraa
    repository:

    - [test-verification-code.js]: the code generator, the Postgres-backed
      store ([saveVerificationCode], [checkVerificationCode],
      [markVerificationCodeAsUsed], [createVerificationCodesTable]);
    - [test-sendgrid.js] (an unnamed part of the sources): the digit-by-digit
      code generator;
    - [ensure-verification-codes.ts] (stored inside
      [test-perplexity-integration.js]): the schema migration;
    - [test-sendgrid-service-new.js]: the delivery adapter
      [testSendVerificationCode].

    JavaScript Numbers are IEEE-754 binary64 values, taken from the
    specification of floating-point arithmetic of the standard library
    ([SpecFloat]); effects (the random source, the database, the email
    provider, exceptions) are threaded through a small state-and-exception
    monad. *)

From Stdlib Require Import ZArith Lia Bool List Ascii String.
From Stdlib Require Import Floats.SpecFloat.
From stdpp Require Import gmap strings list sorting.

Open Scope Z_scope.

(** ** Outcomes and the state-and-exception monad *)

(** What a JavaScript [catch] clause receives: an [Error] with its message
    and, for SendGrid's [ResponseError], the HTTP status of the response. *)
Record js_error := JsError {
  message : string;
  statusCode : option Z
}.

(** A computation returns, throws, or leaves the fragment of JavaScript
    this development models ([Unmodelled]; no [catch] handles that). *)
Inductive outcome (A : Type) : Type :=
| Returned (a : A)
| Thrown (e : js_error)
| Unmodelled.

Arguments Returned {A} a.
Arguments Thrown {A} e.
Arguments Unmodelled {A}.

Definition M (W A : Type) : Type := W -> outcome A * W.

Definition ret {W A} (a : A) : M W A := fun w => (Returned a, w).

Definition bind {W A B} (c : M W A) (k : A -> M W B) : M W B :=
  fun w =>
    match c w with
    | (Returned a, w') => k a w'
    | (Thrown e, w') => (Thrown e, w')
    | (Unmodelled, w') => (Unmodelled, w')
    end.

Definition throw {W A} (e : js_error) : M W A := fun w => (Thrown e, w).

(** [try { body } catch (error) { handler }] *)
Definition try_catch {W A} (body : M W A) (handler : js_error -> M W A) : M W A :=
  fun w =>
    match body w with
    | (Thrown e, w') => handler e w'
    | r => r
    end.

Definition get {W} : M W W := fun w => (Returned w, w).
Definition put {W} (w : W) : M W unit := fun _ => (Returned tt, w).

(** A partial function of the model: [None] leaves the modelled fragment. *)
Definition modelled {W A} (o : option A) : M W A :=
  fun w => match o with Some a => (Returned a, w) | None => (Unmodelled, w) end.

(** Run a computation on a component of the state. *)
Definition zoom {W V A} (proj : W -> V) (upd : V -> W -> W) (c : M V A) : M W A :=
  fun w => let (r, v') := c (proj w) in (r, upd v' w).

Notation "x <- c ;; k" := (bind c (fun x => k))
  (at level 100, c at next level, right associativity).
Notation "c ;;; k" := (bind c (fun _ => k))
  (at level 100, right associativity).

(** [Array.from({ length: n }, () => c)]: [c] is run [n] times, in order. *)
Fixpoint Array_from_length {W A} (n : nat) (c : M W A) : M W (list A) :=
  match n with
  | O => ret []
  | S n' => x <- c ;; xs <- Array_from_length n' c ;; ret (x :: xs)
  end.

(** ** JavaScript Numbers *)

Module JsNumber.

Abbreviation Number := spec_float.

(** binary64 *)
Definition prec : Z := 53.
Definition emax : Z := 1024.

(** An integer literal such as [100000]. *)
Definition literal (n : Z) : Number := binary_normalize prec emax n 0 false.

(** [x * y] and [x + y] on Numbers: round to nearest, ties to even. *)
Definition mul (x y : Number) : Number := SFmul prec emax x y.
Definition add (x y : Number) : Number := SFadd prec emax x y.

(** [Math.floor]: the largest integer not above [x]; NaN, the infinities
    and the zeros are returned as they are. A finite Number with a
    non-negative exponent is an integer already. *)
Definition Math_floor (x : Number) : Number :=
  match x with
  | S754_finite s m e =>
      if 0 <=? e then x
      else binary_normalize prec emax (cond_Zopp s (Z.pos m) / 2 ^ (- e)) 0 s
  | _ => x
  end.

(** The integer a finite Number denotes, when it denotes one. *)
Definition integer_value (x : Number) : option Z :=
  match x with
  | S754_zero _ => Some 0
  | S754_finite s m e =>
      if 0 <=? e then Some (cond_Zopp s (Z.pos m * 2 ^ e))
      else if Z.pos m mod 2 ^ (- e) =? 0
           then Some (cond_Zopp s (Z.pos m / 2 ^ (- e)))
           else None
  | _ => None
  end.

Definition digit_char (d : Z) : ascii :=
  ascii_of_nat (48 + Z.to_nat d).

(** Decimal digits of a non-negative integer, most significant first;
    [fuel] bounds the number of digits. *)
Fixpoint decimal_digits (fuel : nat) (n : Z) (acc : string) : string :=
  match fuel with
  | O => acc
  | S fuel' =>
      let acc' := String (digit_char (n mod 10)) acc in
      if n / 10 =? 0 then acc' else decimal_digits fuel' (n / 10) acc'
  end.

Definition decimal (n : Z) : string :=
  let digits := decimal_digits (S (Z.to_nat (Z.log2 (Z.abs n)))) (Z.abs n) "" in
  if n <? 0 then String "-" digits else digits.

(** [Number.prototype.toString()] (radix 10) on the Numbers whose
    rendering is plain: NaN, the infinities, and integers below 10^21
    (printed without exponent). Fractions and larger integers need the
    shortest-round-trip digit generation, which is not modelled. *)
Definition toString (x : Number) : option string :=
  match x with
  | S754_nan => Some "NaN"
  | S754_infinity s => Some (if s then "-Infinity" else "Infinity")
  | _ =>
      match integer_value x with
      | Some k => if Z.abs k <? 10 ^ 21 then Some (decimal k) else None
      | None => None
      end
  end.

(** [Array.prototype.join('')] on an array of Numbers. *)
Fixpoint join_empty (xs : list Number) : option string :=
  match xs with
  | [] => Some ""
  | x :: xs' =>
      match toString x, join_empty xs' with
      | Some s, Some t => Some (String.append s t)
      | _, _ => None
      end
  end.

(** The rounding inside [binary_round_aux]: the mantissa [m] shifted right
    by [n] bits and rounded to nearest, ties to even. *)
Definition round_shift (m n : Z) : Z :=
  let mrs := fst (shr (Build_shr_record m false false) 0 n) in
  round_nearest_even (shr_m mrs) (loc_of_shr_record mrs).

(** The values [Math.random()] may return: a Number with positive sign,
    greater than or equal to +0 and strictly less than 1. *)
Definition is_unit_random (x : Number) : bool :=
  valid_binary prec emax x &&
  match x with
  | S754_zero false => true
  | S754_finite false _ _ => SFltb x (literal 1)
  | _ => false
  end.

End JsNumber.

(** ** The random source *)

(** [Math.random()] draws from a supply fixed by the environment; [drawn]
    counts the draws made so far. *)
Record rng_state := Rng {
  supply : nat -> spec_float;
  drawn : nat
}.

Definition Math_random : M rng_state spec_float :=
  fun g => (Returned (supply g (drawn g)), Rng (supply g) (S (drawn g))).

Definition unit_supply (g : rng_state) : Prop :=
  forall n, JsNumber.is_unit_random (supply g n) = true.

(** ** Predicates on generated codes *)

Definition is_digit (c : ascii) : bool :=
  (48 <=? nat_of_ascii c)%nat && (nat_of_ascii c <=? 57)%nat.

Definition digit_value (c : ascii) : Z := Z.of_nat (nat_of_ascii c) - 48.

(** The number a string of decimal digits denotes. *)
Definition numeric_value (s : string) : Z :=
  fold_left (fun acc c => 10 * acc + digit_value c) (list_ascii_of_string s) 0.

(** A string of exactly 6 ASCII digits. *)
Definition six_ascii_digits (s : string) : bool :=
  (String.length s =? 6)%nat && forallb is_digit (list_ascii_of_string s).

(** The regular expression [^[1-9][0-9]{5}$]. *)
Definition matches_code_pattern (s : string) : bool :=
  match list_ascii_of_string s with
  | [c0; c1; c2; c3; c4; c5] =>
      is_digit c0 && negb (Ascii.eqb c0 "0") &&
      is_digit c1 && is_digit c2 && is_digit c3 && is_digit c4 && is_digit c5
  | _ => false
  end.

(** ** test-verification-code.js *)

Module TestVerificationCode.
Import JsNumber.

(** [Math.floor(100000 + Math.random() * 900000).toString()] *)
Definition generateVerificationCode : M rng_state string :=
  r <- Math_random ;;
  modelled (toString (Math_floor (add (literal 100000) (mul r (literal 900000))))).

(** *** The Postgres store *)

(** A row of [verification_codes] without its primary key. Timestamps are
    microseconds since the epoch. *)
Record row := Row {
  email : string;
  code : string;
  type : string;
  created_at : Z;
  expires_at : Z;
  used : bool
}.

(** The table: rows by primary key [id], and the next value of the
    sequence behind [id SERIAL]. *)
Record table := Table {
  rows : gmap Z row;
  serial : Z
}.

(** The database as the script sees it: whether the pool reaches it, the
    relation [verification_codes] when it exists, and the clock [NOW()]
    reads. The relation, when it exists, is the one this script creates; a
    relation of that name with other columns, such as the migration's, is
    not a value of this record. *)
Record database := Database {
  connected : bool;
  verification_codes : option table;
  now : Z
}.

Definition with_table (t : table) (db : database) : database :=
  Database (connected db) (Some t) (now db).

Definition connection_error : js_error :=
  JsError "connect ECONNREFUSED" None.
Definition undefined_table : js_error :=
  JsError "relation verification_codes does not exist" None.
Definition value_too_long : js_error :=
  JsError "value too long for type character varying" None.
Definition unique_violation : js_error :=
  JsError "duplicate key value violates unique constraint verification_codes_pkey" None.
Definition sequence_exhausted : js_error :=
  JsError "nextval: reached maximum value of sequence verification_codes_id_seq" None.
Definition out_of_range : js_error :=
  JsError "value is out of range for type integer" None.
Definition invalid_byte_sequence : js_error :=
  JsError "invalid byte sequence for encoding UTF8: 0x00" None.

(** A string parameter that holds the character NUL is no text value. *)
Definition has_nul (s : string) : bool :=
  existsb (Ascii.eqb Ascii.zero) (list_ascii_of_string s).

(** The values of the type [integer], which the column [id] and the
    sequence behind [id SERIAL] have. *)
Definition int4_max : Z := 2147483647.
Definition int4 (z : Z) : bool := (- 2147483648 <=? z) && (z <=? int4_max).

(** Assignment of a string to a [VARCHAR(n)] column: a longer value is an
    error, unless the characters beyond the first [n] are all spaces; then
    they are cut off. *)
Definition varchar (n : nat) (s : string) : option string :=
  if (String.length s <=? n)%nat then Some s
  else if forallb (Ascii.eqb " ")
            (list_ascii_of_string (substring n (String.length s - n) s))
       then Some (substring 0 n s)
       else None.

(** [pool.query(...)]: the promise rejects when the database is out of reach. *)
Definition pool_query {A} (statement : M database A) : M database A :=
  fun db => if connected db then statement db else (Thrown connection_error, db).

(** A statement on [verification_codes] fails when the relation is absent. *)
Definition on_verification_codes {A} (f : table -> Z -> outcome A * table) : M database A :=
  fun db =>
    match verification_codes db with
    | None => (Thrown undefined_table, db)
    | Some t => let (r, t') := f t (now db) in (r, with_table t' db)
    end.

(** [SELECT EXISTS (SELECT FROM information_schema.tables WHERE ...
    table_name = 'verification_codes')] *)
Definition select_table_exists : M database bool :=
  fun db => (Returned (bool_decide (is_Some (verification_codes db))), db).

(** [CREATE TABLE IF NOT EXISTS verification_codes (...)] *)
Definition create_table_if_not_exists : M database unit :=
  fun db =>
    match verification_codes db with
    | Some _ => (Returned tt, db)
    | None => (Returned tt, with_table (Table ∅ 1) db)
    end.

Definition thirty_minutes : Z := 30 * 60 * 1000000.

(** [INSERT INTO verification_codes (email, code, type) VALUES ($1, $2, $3)
    RETURNING id]: the values are assigned to columns of type
    [VARCHAR(255)], [VARCHAR(10)] and [VARCHAR(50)]; [id] takes the next
    value of its sequence, which ends at the largest [integer];
    [created_at], [expires_at] and [used] take their defaults. A
    parameter that is no text value, or does not fit its column, is
    refused before the sequence is asked; a duplicate key is found
    after. *)
Definition insert_code (email0 code0 type0 : string) : M database Z :=
  on_verification_codes (fun t now =>
    if has_nul email0 || has_nul code0 || has_nul type0
    then (Thrown invalid_byte_sequence, t)
    else
      match varchar 255 email0, varchar 10 code0, varchar 50 type0 with
      | Some email1, Some code1, Some type1 =>
          let id := serial t in
          if int4_max <? id then (Thrown sequence_exhausted, t)
          else
            match rows t !! id with
            | Some _ => (Thrown unique_violation, Table (rows t) (id + 1))
            | None =>
                (Returned id,
                 Table (<[id := Row email1 code1 type1 now (now + thirty_minutes) false]>
                          (rows t))
                       (id + 1))
            end
      | _, _, _ => (Thrown value_too_long, t)
      end).

(** [WHERE email = $1 AND code = $2 AND type = 'verification'
    AND expires_at > NOW() AND used = FALSE] *)
Definition valid_for (email0 code0 : string) (now : Z) (r : row) : bool :=
  String.eqb (email r) email0 && String.eqb (code r) code0 &&
  String.eqb (type r) "verification" &&
  (now <? expires_at r) && negb (used r).

(** [ORDER BY created_at DESC] *)
Definition newer_first (x y : Z * row) : Prop := created_at (snd y) <= created_at (snd x).

#[global] Instance newer_first_dec x y : Decision (newer_first x y).
Proof. unfold newer_first. apply _. Defined.

(** [SELECT id, created_at, expires_at, used FROM verification_codes WHERE ...
    ORDER BY created_at DESC LIMIT 1] *)
Definition select_valid_code (email0 code0 : string) : M database (list (Z * row)) :=
  on_verification_codes (fun t now =>
    (Returned
       (take 1 (merge_sort newer_first
                  (List.filter (fun x => valid_for email0 code0 now (snd x))
                               (map_to_list (rows t))))),
     t)).

Definition set_used (r : row) : row :=
  Row (email r) (code r) (type r) (created_at r) (expires_at r) true.

(** [UPDATE verification_codes SET used = TRUE WHERE id = $1]: the
    parameter is read as an [integer]; a number outside that type is
    refused. *)
Definition update_used (id : Z) : M database unit :=
  on_verification_codes (fun t _ =>
    if int4 id
    then (Returned tt, Table (alter set_used id (rows t)) (serial t))
    else (Thrown out_of_range, t)).

Definition checkVerificationCodesTable : M database bool :=
  try_catch (pool_query select_table_exists) (fun error => ret false).

Definition createVerificationCodesTable : M database bool :=
  try_catch (pool_query create_table_if_not_exists ;;; ret true) (fun error => ret false).

(** Returns the new row's id, or [null] ([None]). *)
Definition saveVerificationCode (email0 code0 type0 : string) : M database (option Z) :=
  try_catch
    (id <- pool_query (insert_code email0 code0 type0) ;; ret (Some id))
    (fun error => ret None).

(** Returns the id of a valid row, or [null] ([None]). *)
Definition checkVerificationCode (email0 code0 : string) : M database (option Z) :=
  try_catch
    (result <- pool_query (select_valid_code email0 code0) ;;
     match result with
     | [] => ret None
     | r :: _ => ret (Some (fst r))
     end)
    (fun error => ret None).

Definition markVerificationCodeAsUsed (id : Z) : M database bool :=
  try_catch (pool_query (update_used id) ;;; ret true) (fun error => ret false).

(** *** What can happen to the database *)

(** The script's operations, the clock moving on, and the connection
    coming and going. Nothing deletes a row or clears [used]. *)
Inductive step : database -> database -> Prop :=
| step_create db : step db (snd (createVerificationCodesTable db))
| step_save e c t db : step db (snd (saveVerificationCode e c t db))
| step_check e c db : step db (snd (checkVerificationCode e c db))
| step_mark id db : step db (snd (markVerificationCodeAsUsed id db))
| step_clock db t : now db <= t -> step db (Database (connected db) (verification_codes db) t)
| step_connection db b : step db (Database b (verification_codes db) (now db)).

(** *** Redemption attempts *)




End TestVerificationCode.

(** ** test-sendgrid.js, test-email-service.js *)

Module TestSendgrid.
Import JsNumber.

(** [Array.from({ length: 6 }, () => Math.floor(Math.random() * 10)).join('')] *)
Definition generateVerificationCode : M rng_state string :=
  digits <- Array_from_length 6
              (r <- Math_random ;; ret (Math_floor (mul r (literal 10)))) ;;
  modelled (join_empty digits).

End TestSendgrid.

(** ** ensure-verification-codes.ts: the schema migration *)

Module EnsureVerificationCodes.

(** A column as [information_schema.columns] reports it. *)
Record column := Column {
  column_name : string;
  data_type : string;
  is_nullable : string
}.

(** The schema: the tables with their columns, and the indexes by name
    with the table and column they are on. *)
Record database := Database {
  connected : bool;
  tables : gmap string (list column);
  indexes : gmap string (string * string)
}.

Definition connection_error : js_error :=
  JsError "connect ECONNREFUSED" None.
Definition undefined_table : js_error :=
  JsError "relation does not exist" None.
Definition undefined_column : js_error :=
  JsError "column does not exist" None.

(** [pool.query(...)]: the promise rejects when the database is out of
    reach; a query string that fails changes nothing (its statements run
    in one implicit transaction). *)
Definition pool_query {A} (statement : M database A) : M database A :=
  fun db =>
    if connected db then
      match statement db with
      | (Thrown e, _) => (Thrown e, db)
      | r => r
      end
    else (Thrown connection_error, db).

(** [SELECT 1] *)
Definition select_1 : M database unit := ret tt.

(** [SELECT EXISTS (SELECT FROM information_schema.tables WHERE
    table_schema = 'public' AND table_name = 'verification_codes')] *)
Definition select_table_exists : M database bool :=
  fun db => (Returned (bool_decide (is_Some (tables db !! "verification_codes"))), db).

(** The columns of [CREATE TABLE IF NOT EXISTS verification_codes (...)]:
    [id SERIAL PRIMARY KEY], [user_id INTEGER NOT NULL], [email TEXT NOT
    NULL], [code TEXT NOT NULL], [type TEXT NOT NULL DEFAULT ...],
    [metadata TEXT DEFAULT ...], [expires_at TIMESTAMP NOT NULL],
    [is_used BOOLEAN DEFAULT FALSE], [created_at TIMESTAMP DEFAULT ...]. *)
Definition verification_codes_columns : list column :=
  [ Column "id" "integer" "NO";
    Column "user_id" "integer" "NO";
    Column "email" "text" "NO";
    Column "code" "text" "NO";
    Column "type" "text" "NO";
    Column "metadata" "text" "YES";
    Column "expires_at" "timestamp without time zone" "NO";
    Column "is_used" "boolean" "YES";
    Column "created_at" "timestamp without time zone" "YES" ].

Definition create_table_if_not_exists : M database unit :=
  fun db =>
    match tables db !! "verification_codes" with
    | Some _ => (Returned tt, db)
    | None =>
        (Returned tt,
         Database (connected db)
                  (<["verification_codes" := verification_codes_columns]> (tables db))
                  (indexes db))
    end.

(** [CREATE INDEX IF NOT EXISTS name ON tbl(col)] *)
Definition create_index_if_not_exists (name tbl col : string) : M database unit :=
  fun db =>
    match indexes db !! name with
    | Some _ => (Returned tt, db)
    | None =>
        match tables db !! tbl with
        | None => (Thrown undefined_table, db)
        | Some cols =>
            if bool_decide (col ∈ map column_name cols)
            then (Returned tt,
                  Database (connected db) (tables db) (<[name := (tbl, col)]> (indexes db)))
            else (Thrown undefined_column, db)
        end
    end.

(** The secondary indexes, by name, with the column each is on. *)
Definition verification_codes_indexes : list (string * string) :=
  [ ("idx_verification_codes_email", "email");
    ("idx_verification_codes_user_id", "user_id");
    ("idx_verification_codes_code", "code");
    ("idx_verification_codes_expires_at", "expires_at") ].

Definition create_indexes : M database unit :=
  create_index_if_not_exists "idx_verification_codes_email" "verification_codes" "email" ;;;
  create_index_if_not_exists "idx_verification_codes_user_id" "verification_codes" "user_id" ;;;
  create_index_if_not_exists "idx_verification_codes_code" "verification_codes" "code" ;;;
  create_index_if_not_exists "idx_verification_codes_expires_at" "verification_codes" "expires_at".

Definition createVerificationCodesTable : M database bool :=
  try_catch
    (tableExists <- pool_query select_table_exists ;;
     if tableExists : bool then ret true
     else
       pool_query create_table_if_not_exists ;;;
       pool_query create_indexes ;;;
       ret true)
    (fun error => ret false).

(** [SELECT column_name, data_type, column_default, is_nullable FROM
    information_schema.columns WHERE ... table_name = 'verification_codes'
    ORDER BY ordinal_position] *)
Definition select_columns : M database (list column) :=
  fun db => (Returned (default [] (tables db !! "verification_codes")), db).

Definition expectedColumns : list (string * (string * string)) :=
  [ ("id", ("integer", "NO"));
    ("user_id", ("integer", "NO"));
    ("email", ("text", "NO"));
    ("code", ("text", "NO"));
    ("type", ("text", "NO"));
    ("metadata", ("text", "YES"));
    ("expires_at", ("timestamp without time zone", "NO"));
    ("is_used", ("boolean", "YES"));
    ("created_at", ("timestamp without time zone", "YES")) ].

Definition validateTableStructure : M database bool :=
  try_catch
    (columnResult <- pool_query select_columns ;;
     let columns : gmap string (string * string) :=
       fold_left (fun acc col => <[column_name col := (data_type col, is_nullable col)]> acc)
                 columnResult ∅ in
     ret (forallb
            (fun '(colName, (expected_type, expected_nullable)) =>
               match columns !! colName with
               | None => false
               | Some (actual_type, actual_nullable) =>
                   String.eqb actual_type expected_type &&
                   String.eqb actual_nullable expected_nullable
               end)
            expectedColumns))
    (fun error => ret false).

Definition ensureVerificationCodesTable : M database bool :=
  try_catch
    (pool_query select_1 ;;;
     tableCreated <- createVerificationCodesTable ;;
     (if tableCreated : bool then validateTableStructure ;;; ret tt else ret tt) ;;;
     ret true)
    (fun error => ret false).

(** [n] calls in a row. *)
Fixpoint ensure_times (n : nat) (db : database) : database :=
  match n with
  | O => db
  | S n' => ensure_times n' (snd (ensureVerificationCodesTable db))
  end.

End EnsureVerificationCodes.

(** ** test-sendgrid-service-new.js: the delivery adapter *)

Module TestSendgridServiceNew.
Import JsNumber.

(** [Math.floor(100000 + Math.random() * 900000).toString()] *)
Definition generateVerificationCode : M rng_state string :=
  r <- Math_random ;;
  modelled (toString (Math_floor (add (literal 100000) (mul r (literal 900000))))).

Record message := Message {
  to : string;
  from : string;
  subject : string;
  html : string;
  text : string
}.

(** What the adapter returns: [{ code, success }]. *)
Record DeliveryResult := Delivery {
  code : string;
  success : bool
}.

(** The script's surroundings: the random source, the environment
    ([SENDGRID_FROM_EMAIL], the recipient [testEmail]), how SendGrid
    answers a message (accepted, or the error [send] rejects with), and
    the messages handed to [send] so far, latest first. *)
Record world := World {
  rng : rng_state;
  SENDGRID_FROM_EMAIL : string;
  testEmail : string;
  provider : message -> option js_error;
  attempted : list message
}.

Definition with_rng (g : rng_state) (w : world) : world :=
  World g (SENDGRID_FROM_EMAIL w) (testEmail w) (provider w) (attempted w).

(** [mailService.send(msg)] *)
Definition mailService_send (msg : message) : M world unit :=
  fun w =>
    let w' := World (rng w) (SENDGRID_FROM_EMAIL w) (testEmail w) (provider w)
                    (msg :: attempted w) in
    match provider w msg with
    | Some error => (Thrown error, w')
    | None => (Returned tt, w')
    end.

(** The HTML body; style attributes and layout whitespace are left out. *)
Definition html_body (verificationCode : string) : string :=
  String.concat ""
    [ "<div><h1>Your Verification Code</h1>";
      "<p>Please use the following code to verify your email address:</p>";
      "<div>"; verificationCode; "</div>";
      "<p>This code will expire in 10 minutes.</p>";
      "<p>If you did not request this code, please ignore this email.</p>";
      "<hr /><p>Tixoraa - Your ticket to unforgettable events</p></div>" ].

Definition text_body (verificationCode : string) : string :=
  String.concat ""
    [ "Your Tixoraa verification code is: "; verificationCode;
      ". This code will expire in 10 minutes. If you did not request this code, please ignore this email." ].

Definition testSendVerificationCode : M world DeliveryResult :=
  try_catch
    (verificationCode <- zoom rng with_rng generateVerificationCode ;;
     w <- get ;;
     let msg := Message (testEmail w) (SENDGRID_FROM_EMAIL w)
                        "Your Tixoraa Verification Code (Test)"
                        (html_body verificationCode) (text_body verificationCode) in
     mailService_send msg ;;;
     ret (Delivery verificationCode true))
    (fun error =>
       code' <- zoom rng with_rng generateVerificationCode ;;
       ret (Delivery code' false)).

End TestSendgridServiceNew.

(** ** Regular expressions, as far as the scripts use them *)

Module JsRegExp.

(** A JavaScript string is a sequence of UTF-16 code units. An ASCII
    string of Rocq gives one code unit per character. *)
Definition of_ascii (s : string) : list N :=
  map N_of_ascii (list_ascii_of_string s).

(** Patterns without captures, look-around or back-references: for these,
    whether a backtracking matcher finds a match of the whole input is
    membership in the pattern's language. *)
Inductive regex :=
| Empty
| Eps
| Class (p : N -> bool)
| Seq (r1 r2 : regex)
| Alt (r1 r2 : regex)
| Star (r : regex).

(** [r+] *)
Definition Plus (r : regex) : regex := Seq r (Star r).

(** The language of a pattern. *)
Inductive matches : regex -> list N -> Prop :=
| matches_eps : matches Eps []
| matches_class p c : p c = true -> matches (Class p) [c]
| matches_seq r1 r2 s1 s2 :
    matches r1 s1 -> matches r2 s2 -> matches (Seq r1 r2) (s1 ++ s2)
| matches_alt_l r1 r2 s : matches r1 s -> matches (Alt r1 r2) s
| matches_alt_r r1 r2 s : matches r2 s -> matches (Alt r1 r2) s
| matches_star_nil r : matches (Star r) []
| matches_star_app r s1 s2 :
    matches r s1 -> matches (Star r) s2 -> matches (Star r) (s1 ++ s2).

Fixpoint nullable (r : regex) : bool :=
  match r with
  | Empty => false
  | Eps => true
  | Class _ => false
  | Seq r1 r2 => nullable r1 && nullable r2
  | Alt r1 r2 => nullable r1 || nullable r2
  | Star _ => true
  end.

(** What is left of the pattern after the code unit [c]. *)
Fixpoint derivative (c : N) (r : regex) : regex :=
  match r with
  | Empty => Empty
  | Eps => Empty
  | Class p => if p c then Eps else Empty
  | Seq r1 r2 =>
      if nullable r1
      then Alt (Seq (derivative c r1) r2) (derivative c r2)
      else Seq (derivative c r1) r2
  | Alt r1 r2 => Alt (derivative c r1) (derivative c r2)
  | Star r1 => Seq (derivative c r1) (Star r1)
  end.

(** [/^r$/.test(s)] *)
Fixpoint test_anchored (r : regex) (s : list N) : bool :=
  match s with
  | [] => nullable r
  | c :: s' => test_anchored (derivative c r) s'
  end.

(** [\s]: the white space and line terminator code units of ECMAScript. *)
Definition is_white_space (c : N) : bool :=
  ((9 <=? c) && (c <=? 13) || (c =? 32) || (c =? 160) || (c =? 5760) ||
   (8192 <=? c) && (c <=? 8202) || (c =? 8232) || (c =? 8233) || (c =? 8239) ||
   (c =? 8287) || (c =? 12288) || (c =? 65279))%N.

(** [[^\s@]] *)
Definition not_space_or_at (c : N) : bool :=
  negb (is_white_space c) && negb (c =? 64)%N.

(** A single character of the pattern. *)
Definition char (ch : N) : regex := Class (N.eqb ch).

(** [/^[^\s@]+@[^\s@]+\.[^\s@]+$/] *)
Definition email_pattern : regex :=
  Seq (Plus (Class not_space_or_at))
      (Seq (char 64)
           (Seq (Plus (Class not_space_or_at))
                (Seq (char 46) (Plus (Class not_space_or_at))))).

(** [isValidEmail] of [test-verification-code.js], [test-sendgrid.js],
    [test-sendgrid-service-new.js] and the other scripts. *)
Definition isValidEmail (email : list N) : bool :=
  test_anchored email_pattern email.

End JsRegExp.

(** ** Rejections, and concrete inputs used below *)

Module Examples.
Import TestVerificationCode.

(** Why a redemption lookup may have nothing to return. *)
Inductive rejection :=
| NoMatchingRow
| MatchingRowExpired
| MatchingRowUsed.

(** The row [r] is ruled out for the cause [c]: it does not match the
    pair, or it matches and is expired, or it matches and is used. *)
Definition rejected_for (c : rejection) (email0 code0 : string) (now0 : Z) (r : row) : Prop :=
  match c with
  | NoMatchingRow => ~ (email r = email0 /\ code r = code0)
  | MatchingRowExpired => email r = email0 /\ code r = code0 /\ expires_at r <= now0
  | MatchingRowUsed => email r = email0 /\ code r = code0 /\ used r = true
  end.



Definition row_old : row := Row "a@b.com" "123456" "verification" 10 1000 false.
Definition row_new : row := Row "a@b.com" "123456" "verification" 20 1000 false.
Definition row_reset : row := Row "a@b.com" "123456" "password_reset" 30 1000 false.
Definition row_used : row := Row "a@b.com" "654321" "verification" 5 1000 true.
Definition row_expired : row := Row "a@b.com" "111111" "verification" 5 400 false.
Definition row_new_used : row := Row "a@b.com" "123456" "verification" 20 1000 true.
Definition row_old_expired : row := Row "a@b.com" "123456" "verification" 5 400 false.
Definition row_other_user : row := Row "x@y.com" "123456" "verification" 30 1000 false.

Definition db_one_code : database :=
  Database true (Some (Table {[ 1 := row_old ]} 2)) 500.
Definition db_two_codes : database :=
  Database true (Some (Table (<[1 := row_old]> {[ 2 := row_new ]}) 3)) 500.
Definition db_reset_only : database :=
  Database true (Some (Table {[ 3 := row_reset ]} 4)) 500.
Definition db_used_only : database :=
  Database true (Some (Table {[ 4 := row_used ]} 5)) 500.
Definition db_expired_only : database :=
  Database true (Some (Table {[ 5 := row_expired ]} 6)) 500.

(** The newest row for the pair is used, or is of another type. *)
Definition db_newest_used : database :=
  Database true (Some (Table (<[1 := row_old]> {[ 2 := row_new_used ]}) 3)) 500.
Definition db_newest_reset : database :=
  Database true (Some (Table (<[1 := row_old]> {[ 3 := row_reset ]}) 4)) 500.

(** For the pair ("a@b.com", "123456"): an expired row, a used row, and a
    live row of another user. *)
Definition db_all_rejected : database :=
  Database true
    (Some (Table (<[1 := row_old_expired]> (<[2 := row_new_used]> {[ 3 := row_other_user ]})) 4))
    500.

(** A random supply whose first draw is 0.03125 and whose later draws are
    0.5. *)
Definition leading_zero_supply : rng_state :=
  Rng (fun n => match n with
                | O => S754_finite false (2 ^ 52) (-57)
                | _ => S754_finite false (2 ^ 52) (-53)
                end) 0.

(** A schema where the table exists and none of its indexes does (as
    after [createVerificationCodesTable] of [test-verification-code.js],
    which creates no index). *)
Definition table_without_indexes : EnsureVerificationCodes.database :=
  EnsureVerificationCodes.Database true
    {[ "verification_codes" := EnsureVerificationCodes.verification_codes_columns ]} ∅.

Definition empty_schema : EnsureVerificationCodes.database :=
  EnsureVerificationCodes.Database true ∅ ∅.

(** SendGrid answers every message with 403, _the from address does not
    match a verified Sender Identity_; the random source yields 0, then
    0.5 for ever. *)
Definition sender_not_verified : js_error :=
  JsError "Forbidden" (Some 403).

Definition rejecting_world : TestSendgridServiceNew.world :=
  TestSendgridServiceNew.World
    (Rng (fun n => match n with
                   | O => S754_zero false
                   | _ => S754_finite false (2 ^ 52) (-53)
                   end) 0)
    "noreply@tixoraa.com" "user@test.com"
    (fun _ => Some sender_not_verified)
    [].

End Examples.

(** ** Invariants of the store *)

Module Invariants.
Import TestVerificationCode.

(** A value exceeds its column: [email VARCHAR(255)], [code VARCHAR(10)],
    [type VARCHAR(50)]. *)
Definition too_long (email0 code0 type0 : string) : bool :=
  (255 <? String.length email0)%nat || (10 <? String.length code0)%nat
  || (50 <? String.length type0)%nat.

(** The ids in use come from the sequence, which starts at 1: they are
    positive and below its next value. *)
Definition well_formed (db : database) : Prop :=
  forall t, verification_codes db = Some t ->
    1 <= serial t /\ forall i, is_Some (rows t !! i) -> 1 <= i < serial t.

(** The database at a later reading of the clock. *)
Definition at_time (later : Z) (db : database) : database :=
  Database (connected db) (verification_codes db) later.

End Invariants.

(** ** test-verification-code.js: the email and the whole run *)

Module VerificationRun.
Import TestVerificationCode.

(** [{ to, from: { email, name }, subject, text, html }] *)
Record message := Message {
  to : string;
  from_email : string;
  from_name : string;
  subject : string;
  text : string;
  html : string
}.

(** What the script runs in: the database, the random source, the
    environment variables [SENDGRID_API_KEY] and [SENDGRID_FROM_EMAIL],
    how SendGrid answers a message (accepted, or the error [send] rejects
    with), the messages handed to [send] so far (latest first), the year
    [new Date().getFullYear()] reads, and by how many microseconds
    [setTimeout] fires late. The clock moves only while the script
    sleeps. *)
Record world := World {
  store : database;
  rng : rng_state;
  SENDGRID_API_KEY : option string;
  SENDGRID_FROM_EMAIL : option string;
  provider : message -> option js_error;
  attempted : list message;
  year : Z;
  overrun : Z
}.

Definition with_store (d : database) (w : world) : world :=
  World d (rng w) (SENDGRID_API_KEY w) (SENDGRID_FROM_EMAIL w) (provider w)
        (attempted w) (year w) (overrun w).

Definition with_rng (g : rng_state) (w : world) : world :=
  World (store w) g (SENDGRID_API_KEY w) (SENDGRID_FROM_EMAIL w) (provider w)
        (attempted w) (year w) (overrun w).

Definition on_store {A} (c : M database A) : M world A := zoom store with_store c.

(** [!v] for an environment variable: unset, or the empty string. *)
Definition falsy (v : option string) : bool :=
  match v with
  | None => true
  | Some v' => (String.length v' =? 0)%nat
  end.

(** [sgMail.send(msg)] *)
Definition sgMail_send (msg : message) : M world unit :=
  fun w =>
    let w' := World (store w) (rng w) (SENDGRID_API_KEY w) (SENDGRID_FROM_EMAIL w)
                    (provider w) (msg :: attempted w) (year w) (overrun w) in
    match provider w msg with
    | Some error => (Thrown error, w')
    | None => (Returned tt, w')
    end.

Definition text_body (code0 : string) : string :=
  String.concat ""
    [ "Your verification code for Tixoraa is: "; code0;
      ". This code will expire in 30 minutes." ].

(** The HTML body; style attributes and layout whitespace are left out. *)
Definition html_body (code0 : string) (year0 : Z) : string :=
  String.concat ""
    [ "<div><div><h1>Tixoraa</h1><p>Your Event Management Platform</p></div>";
      "<div><h2>Verify Your Email</h2>";
      "<p>Thanks for signing up with Tixoraa! Please use the verification code below to complete your registration:</p>";
      "<div>"; code0; "</div>";
      "<p>This code will expire in 30 minutes. If you didn't request this code, please ignore this email.</p>";
      "<p>Need help? Contact our support team at support@tixoraa.com</p></div>";
      "<div><p>© "; JsNumber.decimal year0; " Tixoraa. All rights reserved.</p>";
      "<p>123 Event Street, Suite 100, San Francisco, CA 94103</p></div></div>" ].

Definition verification_message (email0 fromEmail code0 : string) (year0 : Z) : message :=
  Message email0 fromEmail "Tixoraa Support" "Tixoraa Verification Code"
          (text_body code0) (html_body code0 year0).

(** [sgMail.setApiKey] stores the key; it does not throw. *)
Definition sendVerificationCodeEmail (email0 code0 : string) : M world bool :=
  w <- get ;;
  if falsy (SENDGRID_API_KEY w) then ret false
  else if falsy (SENDGRID_FROM_EMAIL w) then ret false
  else
    let fromEmail := default "" (SENDGRID_FROM_EMAIL w) in
    try_catch
      (sgMail_send (verification_message email0 fromEmail code0 (year w)) ;;;
       ret true)
      (fun error => ret false).

(** [SELECT NOW()] *)
Definition select_now : M database Z := fun d => (Returned (now d), d).

(** [await new Promise(resolve => setTimeout(resolve, ms))] *)
Definition sleep (ms : Z) : M world unit :=
  fun w =>
    (Returned tt,
     with_store (Database (connected (store w)) (verification_codes (store w))
                          (now (store w) + ms * 1000 + overrun w)) w).

(** The function returns [undefined] at each of its [return] statements and
    at its end. *)
Definition runVerificationTest (email0 : string) : M world unit :=
  reachable <- try_catch (on_store (pool_query select_now) ;;; ret true)
                         (fun error => ret false) ;;
  if negb reachable then ret tt
  else
    tableExists <- on_store checkVerificationCodesTable ;;
    created <- (if tableExists : bool then ret true
                else on_store createVerificationCodesTable) ;;
    if negb created then ret tt
    else
      code0 <- zoom rng with_rng generateVerificationCode ;;
      codeId <- on_store (saveVerificationCode email0 code0 "verification") ;;
      match codeId with
      | None => ret tt
      | Some id =>
          if id =? 0 then ret tt
          else
            emailSent <- sendVerificationCodeEmail email0 code0 ;;
            if negb emailSent then ret tt
            else
              sleep 5000 ;;;
              verifiedCodeId <- on_store (checkVerificationCode email0 code0) ;;
              match verifiedCodeId with
              | None => ret tt
              | Some verified =>
                  if verified =? 0 then ret tt
                  else
                    on_store (markVerificationCodeAsUsed verified) ;;;
                    ret tt
              end
      end.

(** A world for the examples: a reachable store holding one code at time
    500, a random source that yields 0.5 for ever (the code "550000"), a
    SendGrid that accepts or rejects every message, a timer 2 ms late. *)
Definition example_world (answer : option js_error) : world :=
  World (Database true (Some (Table {[ 1 := Row "a@b.com" "123456" "verification" 10 1000 false ]} 2)) 500)
        (Rng (fun _ => S754_finite false (2 ^ 52) (-53)) 0)
        (Some "SG.key") (Some "noreply@tixoraa.com")
        (fun _ => answer) [] 2025 2000.

End VerificationRun.

(** ** test-sendgrid.js: the script that sends one test email *)

Module TestSendgridScript.
Import JsRegExp VerificationRun.

(** Strings a user types are kept as UTF-16 code units, as [isValidEmail]
    reads them. *)
Record message := Message {
  to : list N;
  from : string;
  subject : string;
  text : string;
  html : string
}.

(** How the process ends: the script runs to its end, or [process.exit]
    stops it with a status. *)
Inductive completion :=
| Finished
| Exited (status : Z).

(** The random source, [process.argv[2]], the environment, how SendGrid
    answers a message, and the messages handed to [send] so far (latest
    first). *)
Record world := World {
  rng : rng_state;
  argv2 : option (list N);
  SENDGRID_API_KEY : option string;
  SENDGRID_FROM_EMAIL : option string;
  provider : message -> option js_error;
  attempted : list message
}.

Definition with_rng (g : rng_state) (w : world) : world :=
  World g (argv2 w) (SENDGRID_API_KEY w) (SENDGRID_FROM_EMAIL w) (provider w) (attempted w).

(** [process.argv[2] || 'test@example.com'] *)
Definition testEmail (w : world) : list N :=
  match argv2 w with
  | Some (c :: s) => c :: s
  | _ => of_ascii "test@example.com"
  end.

(** [mailService.send(msg)] *)
Definition mailService_send (msg : message) : M world unit :=
  fun w =>
    let w' := World (rng w) (argv2 w) (SENDGRID_API_KEY w) (SENDGRID_FROM_EMAIL w)
                    (provider w) (msg :: attempted w) in
    match provider w msg with
    | Some error => (Thrown error, w')
    | None => (Returned tt, w')
    end.

Definition text_body (verificationCode : string) : string :=
  String.concat ""
    [ "Your verification code is: "; verificationCode;
      ". This code is valid for 15 minutes. Please do not share this code with anyone." ].

(** The HTML body; style attributes and layout whitespace are left out. *)
Definition html_body (verificationCode : string) : string :=
  String.concat ""
    [ "<div><h2>Your Verification Code</h2><div><div>"; verificationCode; "</div></div>";
      "<p>This code is valid for 15 minutes. Please do not share this code with anyone.</p>";
      "<div><p>This email was sent from Tixoraa. If you did not request this code, please ignore this email.</p></div></div>" ].

Definition sendTestEmail : M world completion :=
  w <- get ;;
  if falsy (SENDGRID_API_KEY w) then ret (Exited 1)
  else
    let fromEmail :=
      if falsy (SENDGRID_FROM_EMAIL w) then "test@example.com"
      else default "" (SENDGRID_FROM_EMAIL w) in
    try_catch
      (verificationCode <- zoom rng with_rng TestSendgrid.generateVerificationCode ;;
       mailService_send (Message (testEmail w) fromEmail "Your Verification Code"
                                 (text_body verificationCode) (html_body verificationCode)) ;;;
       ret Finished)
      (fun error => ret (Exited 1)).

(** The script from top to bottom: the address is validated, then
    [sendTestEmail().catch(...)] runs. *)
Definition script : M world completion :=
  w <- get ;;
  if negb (isValidEmail (testEmail w)) then ret (Exited 1)
  else try_catch sendTestEmail (fun error => ret (Exited 1)).

(** A run without arguments and without [SENDGRID_FROM_EMAIL]. *)
Definition example_world : world :=
  World (Rng (fun _ => S754_finite false (2 ^ 52) (-53)) 0)
        None (Some "SG.key") None (fun _ => None) [].

End TestSendgridScript.

(** * Proofs *)

(** ** Binary64 rounding *)

Section Binary64.
Import JsNumber.

Lemma digits2_pos_size p : digits2_pos p = Pos.size p.
Proof. induction p; simpl; congruence. Qed.

Lemma digits2_bounds (p : positive) :
  2 ^ (Z.pos (digits2_pos p) - 1) <= Z.pos p < 2 ^ Z.pos (digits2_pos p).
Proof.
  rewrite digits2_pos_size. split.
  - pose proof (Pos.size_le p) as H.
    assert (Z.pos (2 ^ Pos.size p) <= Z.pos p~0) by (apply Pos2Z.pos_le_pos; exact H).
    rewrite Pos2Z.inj_pow in H0.
    replace (Z.pos (Pos.size p)) with (Z.succ (Z.pos (Pos.size p) - 1)) in H0 by lia.
    rewrite Z.pow_succ_r in H0 by lia. lia.
  - pose proof (Pos.size_gt p) as H.
    assert (Z.pos p < Z.pos (2 ^ Pos.size p)) by (apply Pos2Z.pos_lt_pos; exact H).
    rewrite Pos2Z.inj_pow in H0. exact H0.
Qed.

Lemma digits2_unique (p : positive) (k : Z) :
  2 ^ (k - 1) <= Z.pos p < 2 ^ k -> Z.pos (digits2_pos p) = k.
Proof.
  intros [Hlo Hhi]. pose proof (digits2_bounds p) as [Dlo Dhi].
  set (d := Z.pos (digits2_pos p)) in *.
  assert (0 < d) by (subst d; lia).
  assert (0 < k).
  { destruct (Z_lt_le_dec 0 k); trivial.
    assert (2 ^ k <= 2 ^ 0) by (destruct (Z.eq_dec k 0); [subst; lia | rewrite Z.pow_neg_r by lia; simpl; lia]).
    simpl in *. lia. }
  assert (k - 1 < d) by (apply (Z.pow_lt_mono_r_iff 2); lia).
  assert (d - 1 < k) by (apply (Z.pow_lt_mono_r_iff 2); lia).
  lia.
Qed.

Ltac pow2 :=
  match goal with
  | |- 0 < 2 ^ _ => apply Z.pow_pos_nonneg; lia
  | |- 2 ^ _ <> 0 => apply Z.pow_nonzero; lia
  | |- 0 <= 2 ^ _ => apply Z.pow_nonneg; lia
  | _ => lia
  end.

(** Shifting a mantissa right, one bit at a time. *)
Lemma shr_1_spec mrs :
  0 <= shr_m mrs ->
  shr_m (shr_1 mrs) = shr_m mrs / 2 /\ shr_r (shr_1 mrs) = Z.odd (shr_m mrs).
Proof.
  destruct mrs as [m r s]. simpl. intros Hm.
  destruct m as [|p|p]; [ | | lia].
  - split; reflexivity.
  - destruct p as [p|p|]; simpl.
    + split; [ | reflexivity ]. rewrite Pos2Z.inj_xI.
      apply (Z.div_unique _ _ _ 1); lia.
    + split; [ | reflexivity ]. rewrite Pos2Z.inj_xO.
      apply (Z.div_unique _ _ _ 0); lia.
    + split; reflexivity.
Qed.

Lemma iter_pos_shr_1 (p : positive) : forall mrs,
  0 <= shr_m mrs ->
  shr_m (SpecFloat.iter_pos shr_1 p mrs) = shr_m mrs / 2 ^ Z.pos p /\
  shr_r (SpecFloat.iter_pos shr_1 p mrs) = Z.testbit (shr_m mrs) (Z.pos p - 1).
Proof.
  induction p as [p IH|p IH|]; intros mrs Hm; simpl SpecFloat.iter_pos.
  - destruct (shr_1_spec mrs Hm) as [H1 _].
    assert (H1' : 0 <= shr_m (shr_1 mrs)) by (rewrite H1; apply Z.div_pos; lia).
    destruct (IH _ H1') as [H2 _].
    assert (H2' : 0 <= shr_m (SpecFloat.iter_pos shr_1 p (shr_1 mrs)))
      by (rewrite H2; apply Z.div_pos; [lia | apply Z.pow_pos_nonneg; lia]).
    destruct (IH _ H2') as [H3 H4]. rewrite H3, H4, H2, H1. split.
    + rewrite (Pos2Z.inj_xI p).
      replace (2 * Z.pos p + 1) with (1 + Z.pos p + Z.pos p) by lia.
      rewrite !Z.pow_add_r by lia. rewrite !Z.div_div by pow2.
      f_equal. change (2 ^ 1) with 2. lia.
    + rewrite Z.div_pow2_bits by lia.
      replace (shr_m mrs / 2) with (shr_m mrs / 2 ^ 1) by reflexivity.
      rewrite Z.div_pow2_bits by lia. f_equal. lia.
  - destruct (IH _ Hm) as [H2 _].
    assert (H2' : 0 <= shr_m (SpecFloat.iter_pos shr_1 p mrs))
      by (rewrite H2; apply Z.div_pos; [lia | apply Z.pow_pos_nonneg; lia]).
    destruct (IH _ H2') as [H3 H4]. rewrite H3, H4, H2. split.
    + rewrite (Pos2Z.inj_xO p).
      replace (2 * Z.pos p) with (Z.pos p + Z.pos p) by lia.
      rewrite Z.pow_add_r by lia. rewrite Z.div_div by pow2.
      reflexivity.
    + rewrite Z.div_pow2_bits by lia. f_equal. lia.
  - destruct (shr_1_spec mrs Hm) as [H1 H2]. rewrite H1, H2. split.
    + reflexivity.
    + symmetry. apply Z.bit0_odd.
Qed.

Lemma testbit_false_of_small m n :
  0 <= m -> 0 < n -> 2 * (m mod 2 ^ n) < 2 ^ n -> Z.testbit m (n - 1) = false.
Proof.
  intros Hm Hn Hr.
  apply Z.testbit_false; [lia|].
  assert (P : 0 < 2 ^ (n - 1)) by (apply Z.pow_pos_nonneg; lia).
  assert (E : 2 ^ n = 2 * 2 ^ (n - 1)).
  { replace n with (Z.succ (n - 1)) at 1 by lia. rewrite Z.pow_succ_r by lia. reflexivity. }
  pose proof (Z.div_mod m (2 ^ n) ltac:(lia)) as D.
  pose proof (Z.mod_pos_bound m (2 ^ n) ltac:(lia)) as B.
  set (q := m / 2 ^ n) in *. set (r := m mod 2 ^ n) in *.
  assert (m / 2 ^ (n - 1) = 2 * q).
  { symmetry. apply (Z.div_unique _ _ _ r); nia. }
  rewrite H. rewrite Z.mul_comm. apply Z.mod_mul. lia.
Qed.

Lemma round_shift_0 m : round_shift m 0 = m.
Proof. reflexivity. Qed.

Lemma round_shift_bounds m n :
  0 <= m -> 0 <= n ->
  m / 2 ^ n <= round_shift m n <= m / 2 ^ n + 1 /\
  (2 * (m mod 2 ^ n) < 2 ^ n -> round_shift m n = m / 2 ^ n).
Proof.
  intros Hm Hn. unfold round_shift, shr.
  destruct n as [|p|p]; [ | | lia].
  - simpl. rewrite Z.div_1_r. split; [lia | reflexivity].
  - cbn [fst].
    destruct (iter_pos_shr_1 p (Build_shr_record m false false) Hm) as [H1 H2].
    cbn [shr_m] in H1, H2.
    destruct (SpecFloat.iter_pos shr_1 p _) as [m' r' s']. cbn [shr_m shr_r] in *. subst m'.
    split.
    + destruct r', s'; simpl; try lia; destruct (Z.even _); lia.
    + intros Hr. rewrite (testbit_false_of_small m (Z.pos p)) in H2 by lia.
      subst r'. destruct s'; reflexivity.
Qed.


(** Rounding stays on the right side of a grid point: a mantissa at most
    [R] above [B * 2^n], with [R] below half a unit, rounds to at most [B];
    a mantissa that is at least [B * 2^n] rounds to at least [B]. *)
Lemma round_shift_le (m n B R : Z) :
  0 <= m -> 0 <= n -> 0 <= R -> 2 * R < 2 ^ n -> m <= B * 2 ^ n + R ->
  round_shift m n <= B.
Proof.
  intros Hm Hn HR HR2 Hle.
  destruct (round_shift_bounds m n Hm Hn) as [[_ Rhi] Rex].
  assert (P : 0 < 2 ^ n) by pow2.
  pose proof (Z.div_mod m (2 ^ n) ltac:(lia)) as DM.
  pose proof (Z.mod_pos_bound m (2 ^ n) P) as MB.
  set (q := m / 2 ^ n) in *. set (rem := m mod 2 ^ n) in *. set (T := 2 ^ n) in *.
  assert (Hq : q < B + 1).
  { apply (Z.mul_lt_mono_pos_l T); [exact P|]. lia. }
  destruct (Z.eq_dec q B) as [->|Hne]; [|lia].
  rewrite Rex; lia.
Qed.

Lemma round_shift_ge (m n B : Z) :
  0 <= m -> 0 <= n -> B * 2 ^ n <= m -> B <= round_shift m n.
Proof.
  intros Hm Hn Hle.
  destruct (round_shift_bounds m n Hm Hn) as [[Rlo _] _].
  assert (P : 0 < 2 ^ n) by pow2.
  apply Z.le_trans with (m / 2 ^ n); [|exact Rlo].
  apply Z.div_le_lower_bound; lia.
Qed.

Lemma fexp_eq e : fexp prec emax e = Z.max (e - 53) (-1074).
Proof. reflexivity. Qed.

Lemma Zdigits2_pos (p : positive) : Zdigits2 (Z.pos p) = Z.pos (digits2_pos p).
Proof. reflexivity. Qed.

Ltac fexp_lia := rewrite ?fexp_eq in *; unfold prec, emax in *; lia.

(** Renormalisation after rounding: a mantissa of [k] digits, or the power
    of two just above, at an exponent where [k] digits fit. *)
Lemma shr_fexp_renormalise (m1 e1 k : Z) :
  1 <= k -> 2 ^ (k - 1) <= m1 <= 2 ^ k -> fexp prec emax (k + e1) <= e1 ->
  exists mrs e,
    shr_fexp prec emax m1 e1 loc_Exact = (mrs, e) /\
    0 < shr_m mrs /\ e1 <= e <= Z.max e1 (fexp prec emax (k + 1 + e1)) /\
    shr_m mrs * 2 ^ (e - e1) = m1.
Proof.
  intros Hk [Hlo Hhi] Hfit.
  assert (P : 0 < 2 ^ (k - 1)) by pow2.
  assert (E2 : 2 ^ k = 2 * 2 ^ (k - 1)).
  { replace k with (Z.succ (k - 1)) at 1 by lia. rewrite Z.pow_succ_r by lia. reflexivity. }
  destruct m1 as [|p1|p1]; try lia.
  unfold shr_fexp. rewrite Zdigits2_pos. cbn [shr_record_of_loc].
  destruct (Z.eq_dec (Z.pos p1) (2 ^ k)) as [Heq|Hne].
  - (* the rounding carried into the next binade *)
    assert (D : Z.pos (digits2_pos p1) = k + 1).
    { apply digits2_unique. replace (k + 1 - 1) with k by lia.
      replace (k + 1) with (Z.succ k) by lia. rewrite Z.pow_succ_r by lia. lia. }
    rewrite D. set (N := fexp prec emax (k + 1 + e1) - e1).
    assert (HN : N <= 1) by (subst N; fexp_lia).
    destruct N as [|pN|pN] eqn:EN.
    + eexists _, _. split; [reflexivity|]. cbn [shr_m].
      replace (e1 - e1) with 0 by lia. rewrite Z.pow_0_r. lia.
    + assert (pN = 1%positive) by lia. subst pN.
      eexists _, _. split; [reflexivity|]. cbn [SpecFloat.iter_pos].
      destruct (shr_1_spec (Build_shr_record (Z.pos p1) false false)) as [H1 _];
        [cbn; lia|]. cbn [shr_m] in H1. rewrite H1.
      replace (e1 + 1 - e1) with 1 by lia. change (2 ^ 1) with 2.
      assert (Z.pos p1 / 2 = 2 ^ (k - 1)).
      { symmetry. apply (Z.div_unique _ _ _ 0); lia. }
      rewrite H. lia.
    + eexists _, _. split; [reflexivity|]. cbn [shr_m].
      replace (e1 - e1) with 0 by lia. rewrite Z.pow_0_r. lia.
  - assert (D : Z.pos (digits2_pos p1) = k) by (apply digits2_unique; lia).
    rewrite D. set (N := fexp prec emax (k + e1) - e1).
    assert (HN : N <= 0) by (subst N; lia).
    destruct N as [|pN|pN] eqn:EN; try lia;
      (eexists _, _; split; [reflexivity|]; cbn [shr_m];
       replace (e1 - e1) with 0 by lia; rewrite Z.pow_0_r; lia).
Qed.

(** [binary_round_aux] on an exact positive mantissa that neither
    underflows to zero nor overflows: the result is the mantissa shifted
    to the format's exponent and rounded. *)
Lemma binary_round_aux_pos (mx : positive) (ex : Z) :
  let d := Z.pos (digits2_pos mx) in
  let n := Z.max 0 (fexp prec emax (d + ex) - ex) in
  n < d -> d + ex < emax -> ex <= emax - prec ->
  exists m' e',
    binary_round_aux prec emax false (Z.pos mx) ex loc_Exact = S754_finite false m' e' /\
    ex + n <= e' <= Z.max (ex + n) (fexp prec emax (d + 1 + ex)) /\
    Z.pos m' * 2 ^ (e' - (ex + n)) = round_shift (Z.pos mx) n.
Proof.
  intros d n Hnd Hov Hex.
  pose proof (digits2_bounds mx) as [Dlo Dhi]. fold d in Dlo, Dhi.
  assert (Hn0 : 0 <= n) by (subst n; lia).
  destruct (round_shift_bounds (Z.pos mx) n ltac:(lia) Hn0) as [[Rlo Rhi] _].
  set (m1 := round_shift (Z.pos mx) n) in *.
  (* the quotient has exactly d - n digits *)
  assert (Pn : 0 < 2 ^ n) by pow2.
  assert (Pdn : 0 < 2 ^ (d - n - 1)) by pow2.
  assert (Ed : 2 ^ d = 2 ^ n * (2 * 2 ^ (d - n - 1))).
  { replace d with (n + Z.succ (d - n - 1)) at 1 by lia.
    rewrite Z.pow_add_r by lia. rewrite Z.pow_succ_r by lia. reflexivity. }
  assert (Ed1 : 2 ^ (d - 1) = 2 ^ n * 2 ^ (d - n - 1)).
  { replace (d - 1) with (n + (d - n - 1)) at 1 by lia.
    rewrite Z.pow_add_r by lia. reflexivity. }
  assert (Qlo : 2 ^ (d - n - 1) <= Z.pos mx / 2 ^ n).
  { apply Z.div_le_lower_bound; lia. }
  assert (Qhi : Z.pos mx / 2 ^ n < 2 * 2 ^ (d - n - 1)).
  { apply Z.div_lt_upper_bound; lia. }
  (* first shift and rounding *)
  unfold binary_round_aux.
  assert (S1 : shr_fexp prec emax (Z.pos mx) ex loc_Exact =
               (fst (shr (Build_shr_record (Z.pos mx) false false) 0 n), ex + n)).
  { unfold shr_fexp. rewrite Zdigits2_pos. fold d. cbn [shr_record_of_loc].
    subst n. destruct (fexp prec emax (d + ex) - ex) as [|p|p] eqn:EN.
    - cbn. f_equal. lia.
    - rewrite Z.max_r by lia. cbn. reflexivity.
    - rewrite Z.max_l by lia. cbn. f_equal. lia. }
  rewrite S1. fold (round_shift (Z.pos mx) n). fold m1.
  destruct (shr_fexp_renormalise m1 (ex + n) (d - n)) as (mrs & e & S2 & Hpos & He & Hval).
  - lia.
  - replace (2 ^ (d - n)) with (2 * 2 ^ (d - n - 1)).
    + lia.
    + replace (d - n) with (Z.succ (d - n - 1)) at 2 by lia.
      rewrite Z.pow_succ_r by lia. reflexivity.
  - subst n. fexp_lia.
  - rewrite S2. destruct (shr_m mrs) as [|pm|pm] eqn:Em; try lia.
    assert (Hle : (e <=? emax - prec) = true).
    { apply Z.leb_le. subst n. fexp_lia. }
    rewrite Hle. exists pm, e. split; [reflexivity|]. split; [|exact Hval].
    replace (d + 1 + ex) with (d - n + 1 + (ex + n)) by lia. lia.
Qed.

(** What [Math.random()] may return: +0, or a positive canonical Number
    below 1, that is a mantissa below 2^53 at an exponent of at most -53. *)
Lemma unit_random_inv (r : spec_float) :
  is_unit_random r = true ->
  r = S754_zero false \/
  exists m e, r = S754_finite false m e /\ -1074 <= e <= -53 /\ Z.pos m < 2 ^ 53.
Proof.
  unfold is_unit_random. intros H. apply andb_prop in H as [Hv Hr].
  destruct r as [s|s| |s m e]; try discriminate.
  - destruct s; [discriminate | left; reflexivity].
  - destruct s; [discriminate|]. right. exists m, e. split; [reflexivity|].
    cbn [valid_binary] in Hv. unfold bounded, canonical_mantissa in Hv.
    apply andb_prop in Hv as [Hc _]. apply Z.eqb_eq in Hc. rewrite fexp_eq in Hc.
    pose proof (digits2_bounds m) as [Dlo Dhi].
    set (d := Z.pos (digits2_pos m)) in *.
    change (literal 1) with (S754_finite false 4503599627370496 (-52)) in Hr.
    unfold SFltb, SFcompare in Hr.
    assert (Hd : d <= 53) by lia.
    assert (He : e <= -53).
    { destruct (Z.compare_spec e (-52)) as [E|E|E]; try discriminate; [|lia].
      subst e. assert (d = 53) by lia.
      rewrite Pos.compare_cont_spec in Hr. cbn [Pos.switch_Eq] in Hr.
      destruct (Pos.compare_spec m 4503599627370496) as [E|E|E]; try discriminate.
      apply Pos2Z.pos_lt_pos in E.
      replace (d - 1) with 52 in Dlo by lia.
      change (2 ^ 52) with 4503599627370496 in Dlo. lia. }
    split; [lia|].
    apply Z.lt_le_trans with (2 ^ d); [exact Dhi|].
    apply Z.pow_le_mono_r; lia.
Qed.

Lemma pow2_split (a b : Z) : 0 <= a -> 0 <= b -> 2 ^ (a + b) = 2 ^ a * 2 ^ b.
Proof. intros. apply Z.pow_add_r; lia. Qed.

(** The product of a random Number below 1 and a constant [c = N * 2^ec]
    (normal, not a power of two) stays strictly below [c]: at most the
    Number just before it, [(N - 1) * 2^ec]. Values are compared at the
    exponent [e + ec] of the exact product. *)
Lemma mul_unit_bound (m : positive) (e : Z) (N : positive) (ec : Z) :
  -1074 <= e <= -53 -> Z.pos m < 2 ^ 53 ->
  2 ^ 52 < Z.pos N < 2 ^ 53 -> -53 < ec <= 0 ->
  exists m' e',
    mul (S754_finite false m e) (S754_finite false N ec) = S754_finite false m' e' /\
    e + ec <= e' <= ec + 1 /\
    Z.pos m' * 2 ^ (e' - (e + ec)) <= (Z.pos N - 1) * 2 ^ (- e).
Proof.
  intros He Hm HN Hec.
  unfold mul, SFmul. cbn [xorb].
  set (ex := e + ec).
  pose proof (digits2_bounds (m * N)) as [Dlo Dhi].
  set (X := Z.pos (m * N)) in *.
  assert (HX : X = Z.pos m * Z.pos N) by (subst X; apply Pos2Z.inj_mul).
  (* powers of two in play *)
  set (h := 2 ^ 52) in *.
  assert (Hh : 0 < h) by (subst h; pow2).
  assert (E53 : 2 ^ 53 = 2 * h) by reflexivity.
  rewrite E53 in Hm, HN.
  set (T' := 2 ^ (- e - 53)).
  assert (HT' : 1 <= T') by (subst T'; assert (0 < 2 ^ (- e - 53)) by pow2; lia).
  assert (ET : 2 ^ (- e) = 2 * h * T').
  { subst T'. replace (- e) with (53 + (- e - 53)) at 1 by lia.
    rewrite pow2_split by lia. rewrite E53. reflexivity. }
  assert (HXlo : h < X) by (rewrite HX; clear - Hm HN Hh; nia).
  assert (HXhi : X <= (Z.pos N - 1) * (2 * h * T') + T' * (2 * h - Z.pos N)).
  { rewrite HX. clear - Hm HN Hh HT'.
    assert (Z.pos m * Z.pos N <= (2 * h - 1) * Z.pos N) by nia.
    assert ((2 * h - 1) * Z.pos N * 1 <= (2 * h - 1) * Z.pos N * T').
    { apply Z.mul_le_mono_nonneg_l; nia. }
    lia. }
  set (d := Z.pos (digits2_pos (m * N))) in *.
  assert (Hd53 : 53 <= d).
  { assert (52 < d); [|lia]. apply (Z.pow_lt_mono_r_iff 2); [lia|lia|]. fold h. lia. }
  assert (HdT : d <= 53 - e).
  { assert (d - 1 < 53 - e); [|lia]. apply (Z.pow_lt_mono_r_iff 2); [lia|lia|].
    replace (53 - e) with (53 + - e) by lia.
    rewrite pow2_split by lia. rewrite E53, ET.
    apply Z.le_lt_trans with X; [exact Dlo|]. clear - HXhi HN Hh HT'. nia. }
  destruct (binary_round_aux_pos (m * N) ex) as (m' & e' & Hres & He' & Hval);
    fold d; try (subst ex; fexp_lia).
  fold d in He', Hval. fold X in Hval.
  set (n := Z.max 0 (fexp prec emax (d + ex) - ex)) in *.
  assert (Hn : n = Z.max 0 (Z.max (d - 53) (- 1074 - ex))) by (subst n; fexp_lia).
  exists m', e'. split; [exact Hres|]. split; [subst ex; fexp_lia|].
  set (RS := round_shift X n) in *.
  assert (Pn : 0 < 2 ^ n) by pow2.
  fold ex.
  replace (e' - ex) with ((e' - (ex + n)) + n) by lia.
  rewrite pow2_split by lia. rewrite Z.mul_assoc, Hval, ET.
  destruct (Z_lt_le_dec X (h * (2 * h * T'))) as [Hsmall|Hbig].
  - (* below the binade of the constant: rounding cannot leave it *)
    assert (Hd52 : d <= 52 - e).
    { assert (d - 1 < 52 - e); [|lia]. apply (Z.pow_lt_mono_r_iff 2); [lia|lia|].
      replace (52 - e) with (52 + - e) by lia. rewrite pow2_split by lia.
      fold h. rewrite ET. lia. }
    assert (EK : h * (2 * h * T') = 2 ^ (52 - e - n) * 2 ^ n).
    { rewrite <- pow2_split by (subst ex; lia).
      replace (52 - e - n + n) with (52 + - e) by lia.
      rewrite pow2_split by lia. fold h. rewrite ET. reflexivity. }
    set (K := 2 ^ (52 - e - n)) in *.
    assert (HRS : RS <= K).
    { apply (round_shift_le X n K 0); lia. }
    apply Z.le_trans with (K * 2 ^ n).
    + apply Z.mul_le_mono_nonneg_r; lia.
    + rewrite <- EK. apply Z.mul_le_mono_nonneg_r; [|lia].
      clear - Hh HT'. nia.
  - (* in the binade of the constant: the grid is 2^ec *)
    assert (Hd : d = 53 - e).
    { assert (52 - e < d); [|lia]. apply (Z.pow_lt_mono_r_iff 2); [lia|lia|].
      replace (52 - e) with (52 + - e) by lia. rewrite pow2_split by lia.
      fold h. rewrite ET. lia. }
    assert (Hne : n = - e) by (subst ex; lia).
    assert (En : 2 ^ n = 2 * h * T') by (rewrite Hne; exact ET).
    assert (HRS : RS <= Z.pos N - 1).
    { assert (HR0 : 0 <= T' * (2 * h - Z.pos N)) by (clear - HN HT'; nia).
      assert (HR2 : 2 * (T' * (2 * h - Z.pos N)) < 2 ^ n)
        by (rewrite En; clear - HN HT' Hh; nia).
      apply (round_shift_le X n (Z.pos N - 1) (T' * (2 * h - Z.pos N)));
        [lia | lia | exact HR0 | exact HR2 | rewrite En; exact HXhi]. }
    rewrite En. apply Z.mul_le_mono_nonneg_r; [|exact HRS].
    clear - Hh HT'. nia.
Qed.

Lemma Pos_iter_xO (mx d : positive) :
  Z.pos (Pos.iter xO mx d) = Z.pos mx * 2 ^ Z.pos d.
Proof.
  induction d as [|d IH] using Pos.peano_ind.
  - cbn [Pos.iter]. rewrite (Pos2Z.inj_xO mx). change (2 ^ 1) with 2. lia.
  - rewrite Pos.iter_succ, (Pos2Z.inj_xO (Pos.iter xO mx d)), IH, Pos2Z.inj_succ.
    rewrite Z.pow_succ_r by lia. lia.
Qed.

Lemma shl_align_spec (mx : positive) (ex ex' : Z) :
  snd (shl_align mx ex ex') = Z.min ex ex' /\
  Z.pos (fst (shl_align mx ex ex')) = Z.pos mx * 2 ^ (ex - Z.min ex ex').
Proof.
  unfold shl_align. destruct (ex' - ex) as [|p|p] eqn:E; cbn [fst snd].
  - rewrite Z.min_l by lia. replace (ex - ex) with 0 by lia. rewrite Z.pow_0_r. lia.
  - rewrite Z.min_l by lia. replace (ex - ex) with 0 by lia. rewrite Z.pow_0_r. lia.
  - rewrite Z.min_r by lia. rewrite Pos_iter_xO. split; [reflexivity|].
    f_equal. f_equal. lia.
Qed.

(** A positive Number that denotes the integer [k], compared at exponent [b]. *)
Lemma integer_value_scaled (m : positive) (e b k : Z) :
  b <= e -> b <= 0 -> Z.pos m * 2 ^ (e - b) = k * 2 ^ (- b) ->
  integer_value (S754_finite false m e) = Some k.
Proof.
  intros Hbe Hb H. unfold integer_value. cbn [cond_Zopp].
  destruct (Z.leb_spec 0 e) as [He|He].
  - f_equal. replace (e - b) with (e + - b) in H by lia.
    rewrite pow2_split in H by lia.
    assert (0 < 2 ^ (- b)) by pow2. nia.
  - replace (- b) with (- e + (e - b)) in H by lia.
    rewrite pow2_split in H by lia.
    assert (0 < 2 ^ (e - b)) by pow2. assert (0 < 2 ^ (- e)) by pow2.
    assert (E : Z.pos m = k * 2 ^ (- e)) by nia.
    rewrite E, Z.mod_mul by lia. cbn. rewrite Z.div_mul by lia. reflexivity.
Qed.

(** An integer literal below 2^53 is exact. *)
Lemma literal_integer_value (k : Z) :
  0 < k < 2 ^ 53 ->
  exists m e, literal k = S754_finite false m e /\ integer_value (literal k) = Some k.
Proof.
  intros [Hk0 Hk]. destruct k as [|pk|pk]; try lia.
  unfold literal, binary_normalize, binary_round.
  pose proof (digits2_bounds pk) as [Dlo Dhi].
  set (dk := Z.pos (digits2_pos pk)) in *.
  assert (Hdk : 1 <= dk <= 53).
  { split; [subst dk; lia|]. assert (dk - 1 < 53); [|lia].
    apply (Z.pow_lt_mono_r_iff 2); lia. }
  destruct (shl_align_spec pk 0 (fexp prec emax (dk + 0))) as [Hs Hf].
  destruct (shl_align pk 0 (fexp prec emax (dk + 0))) as [mz ez]. cbn [fst snd] in Hs, Hf.
  assert (Hez : ez = dk - 53) by fexp_lia.
  assert (Hf' : Z.pos mz = Z.pos pk * 2 ^ (53 - dk)).
  { rewrite Hf. f_equal. f_equal. fexp_lia. }
  clear Hs Hf. subst ez.
  assert (Hdz : Z.pos (digits2_pos mz) = 53).
  { apply digits2_unique. rewrite Hf'.
    assert (P : 0 < 2 ^ (53 - dk)) by pow2.
    assert (E52 : 2 ^ (53 - 1) = 2 ^ (dk - 1) * 2 ^ (53 - dk)).
    { rewrite <- pow2_split by lia. f_equal. lia. }
    assert (E53 : 2 ^ 53 = 2 ^ dk * 2 ^ (53 - dk)).
    { rewrite <- pow2_split by lia. f_equal. lia. }
    rewrite E52, E53. split.
    - apply Z.mul_le_mono_nonneg_r; lia.
    - apply Z.mul_lt_mono_pos_r; lia. }
  destruct (binary_round_aux_pos mz (dk - 53)) as (m' & e' & Hres & He' & Hval);
    rewrite ?Hdz; try fexp_lia.
  rewrite Hdz in *.
  replace (Z.max 0 (fexp prec emax (53 + (dk - 53)) - (dk - 53))) with 0 in * by fexp_lia.
  rewrite round_shift_0 in Hval.
  exists m', e'. split; [exact Hres|]. rewrite Hres.
  apply (integer_value_scaled m' e' (dk - 53)); try lia.
  replace (dk - 53 + 0) with (dk - 53) in Hval by lia.
  rewrite Hval, Hf'. f_equal. f_equal. lia.
Qed.

Lemma toString_literal (k : Z) :
  0 <= k < 2 ^ 53 -> toString (literal k) = Some (decimal k).
Proof.
  intros [Hk0 Hk]. destruct (Z.eq_dec k 0) as [->|Hne]; [reflexivity|].
  destruct (literal_integer_value k ltac:(lia)) as (m & e & Hl & Hv).
  unfold toString. rewrite Hv. rewrite Hl.
  assert (Hs : (Z.abs k <? 10 ^ 21) = true).
  { apply Z.ltb_lt. rewrite Z.abs_eq by lia.
    apply Z.lt_trans with (2 ^ 53); [lia | reflexivity]. }
  rewrite Hs. reflexivity.
Qed.

(** [Math.floor] of a positive Number with a fraction part, printed. *)
Lemma floor_toString_range (m : positive) (e lo hi : Z) :
  e < 0 -> 0 <= lo -> hi < 2 ^ 53 ->
  lo * 2 ^ (- e) <= Z.pos m < (hi + 1) * 2 ^ (- e) ->
  exists k, lo <= k <= hi /\
    toString (Math_floor (S754_finite false m e)) = Some (decimal k).
Proof.
  intros He Hlo Hhi [Hm1 Hm2].
  assert (P : 0 < 2 ^ (- e)) by pow2.
  exists (Z.pos m / 2 ^ (- e)).
  assert (Hk : lo <= Z.pos m / 2 ^ (- e) <= hi).
  { split.
    - apply Z.div_le_lower_bound; lia.
    - assert (Z.pos m / 2 ^ (- e) < hi + 1); [|lia].
      apply Z.div_lt_upper_bound; lia. }
  split; [exact Hk|].
  unfold Math_floor. destruct (Z.leb_spec 0 e); [lia|].
  cbn [cond_Zopp]. apply toString_literal. lia.
Qed.

(** [Math.floor(Math.random() * 10)] is one of the digits 0..9. *)
Lemma random_digit (r : spec_float) :
  is_unit_random r = true ->
  exists k, 0 <= k <= 9 /\
    toString (Math_floor (mul r (literal 10))) = Some (decimal k).
Proof.
  intros Hr. destruct (unit_random_inv r Hr) as [->|(m & e & -> & He & Hm)].
  - exists 0. split; [lia | reflexivity].
  - change (literal 10) with (S754_finite false 5629499534213120 (-49)).
    destruct (mul_unit_bound m e 5629499534213120 (-49) He Hm)
      as (m' & e' & -> & He' & Hv); [split; reflexivity | lia |].
    apply floor_toString_range; [lia | lia | reflexivity |].
    split; [lia|].
    assert (PA : 0 < 2 ^ (e' - (e + -49))) by pow2.
    assert (PT : 0 < 2 ^ (- e)) by pow2.
    assert (E : 5629499534213120 * 2 ^ (- e) = 10 * 2 ^ (- e') * 2 ^ (e' - (e + -49))).
    { rewrite <- Z.mul_assoc, <- pow2_split by lia.
      replace (- e' + (e' - (e + -49))) with (49 + - e) by lia.
      rewrite pow2_split by lia. change (2 ^ 49) with 562949953421312. lia. }
    set (A := 2 ^ (e' - (e + -49))) in *. set (T := 2 ^ (- e)) in *.
    apply (Z.mul_lt_mono_pos_r A); [exact PA|].
    change (9 + 1) with 10. rewrite <- E. clear - Hv PT. lia.
Qed.

(** [100000 + x] for a Number [x] of at most [900000 - 2^-33], the largest
    Number below 900000: the rounded sum is at least 100000 and below
    1000000. The bound on [x] is stated at an exponent [b]. *)
Lemma add_100000_bound (m' : positive) (e' b : Z) :
  b <= e' -> b <= -36 -> e' <= 0 ->
  Z.pos m' * 2 ^ (e' - b) <= (7730941132800000 - 1) * 2 ^ (- 33 - b) ->
  exists m'' e'',
    add (literal 100000) (S754_finite false m' e') = S754_finite false m'' e'' /\
    e'' < 0 /\
    100000 * 2 ^ (- e'') <= Z.pos m'' < 1000000 * 2 ^ (- e'').
Proof.
  intros Hbe Hb He' Hx.
  change (literal 100000) with (S754_finite false 6871947673600000 (-36)).
  unfold add, SFadd. cbn [cond_Zopp].
  set (ez := Z.min (-36) e').
  assert (Hez : ez <= -36 /\ ez <= e' /\ b <= ez) by (subst ez; lia).
  destruct (shl_align_spec 6871947673600000 (-36) ez) as [_ HC].
  destruct (shl_align_spec m' e' ez) as [_ HX].
  replace (Z.min (-36) ez) with ez in HC by lia.
  replace (Z.min e' ez) with ez in HX by lia.
  set (mC := fst (shl_align 6871947673600000 (-36) ez)) in *.
  set (mX := fst (shl_align m' e' ez)) in *.
  change (Z.pos mC + Z.pos mX) with (Z.pos (mC + mX)).
  unfold binary_normalize, binary_round.
  (* the exact sum, at exponent ez *)
  set (U := 2 ^ (- 36 - ez)) in *.
  assert (HU : 0 < U) by (subst U; pow2).
  assert (Ez : 2 ^ (- ez) = 68719476736 * U).
  { subst U. replace (- ez) with (36 + (- 36 - ez)) at 1 by lia.
    rewrite pow2_split by lia. reflexivity. }
  assert (HXb : Z.pos mX <= (7730941132800000 - 1) * (8 * U)).
  { rewrite HX.
    assert (PQ : 0 < 2 ^ (ez - b)) by pow2.
    apply (Z.mul_le_mono_pos_r _ _ (2 ^ (ez - b)) PQ).
    rewrite <- Z.mul_assoc, <- pow2_split by lia.
    replace (e' - ez + (ez - b)) with (e' - b) by lia.
    apply Z.le_trans with (1 := Hx). apply Z.eq_le_incl.
    replace (- 33 - b) with (3 + (- 36 - ez) + (ez - b)) by lia.
    rewrite !pow2_split by lia. fold U. change (2 ^ 3) with 8. ring. }
  set (S := (mC + mX)%positive).
  assert (HS : Z.pos S = 6871947673600000 * U + Z.pos mX) by (subst S; lia).
  assert (HSlo : 6871947673600000 * U < Z.pos S) by lia.
  assert (HShi : Z.pos S <= (8589934592000000 - 1) * (8 * U)) by (clear - HS HXb; lia).
  clearbody S. clear HS HXb HX HC Hx.
  pose proof (digits2_bounds S) as [Dlo Dhi].
  set (dS := Z.pos (digits2_pos S)) in *.
  assert (HdS : 17 - ez <= dS <= 20 - ez).
  { split.
    - assert (16 - ez < dS); [|lia]. apply (Z.pow_lt_mono_r_iff 2); [lia|lia|].
      replace (16 - ez) with (16 + - ez) by lia. rewrite pow2_split by lia.
      rewrite Ez. change (2 ^ 16) with 65536. clear - HSlo Dhi HU. lia.
    - assert (dS - 1 < 20 - ez); [|lia]. apply (Z.pow_lt_mono_r_iff 2); [lia|lia|].
      replace (20 - ez) with (20 + - ez) by lia. rewrite pow2_split by lia.
      rewrite Ez. change (2 ^ 20) with 1048576. clear - HShi Dlo HU. lia. }
  destruct (shl_align_spec S ez (fexp prec emax (dS + ez))) as [Hs Hf].
  destruct (shl_align S ez (fexp prec emax (dS + ez))) as [mz ez'].
  cbn [fst snd] in Hs, Hf.
  assert (Hez' : ez' = ez) by (rewrite fexp_eq in Hs; lia).
  clear Hs. subst ez'.
  assert (Hmz : mz = S).
  { assert (Z.pos mz = Z.pos S); [|congruence].
    rewrite Hf. rewrite fexp_eq. replace (ez - Z.min ez (Z.max (dS + ez - 53) (-1074))) with 0
      by lia.
    rewrite Z.pow_0_r. lia. }
  subst mz. clear Hf.
  destruct (binary_round_aux_pos S ez) as (m'' & e'' & Hres & He'' & Hval);
    fold dS; try (rewrite ?fexp_eq; unfold prec, emax; lia).
  fold dS in He'', Hval.
  set (n := Z.max 0 (fexp prec emax (dS + ez) - ez)) in *.
  assert (Hn : n = dS - 53) by (subst n; rewrite fexp_eq; lia).
  set (g := ez + n) in *.
  assert (Hg : -36 <= g <= -33) by (subst g; lia).
  exists m'', e''. split; [exact Hres|].
  assert (He''b : g <= e'' <= g + 1) by (subst g; rewrite fexp_eq in He''; lia).
  split; [lia|].
  set (RS := round_shift (Z.pos S) n) in *.
  assert (Pn : 0 < 2 ^ n) by pow2.
  (* the grid: 2^(-ez) = 2^(-g) * 2^n *)
  set (G := 2 ^ (- g)).
  assert (PG : 0 < G) by (subst G; pow2).
  assert (EG : 68719476736 * U = G * 2 ^ n).
  { rewrite <- Ez. subst G. rewrite <- pow2_split by lia. f_equal. subst g. lia. }
  assert (RSlo : 100000 * G <= RS).
  { apply round_shift_ge; [lia | lia |].
    rewrite <- Z.mul_assoc, <- EG. clear - HSlo. lia. }
  assert (RShi : RS <= 1000000 * G - 1).
  { destruct (Z.eq_dec g (-33)) as [Eg|Ng].
    - assert (HG : G = 8589934592) by (subst G; rewrite Eg; reflexivity).
      assert (E8 : 8 * U = 2 ^ n) by (clear - EG HG; lia).
      rewrite HG. apply (round_shift_le (Z.pos S) n _ 0); try lia;
        rewrite <- E8; lia.
    - assert (HG : 17179869184 <= G).
      { subst G. change 17179869184 with (2 ^ 34). apply Z.pow_le_mono_r; lia. }
      assert (RS <= 2 ^ 53).
      { apply (round_shift_le (Z.pos S) n _ 0); try lia;
          rewrite <- pow2_split by lia; replace (53 + n) with dS by lia; lia. }
      change (2 ^ 53) with 9007199254740992 in *. clear - H HG. lia. }
  assert (PA : 0 < 2 ^ (e'' - g)) by pow2.
  assert (EGe : G = 2 ^ (- e'') * 2 ^ (e'' - g)).
  { subst G. rewrite <- pow2_split by lia. f_equal. lia. }
  fold g in Hval. rewrite <- Hval in RSlo, RShi. rewrite EGe in RSlo, RShi.
  set (A := 2 ^ (e'' - g)) in *. set (B := 2 ^ (- e'')) in *.
  split.
  - apply (Z.mul_le_mono_pos_r _ _ A PA). clear - RSlo. lia.
  - apply (Z.mul_lt_mono_pos_r A _ _ PA). clear - RShi. lia.
Qed.

(** [Math.floor(100000 + Math.random() * 900000)] is an integer between
    100000 and 999999. *)
Lemma random_code (r : spec_float) :
  is_unit_random r = true ->
  exists k, 100000 <= k <= 999999 /\
    toString (Math_floor (add (literal 100000) (mul r (literal 900000)))) =
      Some (decimal k).
Proof.
  intros Hr. destruct (unit_random_inv r Hr) as [->|(m & e & -> & He & Hm)].
  - exists 100000. split; [lia | reflexivity].
  - change (literal 900000) with (S754_finite false 7730941132800000 (-33)).
    destruct (mul_unit_bound m e 7730941132800000 (-33) He Hm)
      as (m' & e' & -> & He' & Hv); [split; reflexivity | lia |].
    destruct (add_100000_bound m' e' (e + -33)) as (m'' & e'' & -> & He'' & Hb);
      try lia.
    { replace (- 33 - (e + -33)) with (- e) by lia. exact Hv. }
    apply floor_toString_range; [lia | lia | reflexivity |].
    lia.
Qed.

Lemma digit_char_spec (d : Z) :
  0 <= d <= 9 ->
  is_digit (digit_char d) = true /\ digit_value (digit_char d) = d /\
  (Ascii.eqb (digit_char d) "0" = true -> d = 0).
Proof.
  intros H.
  assert (C : d = 0 \/ d = 1 \/ d = 2 \/ d = 3 \/ d = 4 \/ d = 5 \/ d = 6 \/ d = 7 \/
              d = 8 \/ d = 9) by lia.
  repeat (destruct C as [->|C]; [repeat split; try reflexivity; discriminate|]).
  subst d. repeat split; try reflexivity; discriminate.
Qed.

Lemma decimal_one_digit (k : Z) :
  0 <= k <= 9 -> decimal k = String (digit_char k) "".
Proof.
  intros H. unfold decimal. rewrite Z.abs_eq by lia.
  destruct (Z.ltb_spec k 0); [lia|]. cbn [decimal_digits].
  rewrite Z.div_small by lia. rewrite Z.mod_small by lia. reflexivity.
Qed.

Lemma decimal_six_digits (k : Z) :
  100000 <= k <= 999999 ->
  exists d5 d4 d3 d2 d1 d0,
    decimal k = String (digit_char d5) (String (digit_char d4) (String (digit_char d3)
               (String (digit_char d2) (String (digit_char d1) (String (digit_char d0) ""))))) /\
    1 <= d5 <= 9 /\ 0 <= d4 <= 9 /\ 0 <= d3 <= 9 /\ 0 <= d2 <= 9 /\ 0 <= d1 <= 9 /\
    0 <= d0 <= 9 /\
    k = 10 * (10 * (10 * (10 * (10 * d5 + d4) + d3) + d2) + d1) + d0.
Proof.
  intros H. unfold decimal. rewrite Z.abs_eq by lia.
  destruct (Z.ltb_spec k 0); [lia|].
  assert (L : 16 <= Z.log2 k) by (change 16 with (Z.log2 100000); apply Z.log2_le_mono; lia).
  destruct (Z.to_nat (Z.log2 k)) as [|[|[|[|[|f]]]]] eqn:F; try lia.
  pose proof (Z.div_mod k 10 ltac:(lia)) as E0.
  pose proof (Z.mod_pos_bound k 10 ltac:(lia)) as B0.
  set (k1 := k / 10) in *.
  pose proof (Z.div_mod k1 10 ltac:(lia)) as E1.
  pose proof (Z.mod_pos_bound k1 10 ltac:(lia)) as B1.
  set (k2 := k1 / 10) in *.
  pose proof (Z.div_mod k2 10 ltac:(lia)) as E2.
  pose proof (Z.mod_pos_bound k2 10 ltac:(lia)) as B2.
  set (k3 := k2 / 10) in *.
  pose proof (Z.div_mod k3 10 ltac:(lia)) as E3.
  pose proof (Z.mod_pos_bound k3 10 ltac:(lia)) as B3.
  set (k4 := k3 / 10) in *.
  pose proof (Z.div_mod k4 10 ltac:(lia)) as E4.
  pose proof (Z.mod_pos_bound k4 10 ltac:(lia)) as B4.
  set (k5 := k4 / 10) in *.
  pose proof (Z.div_mod k5 10 ltac:(lia)) as E5.
  pose proof (Z.mod_pos_bound k5 10 ltac:(lia)) as B5.
  set (k6 := k5 / 10) in *.
  exists (k5 mod 10), (k4 mod 10), (k3 mod 10), (k2 mod 10), (k1 mod 10), (k mod 10).
  assert (k6 = 0) by lia.
  split.
  - cbn [decimal_digits]. fold k1. fold k2. fold k3. fold k4. fold k5. fold k6.
    destruct (Z.eqb_spec k1 0); [lia|]. destruct (Z.eqb_spec k2 0); [lia|].
    destruct (Z.eqb_spec k3 0); [lia|]. destruct (Z.eqb_spec k4 0); [lia|].
    destruct (Z.eqb_spec k5 0); [lia|]. destruct (Z.eqb_spec k6 0); [|lia].
    reflexivity.
  - lia.
Qed.

End Binary64.

(** ** The code generators *)

Lemma six_digit_string (d5 d4 d3 d2 d1 d0 : Z) :
  0 <= d5 <= 9 -> 0 <= d4 <= 9 -> 0 <= d3 <= 9 -> 0 <= d2 <= 9 ->
  0 <= d1 <= 9 -> 0 <= d0 <= 9 ->
  let code := String (JsNumber.digit_char d5) (String (JsNumber.digit_char d4)
             (String (JsNumber.digit_char d3) (String (JsNumber.digit_char d2)
             (String (JsNumber.digit_char d1) (String (JsNumber.digit_char d0) ""))))) in
  six_ascii_digits code = true /\
  numeric_value code = 10 * (10 * (10 * (10 * (10 * d5 + d4) + d3) + d2) + d1) + d0 /\
  (1 <= d5 -> matches_code_pattern code = true).
Proof.
  intros H5 H4 H3 H2 H1 H0 code.
  destruct (digit_char_spec d5 H5) as (I5 & V5 & Z5).
  destruct (digit_char_spec d4 H4) as (I4 & V4 & _).
  destruct (digit_char_spec d3 H3) as (I3 & V3 & _).
  destruct (digit_char_spec d2 H2) as (I2 & V2 & _).
  destruct (digit_char_spec d1 H1) as (I1 & V1 & _).
  destruct (digit_char_spec d0 H0) as (I0 & V0 & _).
  subst code. unfold six_ascii_digits, numeric_value, matches_code_pattern.
  cbn [String.length list_ascii_of_string forallb fold_left Nat.eqb].
  rewrite I5, I4, I3, I2, I1, I0, V5, V4, V3, V2, V1, V0.
  repeat split; try reflexivity.
  intros Hd5. destruct (Ascii.eqb (JsNumber.digit_char d5) "0") eqn:E; [|reflexivity].
  specialize (Z5 eq_refl). lia.
Qed.

(** [Array.from] over the random source: the draws are consecutive. *)
Lemma Array_from_length_random {A} (f : spec_float -> A) (n : nat) (g : rng_state) :
  Array_from_length n (r <- Math_random ;; ret (f r)) g =
  (Returned (map (fun i => f (supply g (drawn g + i)%nat)) (seq 0 n)),
   Rng (supply g) (n + drawn g)).
Proof.
  revert g. induction n as [|n IH]; intros [s d].
  - reflexivity.
  - cbn [Array_from_length]. unfold bind at 1. unfold bind at 1.
    unfold Math_random at 1. cbn [supply drawn ret].
    unfold bind at 1. rewrite IH. cbn [supply drawn ret seq map].
    unfold ret.
    replace (d + 0)%nat with d by lia.
    replace (n + S d)%nat with (S n + d)%nat by lia.
    rewrite <- seq_shift, map_map.
    f_equal. f_equal. f_equal.
    apply map_ext. intros i. f_equal. f_equal. lia.
Qed.

Lemma leading_zero_supply_unit : unit_supply Examples.leading_zero_supply.
Proof. intros [|n]; reflexivity. Qed.

(** C2, as stated, fails for the digit-by-digit generator of
    [test-sendgrid.js]: with a first draw of 0.03125 it returns "055555",
    which has a leading zero, does not match [^[1-9][0-9]{5}$] and denotes
    55555, below 100000. *)
Lemma digitwise_code_may_start_with_zero :
  unit_supply Examples.leading_zero_supply /\
  fst (TestSendgrid.generateVerificationCode Examples.leading_zero_supply) = Returned "055555" /\
  matches_code_pattern "055555" = false /\
  numeric_value "055555" = 55555 /\
  55555 < 100000.
Proof.
  split; [exact leading_zero_supply_unit|].
  split; [vm_compute; reflexivity|].
  split; [reflexivity|]. split; [reflexivity|]. lia.
Qed.

(** C2 (amended): on a random source that yields Numbers in [0, 1), every
    generator returns a string of exactly 6 ASCII digits, and never throws.
    The generator [Math.floor(100000 + Math.random() * 900000).toString()]
    of [test-verification-code.js] returns a code that matches
    [^[1-9][0-9]{5}$] and denotes a number in [100000, 999999]; it draws
    once. The digit-by-digit generator of [test-sendgrid.js] draws six
    times and returns a code denoting a number in [0, 999999] (a leading
    zero is possible). *)
Theorem generated_codes_have_six_digits (g : rng_state) :
  unit_supply g ->
  (exists code,
     TestVerificationCode.generateVerificationCode g =
       (Returned code, Rng (supply g) (1 + drawn g)) /\
     six_ascii_digits code = true /\
     matches_code_pattern code = true /\
     100000 <= numeric_value code <= 999999) /\
  (exists code,
     TestSendgrid.generateVerificationCode g =
       (Returned code, Rng (supply g) (6 + drawn g)) /\
     six_ascii_digits code = true /\
     0 <= numeric_value code <= 999999).
Proof.
  intros Hg. split.
  - unfold TestVerificationCode.generateVerificationCode, bind, Math_random.
    destruct (random_code (supply g (drawn g)) (Hg _)) as (k & Hk & ->).
    destruct (decimal_six_digits k Hk)
      as (d5 & d4 & d3 & d2 & d1 & d0 & -> & H5 & H4 & H3 & H2 & H1 & H0 & Ek).
    destruct (six_digit_string d5 d4 d3 d2 d1 d0) as (S6 & NV & MP); try lia.
    eexists. split; [reflexivity|]. split; [exact S6|].
    split; [apply MP; lia|]. rewrite NV. lia.
  - unfold TestSendgrid.generateVerificationCode. unfold bind at 1.
    rewrite (Array_from_length_random
               (fun r => JsNumber.Math_floor (JsNumber.mul r (JsNumber.literal 10)))).
    cbn [seq map JsNumber.join_empty modelled].
    destruct (random_digit _ (Hg (drawn g + 0)%nat)) as (k0 & K0 & ->).
    destruct (random_digit _ (Hg (drawn g + 1)%nat)) as (k1 & K1 & ->).
    destruct (random_digit _ (Hg (drawn g + 2)%nat)) as (k2 & K2 & ->).
    destruct (random_digit _ (Hg (drawn g + 3)%nat)) as (k3 & K3 & ->).
    destruct (random_digit _ (Hg (drawn g + 4)%nat)) as (k4 & K4 & ->).
    destruct (random_digit _ (Hg (drawn g + 5)%nat)) as (k5 & K5 & ->).
    rewrite !decimal_one_digit by assumption.
    cbn [String.append].
    destruct (six_digit_string k0 k1 k2 k3 k4 k5) as (S6 & NV & _); try lia.
    exists (String (JsNumber.digit_char k0) (String (JsNumber.digit_char k1)
           (String (JsNumber.digit_char k2) (String (JsNumber.digit_char k3)
           (String (JsNumber.digit_char k4) (String (JsNumber.digit_char k5) "")))))).
    split; [reflexivity|]. split; [exact S6|]. rewrite NV. lia.
Qed.

(** The amended C2 at a concrete random source. *)
Lemma generated_codes_have_six_digits_witness :
  (exists code,
     TestVerificationCode.generateVerificationCode Examples.leading_zero_supply =
       (Returned code, Rng (supply Examples.leading_zero_supply) (1 + drawn Examples.leading_zero_supply)) /\
     six_ascii_digits code = true /\
     matches_code_pattern code = true /\
     100000 <= numeric_value code <= 999999) /\
  (exists code,
     TestSendgrid.generateVerificationCode Examples.leading_zero_supply =
       (Returned code, Rng (supply Examples.leading_zero_supply) (6 + drawn Examples.leading_zero_supply)) /\
     six_ascii_digits code = true /\
     0 <= numeric_value code <= 999999).
Proof.
  apply (generated_codes_have_six_digits Examples.leading_zero_supply).
  intros [|n]; reflexivity.
Defined.

(** ** The store of test-verification-code.js *)

Section Store.
Import TestVerificationCode.

#[local] Instance newer_first_trans : Transitive newer_first.
Proof. intros x y z. unfold newer_first. lia. Qed.

#[local] Instance newer_first_total : Total newer_first.
Proof. intros x y. unfold newer_first. lia. Qed.

Lemma valid_for_true (email0 code0 : string) (now0 : Z) (r : row) :
  valid_for email0 code0 now0 r = true <->
  email r = email0 /\ code r = code0 /\ type r = "verification" /\
  now0 < expires_at r /\ used r = false.
Proof.
  unfold valid_for. rewrite !andb_true_iff, !String.eqb_eq, Z.ltb_lt, negb_true_iff.
  tauto.
Qed.

(** The rows the [WHERE] clause keeps. *)
Lemma elem_of_candidates (t : table) (email0 code0 : string) (now0 : Z) (i : Z) (r : row) :
  (i, r) ∈ List.filter (fun x => valid_for email0 code0 now0 (snd x)) (map_to_list (rows t)) <->
  rows t !! i = Some r /\ valid_for email0 code0 now0 r = true.
Proof.
  rewrite list_elem_of_In, filter_In, <- list_elem_of_In, elem_of_map_to_list.
  reflexivity.
Qed.

(** [ORDER BY created_at DESC LIMIT 1]: nothing when there is no
    candidate, else a candidate that no other candidate is newer than. *)
Lemma newest_first_head (cands : list (Z * row)) :
  match take 1 (merge_sort newer_first cands) with
  | [] => cands = []
  | x :: _ => x ∈ cands /\ forall y, y ∈ cands -> created_at (snd y) <= created_at (snd x)
  end.
Proof.
  pose proof (merge_sort_Permutation newer_first cands) as HP.
  pose proof (StronglySorted_merge_sort newer_first cands) as HS.
  destruct (merge_sort newer_first cands) as [|x l]; cbn [take].
  - symmetry. apply Permutation_nil_l. exact HP.
  - split.
    + rewrite <- HP. left.
    + intros y Hy. rewrite <- HP in Hy.
      apply StronglySorted_inv in HS as [_ Hall].
      apply elem_of_cons in Hy as [->|Hy]; [lia|].
      rewrite Forall_forall in Hall. apply (Hall y Hy).
Qed.

Lemma with_table_same (db : database) (t : table) :
  verification_codes db = Some t -> with_table t db = db.
Proof. destruct db; cbn. intros ->. reflexivity. Qed.

(** The lookup never throws and never changes the database. *)
Lemma check_returns (email0 code0 : string) (db : database) :
  exists o, checkVerificationCode email0 code0 db = (Returned o, db).
Proof.
  unfold checkVerificationCode, try_catch, bind, pool_query, select_valid_code,
    on_verification_codes, ret.
  destruct (connected db); [|eauto].
  destruct (verification_codes db) as [t|] eqn:Et; [|eauto].
  rewrite (with_table_same db t Et).
  destruct (take 1 _) as [|x l]; eauto.
Qed.

(** Without a connection or without the relation the lookup answers [null]. *)
Lemma check_unavailable (email0 code0 : string) (db : database) :
  connected db = false \/ verification_codes db = None ->
  checkVerificationCode email0 code0 db = (Returned None, db).
Proof.
  unfold checkVerificationCode, try_catch, bind, pool_query, select_valid_code,
    on_verification_codes, ret.
  intros [H|H]; rewrite H; [reflexivity|].
  destruct (connected db); reflexivity.
Qed.

(** On a reachable table the lookup returns the id of a newest valid row,
    or [null] when no row is valid. *)
Lemma check_connected (email0 code0 : string) (db : database) (t : table) :
  connected db = true -> verification_codes db = Some t ->
  (exists i r,
     checkVerificationCode email0 code0 db = (Returned (Some i), db) /\
     rows t !! i = Some r /\ valid_for email0 code0 (now db) r = true /\
     forall j r', rows t !! j = Some r' -> valid_for email0 code0 (now db) r' = true ->
                  created_at r' <= created_at r) \/
  (checkVerificationCode email0 code0 db = (Returned None, db) /\
   forall j r', rows t !! j = Some r' -> valid_for email0 code0 (now db) r' = false).
Proof.
  intros Hc Ht.
  unfold checkVerificationCode, try_catch, bind, pool_query, select_valid_code,
    on_verification_codes, ret.
  rewrite Hc, Ht, (with_table_same db t Ht).
  pose proof (newest_first_head
    (List.filter (fun x => valid_for email0 code0 (now db) (snd x)) (map_to_list (rows t))))
    as H.
  destruct (take 1 _) as [|[i r] l].
  - right. split; [reflexivity|]. intros j r' Hj.
    destruct (valid_for email0 code0 (now db) r') eqn:Ev; [|reflexivity].
    assert (Hin : (j, r') ∈ List.filter (fun x => valid_for email0 code0 (now db) (snd x))
                                        (map_to_list (rows t)))
      by (apply elem_of_candidates; auto).
    rewrite H in Hin. inversion Hin.
  - left. destruct H as [Hin Hmax]. apply elem_of_candidates in Hin as [Hi Hv].
    exists i, r. split; [reflexivity|]. split; [exact Hi|]. split; [exact Hv|].
    intros j r' Hj Hv'. apply (Hmax (j, r')). apply elem_of_candidates. auto.
Qed.

(** What [markVerificationCodeAsUsed] does on a reachable table, for an
    id that is an [integer]. *)
Lemma mark_connected (id : Z) (db : database) (t : table) :
  connected db = true -> verification_codes db = Some t -> int4 id = true ->
  markVerificationCodeAsUsed id db =
    (Returned true, with_table (Table (alter set_used id (rows t)) (serial t)) db).
Proof.
  intros Hc Ht Hid.
  unfold markVerificationCodeAsUsed, try_catch, bind, pool_query, update_used,
    on_verification_codes, ret.
  rewrite Hc, Ht, Hid. reflexivity.
Qed.

(** Without a connection, without the relation, or for a number that is
    not an [integer], it returns [false] and changes nothing. *)
Lemma mark_unavailable (id : Z) (db : database) :
  connected db = false \/ verification_codes db = None \/ int4 id = false ->
  markVerificationCodeAsUsed id db = (Returned false, db).
Proof.
  unfold markVerificationCodeAsUsed, try_catch, bind, pool_query, update_used,
    on_verification_codes, ret.
  intros [H|[H|H]].
  - rewrite H. reflexivity.
  - rewrite H. destruct (connected db); reflexivity.
  - rewrite H. destruct (connected db); [|reflexivity].
    destruct (verification_codes db) as [t|] eqn:Ht; [|reflexivity].
    rewrite (with_table_same db t Ht). reflexivity.
Qed.

(** A value within the length of its column is stored as it is. *)
Lemma varchar_fits (n : nat) (s : string) :
  (String.length s <= n)%nat -> varchar n s = Some s.
Proof.
  intros H. unfold varchar. apply Nat.leb_le in H. rewrite H. reflexivity.
Qed.

(** What is stored is at most [n] characters long. *)
Lemma varchar_length (n : nat) (s s' : string) :
  varchar n s = Some s' -> (String.length s' <= n)%nat.
Proof.
  unfold varchar. destruct (Nat.leb_spec (String.length s) n) as [H|H].
  - intros E. injection E as <-. exact H.
  - destruct (forallb _ _); [|discriminate]. intros E. injection E as <-.
    clear H. revert n. induction s as [|a s IH]; intros [|n]; cbn; try lia.
    specialize (IH n). lia.
Qed.

(** [saveVerificationCode], case by case. *)
Lemma save_result (e c ty : string) (db : database) :
  saveVerificationCode e c ty db =
    if connected db then
      match verification_codes db with
      | None => (Returned None, db)
      | Some t =>
          if has_nul e || has_nul c || has_nul ty then (Returned None, db)
          else
            match varchar 255 e, varchar 10 c, varchar 50 ty with
            | Some e', Some c', Some ty' =>
                if int4_max <? serial t then (Returned None, db)
                else
                  match rows t !! serial t with
                  | Some _ => (Returned None, with_table (Table (rows t) (serial t + 1)) db)
                  | None =>
                      (Returned (Some (serial t)),
                       with_table
                         (Table (<[serial t := Row e' c' ty' (now db) (now db + thirty_minutes)
                                                   false]> (rows t))
                                (serial t + 1)) db)
                  end
            | _, _, _ => (Returned None, db)
            end
      end
    else (Returned None, db).
Proof.
  unfold saveVerificationCode, try_catch, bind, pool_query, insert_code,
    on_verification_codes, ret.
  destruct (connected db); [|reflexivity].
  destruct (verification_codes db) as [t|] eqn:Ht; [|reflexivity].
  pose proof (with_table_same db t Ht) as Hsame.
  destruct (has_nul e || has_nul c || has_nul ty); [rewrite Hsame; reflexivity|].
  destruct (varchar 255 e); [|rewrite Hsame; reflexivity].
  destruct (varchar 10 c); [|rewrite Hsame; reflexivity].
  destruct (varchar 50 ty); [|rewrite Hsame; reflexivity].
  destruct (int4_max <? serial t); [rewrite Hsame; reflexivity|].
  destruct (rows t !! serial t); reflexivity.
Qed.

Lemma set_used_idempotent (r : row) : set_used (set_used r) = set_used r.
Proof. reflexivity. Qed.

Lemma alter_set_used_twice (id : Z) (m : gmap Z row) :
  alter set_used id (alter set_used id m) = alter set_used id m.
Proof.
  apply map_eq. intros j.
  destruct (decide (id = j)) as [<-|Hne].
  - rewrite !lookup_alter_eq. destruct (m !! id); reflexivity.
  - rewrite !lookup_alter_ne by exact Hne. reflexivity.
Qed.

Lemma alter_set_used_absent (id : Z) (m : gmap Z row) :
  m !! id = None -> alter set_used id m = m.
Proof.
  intros H. apply map_eq. intros j.
  destruct (decide (id = j)) as [<-|Hne].
  - rewrite lookup_alter_eq, H. reflexivity.
  - rewrite lookup_alter_ne by exact Hne. reflexivity.
Qed.

End Store.

(** ** Redemption: the claims about the store *)

Section Redemption.
Import TestVerificationCode Examples.

(** No operation removes a row or changes more of it than [used], which
    only goes from [FALSE] to [TRUE]; and the clock does not go back. *)
Lemma step_keeps_rows (db db' : database) :
  step db db' ->
  now db <= now db' /\
  forall t i r, verification_codes db = Some t -> rows t !! i = Some r ->
    exists t' r', verification_codes db' = Some t' /\ rows t' !! i = Some r' /\
                  (r' = r \/ r' = set_used r).
Proof.
  intros Hstep.
  destruct Hstep as [db|e c ty db|e c db|id db|db t' Hclock|db b].
  - split.
    + unfold createVerificationCodesTable, try_catch, bind, pool_query,
        create_table_if_not_exists, ret.
      destruct (connected db); [destruct (verification_codes db)|]; cbn; lia.
    + intros t i r Ht Hi.
      unfold createVerificationCodesTable, try_catch, bind, pool_query,
        create_table_if_not_exists, ret.
      destruct (connected db); rewrite ?Ht; cbn; eauto 6.
  - rewrite save_result. split.
    + destruct (connected db); [|cbn; lia].
      destruct (verification_codes db) as [t|]; [|cbn; lia].
      destruct (has_nul e || has_nul c || has_nul ty); [cbn; lia|].
      destruct (varchar 255 e), (varchar 10 c), (varchar 50 ty); try (cbn; lia).
      destruct (int4_max <? serial t); [cbn; lia|].
      destruct (rows t !! serial t); cbn; lia.
    + intros t i r Ht Hi. rewrite Ht.
      destruct (connected db); [|cbn; eauto 6].
      destruct (has_nul e || has_nul c || has_nul ty); [cbn; eauto 6|].
      destruct (varchar 255 e), (varchar 10 c), (varchar 50 ty); try (cbn; eauto 6).
      destruct (int4_max <? serial t); [cbn; eauto 6|].
      destruct (rows t !! serial t) eqn:Es; cbn.
      * eexists _, r. split; [reflexivity|]. cbn. auto.
      * eexists _, r. split; [reflexivity|]. cbn. split; [|auto].
        rewrite lookup_insert_ne; [exact Hi|]. intros E. rewrite E in Es. congruence.
  - destruct (check_returns e c db) as [o ->]. cbn. split; [lia|eauto 6].
  - destruct (connected db) eqn:Hc;
      [|rewrite (mark_unavailable id db) by auto; cbn; split; [lia|eauto 6]].
    destruct (int4 id) eqn:Hid;
      [|rewrite (mark_unavailable id db) by auto; cbn; split; [lia|eauto 6]].
    destruct (verification_codes db) as [t0|] eqn:Ht0;
      [|rewrite (mark_unavailable id db) by auto; cbn; split; [lia|]; rewrite Ht0; eauto 6].
    rewrite (mark_connected id db t0 Hc Ht0 Hid). cbn. split; [lia|].
    intros t i r Ht Hi. injection Ht as <-.
    destruct (decide (id = i)) as [->|Hne].
    + eexists _, (set_used r). split; [reflexivity|]. cbn.
      rewrite lookup_alter_eq, Hi. auto.
    + eexists _, r. split; [reflexivity|]. cbn.
      rewrite lookup_alter_ne by exact Hne. auto.
  - cbn. split; [exact Hclock|eauto 6].
  - cbn. split; [lia|eauto 6].
Qed.

(** A used row stays a used row, whatever happens to the database. *)
Lemma step_keeps_used (db db' : database) (i : Z) :
  step db db' ->
  (exists t r, verification_codes db = Some t /\ rows t !! i = Some r /\ used r = true) ->
  exists t r, verification_codes db' = Some t /\ rows t !! i = Some r /\ used r = true.
Proof.
  intros Hstep (t & r & Ht & Hi & Hu).
  destruct (step_keeps_rows db db' Hstep) as [_ H].
  destruct (H t i r Ht Hi) as (t' & r' & Ht' & Hi' & [->| ->]); eauto.
Qed.

Lemma steps_keep_used (db db' : database) (i : Z) :
  rtc step db db' ->
  (exists t r, verification_codes db = Some t /\ rows t !! i = Some r /\ used r = true) ->
  exists t r, verification_codes db' = Some t /\ rows t !! i = Some r /\ used r = true.
Proof.
  induction 1 as [|db db1 db2 Hstep _ IH]; [auto|].
  intros H. apply IH. apply (step_keeps_used db db1 i Hstep H).
Qed.

(** Whatever the lookup returns is the id of a row that passes the
    [WHERE] clause. *)
Lemma check_Some_inv (email0 code0 : string) (db : database) (i : Z) :
  fst (checkVerificationCode email0 code0 db) = Returned (Some i) ->
  exists t r, connected db = true /\ verification_codes db = Some t /\
    rows t !! i = Some r /\ valid_for email0 code0 (now db) r = true.
Proof.
  intros H.
  destruct (connected db) eqn:Hc;
    [|rewrite check_unavailable in H by auto; discriminate].
  destruct (verification_codes db) as [t|] eqn:Ht;
    [|rewrite check_unavailable in H by auto; discriminate].
  destruct (check_connected email0 code0 db t Hc Ht)
    as [(j & r & E & Hj & Hv & _)|[E _]]; rewrite E in H; cbn in H; [|discriminate].
  injection H as ->. eauto 10.
Qed.

(** C1, as stated, fails in two ways. A row of another type is unused,
    unexpired and matches the pair, and is not returned; of two rows of
    type 'verification' that are both unused, unexpired and match the pair,
    only the newer one (id 2) is returned, not the older one (id 1). *)
Lemma lookup_is_not_iff_redeemable :
  (verification_codes db_reset_only = Some (Table {[ 3 := row_reset ]} 4) /\
   used row_reset = false /\ now db_reset_only < expires_at row_reset /\
   email row_reset = "a@b.com" /\ code row_reset = "123456" /\
   fst (checkVerificationCode "a@b.com" "123456" db_reset_only) = Returned None) /\
  (verification_codes db_two_codes = Some (Table (<[1 := row_old]> {[ 2 := row_new ]}) 3) /\
   used row_old = false /\ now db_two_codes < expires_at row_old /\
   email row_old = "a@b.com" /\ code row_old = "123456" /\
   fst (checkVerificationCode "a@b.com" "123456" db_two_codes) = Returned (Some 2)).
Proof.
  repeat split; try reflexivity; vm_compute; reflexivity.
Qed.

(** C1 (amended): the lookup returns only ids of stored rows that have type
    'verification', are unused, unexpired and match the supplied (email,
    code) pair; on a reachable table it returns some id iff such a row
    exists (when several do, one of them); and once a row is used, no
    later lookup returns its id, whatever operations ran in between. *)
Theorem lookup_returns_redeemable_rows (db : database) (email0 code0 : string) :
  (forall i, fst (checkVerificationCode email0 code0 db) = Returned (Some i) ->
     exists t r, verification_codes db = Some t /\ rows t !! i = Some r /\
       type r = "verification" /\ used r = false /\ now db < expires_at r /\
       email r = email0 /\ code r = code0) /\
  (forall t, connected db = true -> verification_codes db = Some t ->
     ((exists i, fst (checkVerificationCode email0 code0 db) = Returned (Some i)) <->
      (exists i r, rows t !! i = Some r /\
         type r = "verification" /\ used r = false /\ now db < expires_at r /\
         email r = email0 /\ code r = code0))) /\
  (forall t i r db', verification_codes db = Some t -> rows t !! i = Some r ->
     used r = true -> rtc step db db' ->
     forall email1 code1, fst (checkVerificationCode email1 code1 db') <> Returned (Some i)).
Proof.
  split; [|split].
  - intros i H. apply check_Some_inv in H as (t & r & _ & Ht & Hi & Hv).
    apply valid_for_true in Hv. exists t, r. tauto.
  - intros t Hc Ht. split.
    + intros [i H]. apply check_Some_inv in H as (t' & r & _ & Ht' & Hi & Hv).
      apply valid_for_true in Hv. assert (t' = t) by congruence. subst t'.
      exists i, r. tauto.
    + intros (i & r & Hi & Hv).
      assert (Hv' : valid_for email0 code0 (now db) r = true)
        by (apply valid_for_true; tauto).
      destruct (check_connected email0 code0 db t Hc Ht)
        as [(j & r' & E & _)|[_ Hnone]].
      * exists j. rewrite E. reflexivity.
      * rewrite (Hnone i r Hi) in Hv'. discriminate.
  - intros t i r db' Ht Hi Hu Hsteps email1 code1 H.
    destruct (steps_keep_used db db' i Hsteps) as (t' & r' & Ht' & Hi' & Hu'); [eauto|].
    apply check_Some_inv in H as (t2 & r2 & _ & Ht2 & Hi2 & Hv).
    apply valid_for_true in Hv.
    assert (t2 = t') by congruence. subst t2.
    assert (r2 = r') by congruence. subst r2.
    destruct Hv as (_ & _ & _ & _ & Hv). congruence.
Qed.

(** The amended C1 at a concrete store: of two valid rows one is returned,
    and after it is marked used and a new code is saved, it is not
    returned again. *)
Lemma lookup_returns_redeemable_rows_witness :
  (exists i, fst (checkVerificationCode "a@b.com" "123456" db_two_codes) = Returned (Some i)) /\
  fst (checkVerificationCode "a@b.com" "654321"
         (snd (saveVerificationCode "c@d.com" "222222" "verification" db_used_only)))
    <> Returned (Some 4).
Proof.
  destruct (lookup_returns_redeemable_rows db_two_codes "a@b.com" "123456")
    as (_ & Hiff & _).
  destruct (lookup_returns_redeemable_rows db_used_only "a@b.com" "654321")
    as (_ & _ & Hused).
  split.
  - apply (Hiff (Table (<[1 := row_old]> {[ 2 := row_new ]}) 3)); try reflexivity.
    exists 1, row_old. repeat split; reflexivity.
  - apply (Hused (Table {[ 4 := row_used ]} 5) 4 row_used); try reflexivity.
    apply rtc_once. apply step_save.
Defined.

(** C5: [markVerificationCodeAsUsed] is idempotent. A second call on the
    same id leaves the database as the first call left it and returns what
    the first returned; neither call throws; and on a reachable table the
    row, when it exists (its id is then an [integer]), ends with
    [used = TRUE]. *)
Theorem mark_used_idempotent (db : database) (id : Z) :
  let once := markVerificationCodeAsUsed id db in
  let twice := markVerificationCodeAsUsed id (snd once) in
  snd twice = snd once /\
  fst twice = fst once /\
  (exists b, fst once = Returned b) /\
  (forall t r, connected db = true -> verification_codes db = Some t ->
     rows t !! id = Some r -> int4 id = true ->
     fst once = Returned true /\
     exists t', verification_codes (snd once) = Some t' /\
       rows t' !! id = Some (set_used r) /\ used (set_used r) = true).
Proof.
  cbv zeta.
  assert (Hno : connected db = false \/ verification_codes db = None \/ int4 id = false ->
                snd (markVerificationCodeAsUsed id (snd (markVerificationCodeAsUsed id db))) =
                  snd (markVerificationCodeAsUsed id db) /\
                fst (markVerificationCodeAsUsed id (snd (markVerificationCodeAsUsed id db))) =
                  fst (markVerificationCodeAsUsed id db) /\
                (exists b, fst (markVerificationCodeAsUsed id db) = Returned b) /\
                (forall t r, connected db = true -> verification_codes db = Some t ->
                   rows t !! id = Some r -> int4 id = true ->
                   fst (markVerificationCodeAsUsed id db) = Returned true /\
                   exists t', verification_codes (snd (markVerificationCodeAsUsed id db)) = Some t' /\
                     rows t' !! id = Some (set_used r) /\ used (set_used r) = true)).
  { intros H. rewrite (mark_unavailable id db H). cbn [fst snd].
    rewrite (mark_unavailable id db H). cbn [fst snd].
    split; [reflexivity|]. split; [reflexivity|]. split; [eauto|].
    intros t r Hc Ht _ Hid. destruct H as [H|[H|H]]; congruence. }
  destruct (connected db) eqn:Hc; [|apply Hno; auto].
  destruct (verification_codes db) as [t|] eqn:Ht; [|apply Hno; auto].
  destruct (int4 id) eqn:Hid; [|apply Hno; auto].
  clear Hno.
  rewrite (mark_connected id db t Hc Ht Hid). cbn [fst snd].
  rewrite (mark_connected id (with_table _ db)
             (Table (alter set_used id (rows t)) (serial t)) Hc eq_refl Hid).
  cbn [fst snd rows serial]. rewrite alter_set_used_twice.
  split; [reflexivity|]. split; [reflexivity|]. split; [eauto|].
  intros t0 r _ Ht0 Hr _. injection Ht0 as <-.
  split; [reflexivity|]. eexists. split; [reflexivity|]. cbn.
  rewrite lookup_alter_eq, Hr. split; reflexivity.
Qed.

(** C6, as stated, fails: the newest row that matches the supplied email
    and code is not the one returned when it is used, or of another type.
    With an older unused row (id 1, created at 10) and a newer used row
    (id 2, created at 20) for the same pair, the lookup returns id 1; the
    same with a newer row of type 'password_reset' (id 3, created at 30). *)
Lemma newest_matching_row_is_skipped :
  (verification_codes db_newest_used =
     Some (Table (<[1 := row_old]> {[ 2 := row_new_used ]}) 3) /\
   email row_old = "a@b.com" /\ code row_old = "123456" /\
   email row_new_used = "a@b.com" /\ code row_new_used = "123456" /\
   created_at row_old < created_at row_new_used /\
   fst (checkVerificationCode "a@b.com" "123456" db_newest_used) = Returned (Some 1)) /\
  (verification_codes db_newest_reset =
     Some (Table (<[1 := row_old]> {[ 3 := row_reset ]}) 4) /\
   email row_reset = "a@b.com" /\ code row_reset = "123456" /\
   created_at row_old < created_at row_reset /\
   fst (checkVerificationCode "a@b.com" "123456" db_newest_reset) = Returned (Some 1)).
Proof.
  repeat split; try reflexivity; try (cbn; lia); vm_compute; reflexivity.
Qed.

(** C6 (amended): among the rows that pass the lookup's filter (the
    supplied email and code, type 'verification', unused, unexpired) the
    lookup returns a newest one: when at least one row passes, it returns
    the id of such a row, and no row that passes was created later than
    the returned one. *)
Theorem lookup_returns_newest (db : database) (t : table) (email0 code0 : string) :
  connected db = true -> verification_codes db = Some t ->
  (exists i r, rows t !! i = Some r /\ valid_for email0 code0 (now db) r = true) ->
  exists i r,
    checkVerificationCode email0 code0 db = (Returned (Some i), db) /\
    rows t !! i = Some r /\ valid_for email0 code0 (now db) r = true /\
    forall j r', rows t !! j = Some r' -> valid_for email0 code0 (now db) r' = true ->
                 created_at r' <= created_at r.
Proof.
  intros Hc Ht (i & r & Hi & Hv).
  destruct (check_connected email0 code0 db t Hc Ht) as [H|[_ Hnone]]; [exact H|].
  rewrite (Hnone i r Hi) in Hv. discriminate.
Qed.

(** The amended C6 at a store with two rows that pass the filter: the
    newer one, id 2, is returned. *)
Lemma lookup_returns_newest_witness :
  exists i r,
    checkVerificationCode "a@b.com" "123456" db_two_codes = (Returned (Some i), db_two_codes) /\
    rows (Table (<[1 := row_old]> {[ 2 := row_new ]}) 3) !! i = Some r /\
    valid_for "a@b.com" "123456" (now db_two_codes) r = true /\
    forall j r', rows (Table (<[1 := row_old]> {[ 2 := row_new ]}) 3) !! j = Some r' ->
                 valid_for "a@b.com" "123456" (now db_two_codes) r' = true ->
                 created_at r' <= created_at r.
Proof.
  apply (lookup_returns_newest db_two_codes); try reflexivity.
  exists 1, row_old. split; reflexivity.
Defined.

(** C7: one rejection for every cause. Whenever each stored row is ruled
    out for a cause of its own (it does not match the pair, or it matches
    and is expired, or it matches and is used), whatever the mix of causes
    in the table, the lookup returns [null] and leaves the database as it
    was. And on a reachable table a [null] means just that of the rows of
    type 'verification': each is ruled out for one of the three causes. *)
Theorem lookup_rejection_is_uniform (db : database) (email0 code0 : string) :
  ((forall t i r, verification_codes db = Some t -> rows t !! i = Some r ->
      exists c, rejected_for c email0 code0 (now db) r) ->
   checkVerificationCode email0 code0 db = (Returned None, db)) /\
  (forall t i r, connected db = true -> verification_codes db = Some t ->
     fst (checkVerificationCode email0 code0 db) = Returned None ->
     rows t !! i = Some r -> type r = "verification" ->
     exists c, rejected_for c email0 code0 (now db) r).
Proof.
  split.
  - intros Hrej.
    destruct (connected db) eqn:Hc; [|apply check_unavailable; auto].
    destruct (verification_codes db) as [t|] eqn:Ht; [|apply check_unavailable; auto].
    destruct (check_connected email0 code0 db t Hc Ht)
      as [(i & r & _ & Hi & Hv & _)|[E _]]; [|exact E].
    apply valid_for_true in Hv as (He & Hcd & _ & Hx & Hu).
    destruct (Hrej t i r eq_refl Hi) as [[| |] Hc0]; cbn in Hc0.
    + tauto.
    + lia.
    + destruct Hc0 as (_ & _ & Hc0). congruence.
  - intros t i r Hc Ht Hnone Hi Hty.
    destruct (check_connected email0 code0 db t Hc Ht)
      as [(j & r' & E & _)|[_ Hall]]; [rewrite E in Hnone; discriminate|].
    specialize (Hall i r Hi). unfold valid_for in Hall.
    destruct (String.eqb_spec (email r) email0) as [He|He];
      [|exists NoMatchingRow; cbn; tauto].
    destruct (String.eqb_spec (code r) code0) as [Hcd|Hcd];
      [|exists NoMatchingRow; cbn; tauto].
    rewrite Hty in Hall. cbn in Hall.
    destruct (Z.ltb_spec (now db) (expires_at r)) as [Hx|Hx];
      [|exists MatchingRowExpired; cbn; auto].
    destruct (used r) eqn:Hu; [|discriminate].
    exists MatchingRowUsed. cbn. auto.
Qed.

(** C7 at a store where the three causes occur together, for the pair
    ("a@b.com", "123456"): row 1 matches and is expired, row 2 matches and
    is used, row 3 is another user's live code. *)
Lemma lookup_rejection_is_uniform_witness :
  checkVerificationCode "a@b.com" "123456" db_all_rejected = (Returned None, db_all_rejected).
Proof.
  apply (lookup_rejection_is_uniform db_all_rejected "a@b.com" "123456").
  intros t i r Ht Hi. injection Ht as <-. cbn [rows] in Hi.
  apply lookup_insert_Some in Hi as [[_ <-]|[_ Hi]];
    [exists MatchingRowExpired; cbn; repeat split; lia|].
  apply lookup_insert_Some in Hi as [[_ <-]|[_ Hi]];
    [exists MatchingRowUsed; cbn; repeat split|].
  apply lookup_singleton_Some in Hi as [_ <-].
  exists NoMatchingRow. cbn. intros [H _]. discriminate.
Defined.

(** C9: a row whose type is not 'verification' is never returned by the
    lookup, whatever pair is supplied and whatever the clock reads. *)
Theorem lookup_ignores_other_types (db : database) (t : table) (i : Z) (r : row)
    (email0 code0 : string) :
  verification_codes db = Some t -> rows t !! i = Some r ->
  type r <> "verification" ->
  fst (checkVerificationCode email0 code0 db) <> Returned (Some i).
Proof.
  intros Ht Hi Hty H.
  apply check_Some_inv in H as (t' & r' & _ & Ht' & Hi' & Hv).
  apply valid_for_true in Hv.
  assert (t' = t) by congruence. subst t'.
  assert (r' = r) by congruence. subst r'. tauto.
Qed.

(** C9 at a store holding one unused, unexpired 'password_reset' code. *)
Lemma lookup_ignores_other_types_witness :
  fst (checkVerificationCode "a@b.com" "123456" db_reset_only) <> Returned (Some 3).
Proof.
  apply (lookup_ignores_other_types db_reset_only (Table {[ 3 := row_reset ]} 4) 3 row_reset).
  - reflexivity.
  - reflexivity.
  - discriminate.
Defined.

(** C10, as stated, fails for an id that is not an [integer]: no row has
    the id 2147483648, and marking it returns [false], while marking the
    id 1 returns [true]. *)
Lemma mark_rejects_a_large_id :
  connected db_one_code = true /\
  verification_codes db_one_code = Some (Table {[ 1 := row_old ]} 2) /\
  rows (Table {[ 1 := row_old ]} 2) !! 2147483648 = None /\
  markVerificationCodeAsUsed 2147483648 db_one_code = (Returned false, db_one_code) /\
  fst (markVerificationCodeAsUsed 1 db_one_code) = Returned true.
Proof.
  repeat split; reflexivity.
Qed.

(** C10 (amended): on a reachable table, marking an id that is an
    [integer] and that no row has returns [true] and leaves the database
    as it was; marking any [integer] returns [true], so on these ids the
    result does not tell a missing row from an existing one; marking a
    number outside [integer] returns [false] and changes nothing. *)
Theorem mark_missing_row_reports_success (db : database) (t : table) (id : Z) :
  connected db = true -> verification_codes db = Some t -> rows t !! id = None ->
  int4 id = true ->
  markVerificationCodeAsUsed id db = (Returned true, db) /\
  (forall id', int4 id' = true -> fst (markVerificationCodeAsUsed id' db) = Returned true) /\
  (forall id', int4 id' = false -> markVerificationCodeAsUsed id' db = (Returned false, db)).
Proof.
  intros Hc Ht Hid Hr. split; [|split].
  - rewrite (mark_connected id db t Hc Ht Hr), (alter_set_used_absent id (rows t) Hid).
    destruct db, t; cbn in *. subst. reflexivity.
  - intros id' Hr'. rewrite (mark_connected id' db t Hc Ht Hr'). reflexivity.
  - intros id' Hr'. apply mark_unavailable. auto.
Qed.

(** The amended C10 at a store whose only row has id 1: marking id 99. *)
Lemma mark_missing_row_reports_success_witness :
  markVerificationCodeAsUsed 99 db_one_code = (Returned true, db_one_code) /\
  (forall id', int4 id' = true ->
     fst (markVerificationCodeAsUsed id' db_one_code) = Returned true) /\
  (forall id', int4 id' = false ->
     markVerificationCodeAsUsed id' db_one_code = (Returned false, db_one_code)).
Proof.
  apply (mark_missing_row_reports_success db_one_code (Table {[ 1 := row_old ]} 2) 99);
    reflexivity.
Defined.

End Redemption.

(** ** Two callers redeeming the same code *)

Section Race.
Import TestVerificationCode Examples.

Lemma bind_returned {W A B} (c : M W A) (k : A -> M W B) (w w' : W) (a : A) :
  c w = (Returned a, w') -> bind c k w = k a w'.
Proof. unfold bind. intros ->. reflexivity. Qed.




End Race.

(** ** The migration *)

Section Migration.
Import EnsureVerificationCodes.

Lemma try_catch_returned {W A} (body : M W A) (h : js_error -> M W A) (w w' : W) (a : A) :
  body w = (Returned a, w') -> try_catch body h w = (Returned a, w').
Proof. unfold try_catch. intros ->. reflexivity. Qed.

Lemma validate_returns (db : database) :
  exists b, validateTableStructure db = (Returned b, db).
Proof.
  unfold validateTableStructure, try_catch, bind, pool_query, select_columns, ret.
  destruct (connected db); eauto.
Qed.

(** One [CREATE INDEX IF NOT EXISTS] on the table the migration creates. *)
Lemma create_index_ok (name col : string) (db : database) :
  tables db !! "verification_codes" = Some verification_codes_columns ->
  col ∈ map column_name verification_codes_columns ->
  exists idx',
    create_index_if_not_exists name "verification_codes" col db =
      (Returned tt, Database (connected db) (tables db) idx') /\
    is_Some (idx' !! name) /\
    (indexes db !! name = None -> idx' !! name = Some ("verification_codes", col)) /\
    (forall n, n <> name -> idx' !! n = indexes db !! n).
Proof.
  intros Ht Hcol. unfold create_index_if_not_exists.
  destruct (indexes db !! name) as [x|] eqn:Ei.
  - exists (indexes db). destruct db; cbn in *. rewrite Ei.
    split; [reflexivity|]. split; [eauto|]. split; [discriminate|]. reflexivity.
  - rewrite Ht. rewrite bool_decide_eq_true_2 by exact Hcol.
    eexists. split; [reflexivity|]. rewrite lookup_insert_eq.
    split; [eauto|]. split; [reflexivity|].
    intros n Hn. rewrite lookup_insert_ne by auto. reflexivity.
Qed.

(** The four indexes, created on a schema that has the migration's table. *)
Lemma create_indexes_ok (db : database) :
  tables db !! "verification_codes" = Some verification_codes_columns ->
  exists idx',
    create_indexes db = (Returned tt, Database (connected db) (tables db) idx') /\
    forall name col, (name, col) ∈ verification_codes_indexes ->
      is_Some (idx' !! name) /\
      (indexes db !! name = None -> idx' !! name = Some ("verification_codes", col)).
Proof.
  intros Ht. unfold create_indexes.
  destruct (create_index_ok "idx_verification_codes_email" "email" db Ht)
    as (i1 & E1 & S1 & F1 & O1); [set_solver|].
  rewrite (bind_returned _ _ _ _ _ E1).
  destruct (create_index_ok "idx_verification_codes_user_id" "user_id"
              (Database (connected db) (tables db) i1) Ht)
    as (i2 & E2 & S2 & F2 & O2); [set_solver|].
  rewrite (bind_returned _ _ _ _ _ E2).
  destruct (create_index_ok "idx_verification_codes_code" "code"
              (Database (connected db) (tables db) i2) Ht)
    as (i3 & E3 & S3 & F3 & O3); [set_solver|].
  rewrite (bind_returned _ _ _ _ _ E3).
  destruct (create_index_ok "idx_verification_codes_expires_at" "expires_at"
              (Database (connected db) (tables db) i3) Ht)
    as (i4 & E4 & S4 & F4 & O4); [set_solver|].
  cbn [connected tables indexes] in *.
  exists i4. split; [exact E4|].
  intros name col Hin. unfold verification_codes_indexes in Hin.
  repeat (apply elem_of_cons in Hin as [Hin|Hin]; [injection Hin as -> ->|]);
    [| | | |inversion Hin].
  - rewrite O4, O3, O2 by discriminate. auto.
  - rewrite O4, O3 by discriminate. split; [exact S2|].
    intros H. apply F2. rewrite O1 by discriminate. exact H.
  - rewrite O4 by discriminate. split; [exact S3|].
    intros H. apply F3. rewrite O2, O1 by discriminate. exact H.
  - split; [exact S4|].
    intros H. apply F4. rewrite O3, O2, O1 by discriminate. exact H.
Qed.

Lemma ensure_unreachable (db : database) :
  connected db = false -> ensureVerificationCodesTable db = (Returned false, db).
Proof.
  intros Hc. unfold ensureVerificationCodesTable, try_catch, bind, pool_query.
  rewrite Hc. reflexivity.
Qed.

(** With the table in place the migration changes nothing. *)
Lemma ensure_table_present (db : database) :
  connected db = true -> is_Some (tables db !! "verification_codes") ->
  ensureVerificationCodesTable db = (Returned true, db).
Proof.
  intros Hc Ht. destruct (validate_returns db) as [b Hv].
  assert (Hcreate : createVerificationCodesTable db = (Returned true, db)).
  { unfold createVerificationCodesTable. apply try_catch_returned.
    unfold bind, pool_query, select_table_exists. rewrite Hc.
    rewrite bool_decide_eq_true_2 by exact Ht. reflexivity. }
  unfold ensureVerificationCodesTable. apply try_catch_returned.
  assert (H1 : pool_query select_1 db = (Returned tt, db))
    by (unfold pool_query, select_1, ret; rewrite Hc; reflexivity).
  rewrite (bind_returned _ _ _ _ _ H1), (bind_returned _ _ _ _ _ Hcreate).
  unfold bind at 1. unfold bind at 1. rewrite Hv. reflexivity.
Qed.

(** Without the table the migration creates it, and its four indexes. *)
Lemma ensure_table_absent (db : database) :
  connected db = true -> tables db !! "verification_codes" = None ->
  exists idx',
    ensureVerificationCodesTable db =
      (Returned true,
       Database true (<["verification_codes" := verification_codes_columns]> (tables db)) idx') /\
    forall name col, (name, col) ∈ verification_codes_indexes ->
      is_Some (idx' !! name) /\
      (indexes db !! name = None -> idx' !! name = Some ("verification_codes", col)).
Proof.
  intros Hc Ht.
  set (db1 := Database (connected db)
                (<["verification_codes" := verification_codes_columns]> (tables db))
                (indexes db)).
  destruct (create_indexes_ok db1) as (idx' & Ei & Hidx);
    [apply lookup_insert_eq|].
  cbn [connected tables indexes db1] in Ei, Hidx. rewrite Hc in Ei.
  exists idx'. split; [|exact Hidx].
  set (db2 := Database true (<["verification_codes" := verification_codes_columns]> (tables db)) idx').
  destruct (validate_returns db2) as [b Hv].
  assert (Hcreate : createVerificationCodesTable db = (Returned true, db2)).
  { unfold createVerificationCodesTable. apply try_catch_returned.
    unfold bind at 1. unfold pool_query at 1. unfold select_table_exists. rewrite Hc.
    rewrite bool_decide_eq_false_2 by (rewrite Ht; intros [? ?]; discriminate).
    unfold bind at 1. unfold pool_query at 1. rewrite Hc.
    unfold create_table_if_not_exists. rewrite Ht, Hc.
    unfold bind at 1. unfold pool_query at 1. cbn [connected].
    fold db1 in Ei. unfold db1 in Ei. rewrite Hc in Ei. rewrite Ei. reflexivity. }
  unfold ensureVerificationCodesTable. apply try_catch_returned.
  assert (H1 : pool_query select_1 db = (Returned tt, db))
    by (unfold pool_query, select_1, ret; rewrite Hc; reflexivity).
  rewrite (bind_returned _ _ _ _ _ H1), (bind_returned _ _ _ _ _ Hcreate).
  unfold bind at 1. unfold bind at 1. rewrite Hv. reflexivity.
Qed.

End Migration.

Section MigrationClaims.
Import EnsureVerificationCodes Examples.

(** C8, as stated, fails where it says the indexes are created when
    absent: on a schema that has the table and none of its indexes, the
    migration returns [true] and creates no index. *)
Lemma existing_table_gets_no_indexes :
  tables table_without_indexes !! "verification_codes" = Some verification_codes_columns /\
  indexes table_without_indexes !! "idx_verification_codes_email" = None /\
  fst (ensureVerificationCodesTable table_without_indexes) = Returned true /\
  indexes (snd (ensureVerificationCodesTable table_without_indexes))
    !! "idx_verification_codes_email" = None /\
  indexes (snd (ensureVerificationCodesTable table_without_indexes))
    !! "idx_verification_codes_user_id" = None /\
  indexes (snd (ensureVerificationCodesTable table_without_indexes))
    !! "idx_verification_codes_code" = None /\
  indexes (snd (ensureVerificationCodesTable table_without_indexes))
    !! "idx_verification_codes_expires_at" = None.
Proof.
  rewrite (ensure_table_present table_without_indexes eq_refl) by (eexists; reflexivity).
  repeat split; reflexivity.
Qed.

(** C8 (amended): [ensureVerificationCodesTable] never throws, and calling
    it again, any number of times, leaves the schema as the first call
    left it and returns what the first call returned. On a reachable
    database: when the table is absent it creates the table and the four
    indexes (an index name already taken is left as it is) and returns
    [true]; when the table exists it returns [true] and changes nothing,
    so indexes that an existing table lacks are not created. *)
Theorem ensure_schema_idempotent (db : database) :
  (exists b, fst (ensureVerificationCodesTable db) = Returned b) /\
  (forall n, ensure_times (S n) db = snd (ensureVerificationCodesTable db)) /\
  fst (ensureVerificationCodesTable (snd (ensureVerificationCodesTable db))) =
    fst (ensureVerificationCodesTable db) /\
  (connected db = true -> tables db !! "verification_codes" = None ->
     fst (ensureVerificationCodesTable db) = Returned true /\
     tables (snd (ensureVerificationCodesTable db)) !! "verification_codes" =
       Some verification_codes_columns /\
     forall name col, (name, col) ∈ verification_codes_indexes ->
       is_Some (indexes (snd (ensureVerificationCodesTable db)) !! name) /\
       (indexes db !! name = None ->
        indexes (snd (ensureVerificationCodesTable db)) !! name =
          Some ("verification_codes", col))) /\
  (connected db = true -> is_Some (tables db !! "verification_codes") ->
     ensureVerificationCodesTable db = (Returned true, db)).
Proof.
  assert (Hagain : ensureVerificationCodesTable (snd (ensureVerificationCodesTable db)) =
                   (fst (ensureVerificationCodesTable db), snd (ensureVerificationCodesTable db))).
  { destruct (connected db) eqn:Hc.
    - destruct (tables db !! "verification_codes") as [cols|] eqn:Ht.
      + rewrite (ensure_table_present db Hc) by eauto. cbn [fst snd].
        apply ensure_table_present; eauto.
      + destruct (ensure_table_absent db Hc Ht) as (idx' & -> & _). cbn [fst snd].
        apply ensure_table_present; [reflexivity|].
        cbn [tables]. rewrite lookup_insert_eq. eauto.
    - rewrite (ensure_unreachable db Hc). cbn [fst snd]. apply ensure_unreachable, Hc. }
  split; [|split; [|split; [|split]]].
  - destruct (connected db) eqn:Hc.
    + destruct (tables db !! "verification_codes") as [cols|] eqn:Ht.
      * rewrite (ensure_table_present db Hc) by eauto. eauto.
      * destruct (ensure_table_absent db Hc Ht) as (idx' & -> & _). eauto.
    + rewrite (ensure_unreachable db Hc). eauto.
  - intros n. induction n as [|n IH].
    + reflexivity.
    + cbn [ensure_times] in *. rewrite Hagain. cbn [snd]. exact IH.
  - rewrite Hagain. reflexivity.
  - intros Hc Ht. destruct (ensure_table_absent db Hc Ht) as (idx' & -> & Hidx).
    cbn [fst snd tables indexes]. split; [reflexivity|].
    split; [apply lookup_insert_eq | exact Hidx].
  - apply ensure_table_present.
Qed.

(** The amended C8 on an empty schema: the table and its index on [email]
    are there after one call, and a fifth call changes nothing. *)
Lemma ensure_schema_idempotent_witness :
  (fst (ensureVerificationCodesTable empty_schema) = Returned true /\
   tables (snd (ensureVerificationCodesTable empty_schema)) !! "verification_codes" =
     Some verification_codes_columns /\
   forall name col, (name, col) ∈ verification_codes_indexes ->
     is_Some (indexes (snd (ensureVerificationCodesTable empty_schema)) !! name) /\
     (indexes empty_schema !! name = None ->
      indexes (snd (ensureVerificationCodesTable empty_schema)) !! name =
        Some ("verification_codes", col))) /\
  ensure_times 5 empty_schema = snd (ensureVerificationCodesTable empty_schema).
Proof.
  destruct (ensure_schema_idempotent empty_schema) as (_ & Htimes & _ & Habsent & _).
  split.
  - apply Habsent; reflexivity.
  - apply (Htimes 4%nat).
Defined.

End MigrationClaims.

(** ** The delivery adapter *)

Section Delivery.
Import TestSendgridServiceNew Examples.

(** C3 fails on the code at this input: SendGrid rejects the message with
    403 (sender not verified); the random source yields 0 and then 0.5.
    The adapter does not throw and returns [success = false], but with the
    code "550000", drawn afresh in the [catch] clause, while the message
    handed to [send] carried "100000". *)
Theorem failed_delivery_returns_a_fresh_code :
  exists w',
    testSendVerificationCode rejecting_world =
      (Returned (Delivery "550000" false), w') /\
    map text (attempted w') = [text_body "100000"] /\
    map html (attempted w') = [html_body "100000"] /\
    "550000" <> "100000".
Proof.
  eexists. split; [vm_compute; reflexivity|].
  split; [reflexivity|]. split; [reflexivity|]. discriminate.
Qed.

End Delivery.

(** ** Email validation *)

Section EmailValidation.
Import JsRegExp.

Lemma nullable_spec (r : regex) : nullable r = true <-> matches r [].
Proof.
  induction r as [| |p|r1 IH1 r2 IH2|r1 IH1 r2 IH2|r IH]; cbn.
  - split; [discriminate | inversion 1].
  - split; [constructor | reflexivity].
  - split; [discriminate | inversion 1].
  - rewrite andb_true_iff, IH1, IH2. split.
    + intros [H1 H2]. apply (matches_seq r1 r2 [] [] H1 H2).
    + inversion 1 as [| |? ? s1 s2 H1 H2 Hr Hs| | | |]; subst.
      apply app_eq_nil in Hs as [-> ->]. auto.
  - rewrite orb_true_iff, IH1, IH2. split.
    + intros [H|H]; [apply matches_alt_l | apply matches_alt_r]; exact H.
    + inversion 1; subst; auto.
  - split; [constructor | reflexivity].
Qed.

(** A match of [r*] on a non-empty input starts with a non-empty match of [r]. *)
Lemma matches_star_cons (r : regex) (c : N) (s : list N) :
  matches (Star r) (c :: s) ->
  exists s1 s2, s = s1 ++ s2 /\ matches r (c :: s1) /\ matches (Star r) s2.
Proof.
  intros H. remember (Star r) as r' eqn:Er. remember (c :: s) as s' eqn:Es.
  revert c s Es.
  induction H as [| | | | | |r0 s1 s2 H1 _ H2 IH2]; try discriminate.
  injection Er as ->. intros c s Es.
  destruct s1 as [|c1 s1]; cbn in Es.
  - apply (IH2 eq_refl c s Es).
  - injection Es as <- <-. exists s1, s2. auto.
Qed.

Lemma derivative_spec (c : N) (r : regex) (s : list N) :
  matches (derivative c r) s <-> matches r (c :: s).
Proof.
  revert s. induction r as [| |p|r1 IH1 r2 IH2|r1 IH1 r2 IH2|r IH]; intros s; cbn.
  - split; inversion 1.
  - split; inversion 1.
  - destruct (p c) eqn:Hp; split.
    + inversion 1; subst. constructor. exact Hp.
    + inversion 1; subst. constructor.
    + inversion 1.
    + inversion 1; subst. congruence.
  - assert (Hseq : matches (Seq (derivative c r1) r2) s ->
                   matches (Seq r1 r2) (c :: s)).
    { inversion 1 as [| |? ? s1 s2 H1 H2 Hr Hs| | | |]; subst.
      apply IH1 in H1. apply (matches_seq r1 r2 (c :: s1) s2 H1 H2). }
    assert (Hinv : matches (Seq r1 r2) (c :: s) ->
                   matches (Seq (derivative c r1) r2) s \/
                   (matches r1 [] /\ matches r2 (c :: s))).
    { inversion 1 as [| |? ? s1 s2 H1 H2 Hr Hs| | | |]; subst.
      destruct s1 as [|c1 s1]; cbn in Hs.
      - subst s2. right. auto.
      - injection Hs as <- <-. left. constructor; [apply IH1; exact H1 | exact H2]. }
    destruct (nullable r1) eqn:Hn; split.
    + inversion 1; subst; [auto|].
      apply (matches_seq r1 r2 [] (c :: s)); [apply nullable_spec; exact Hn | apply IH2; assumption].
    + intros H. destruct (Hinv H) as [H'|[_ H']];
        [apply matches_alt_l; exact H' | apply matches_alt_r, IH2; exact H'].
    + exact Hseq.
    + intros H. destruct (Hinv H) as [H'|[H' _]]; [exact H'|].
      apply nullable_spec in H'. congruence.
  - split.
    + inversion 1; subst; [apply matches_alt_l, IH1 | apply matches_alt_r, IH2]; assumption.
    + inversion 1; subst; [apply matches_alt_l, IH1 | apply matches_alt_r, IH2]; assumption.
  - split.
    + inversion 1 as [| |? ? s1 s2 H1 H2 Hr Hs| | | |]; subst.
      apply IH in H1. apply (matches_star_app r (c :: s1) s2 H1 H2).
    + intros H. apply matches_star_cons in H as (s1 & s2 & -> & H1 & H2).
      constructor; [apply IH; exact H1 | exact H2].
Qed.

(** The matcher decides the language. *)
Lemma test_anchored_spec (r : regex) (s : list N) :
  test_anchored r s = true <-> matches r s.
Proof.
  revert r. induction s as [|c s IH]; intros r; cbn.
  - apply nullable_spec.
  - rewrite IH. apply derivative_spec.
Qed.

Lemma matches_star_class (p : N -> bool) (s : list N) :
  matches (Star (Class p)) s <-> Forall (fun c => p c = true) s.
Proof.
  split.
  - intros H. remember (Star (Class p)) as r eqn:Er.
    induction H as [| | | | | |r0 s1 s2 H1 _ H2 IH2]; try discriminate.
    + constructor.
    + injection Er as ->. inversion H1; subst. constructor; [assumption|].
      apply IH2. reflexivity.
  - induction 1 as [|c s Hc _ IH].
    + constructor.
    + apply (matches_star_app (Class p) [c] s); [constructor; exact Hc | exact IH].
Qed.

(** [[...]+]: one or more code units of the class. *)
Lemma matches_plus_class (p : N -> bool) (s : list N) :
  matches (Plus (Class p)) s <-> s <> [] /\ Forall (fun c => p c = true) s.
Proof.
  unfold Plus. split.
  - inversion 1 as [| |? ? s1 s2 H1 H2 Hr Hs| | | |]; subst.
    inversion H1; subst. apply matches_star_class in H2.
    split; [discriminate | constructor; assumption].
  - intros [Hne Hall]. destruct Hall as [|c s Hc Hall]; [contradiction|].
    apply (matches_seq (Class p) (Star (Class p)) [c] s).
    + constructor. exact Hc.
    + apply matches_star_class. exact Hall.
Qed.

Lemma matches_char (ch : N) (s : list N) : matches (char ch) s <-> s = [ch].
Proof.
  unfold char. split.
  - inversion 1 as [|p c Hc| | | | |]; subst. apply N.eqb_eq in Hc. subst. reflexivity.
  - intros ->. constructor. apply N.eqb_refl.
Qed.

(** The parts of a string the pattern [/^[^\s@]+@[^\s@]+\.[^\s@]+$/]
    accepts. *)
Lemma accepted_email_parts (email : list N) :
  isValidEmail email = true ->
  exists local domain tld,
    email = local ++ [64%N] ++ domain ++ [46%N] ++ tld /\
    local <> [] /\ domain <> [] /\ tld <> [] /\
    Forall (fun c => not_space_or_at c = true) local /\
    Forall (fun c => not_space_or_at c = true) domain /\
    Forall (fun c => not_space_or_at c = true) tld.
Proof.
  unfold isValidEmail. rewrite test_anchored_spec. unfold email_pattern.
  inversion 1 as [| |? ? l s1 Hl H1 Hr Hs| | | |]; subst.
  inversion H1 as [| |? ? a s2 Ha H2 Hr Hs| | | |]; subst.
  inversion H2 as [| |? ? d s3 Hd H3 Hr Hs| | | |]; subst.
  inversion H3 as [| |? ? o t Ho Ht Hr Hs| | | |]; subst.
  apply matches_plus_class in Hl as [Hl1 Hl2].
  apply matches_plus_class in Hd as [Hd1 Hd2].
  apply matches_plus_class in Ht as [Ht1 Ht2].
  apply matches_char in Ha as ->. apply matches_char in Ho as ->.
  exists l, d, t. auto 10.
Qed.

(** [isValidEmail] accepts exactly the strings [local@domain.tld] whose
    three parts are non-empty and hold neither white space nor [@]
    (64 is [@], 46 is the dot). *)
Theorem isValidEmail_spec (email : list N) :
  isValidEmail email = true <->
  exists local domain tld,
    email = local ++ [64%N] ++ domain ++ [46%N] ++ tld /\
    local <> [] /\ domain <> [] /\ tld <> [] /\
    Forall (fun c => not_space_or_at c = true) local /\
    Forall (fun c => not_space_or_at c = true) domain /\
    Forall (fun c => not_space_or_at c = true) tld.
Proof.
  split; [apply accepted_email_parts|].
  unfold isValidEmail. rewrite test_anchored_spec. unfold email_pattern.
  intros (l & d & t & -> & Hl & Hd & Ht & Al & Ad & At).
  repeat (apply matches_seq);
    try (apply matches_char; reflexivity);
    apply matches_plus_class; auto.
Qed.

Lemma plain_not_at (s : list N) :
  Forall (fun c => not_space_or_at c = true) s ->
  count_occ N.eq_dec s 64%N = 0%nat /\ Forall (fun c => is_white_space c = false) s.
Proof.
  induction 1 as [|c s Hc _ [IH1 IH2]]; [split; [reflexivity | constructor]|].
  unfold not_space_or_at in Hc. apply andb_true_iff in Hc as [Hw Ha].
  apply negb_true_iff in Hw, Ha. apply N.eqb_neq in Ha.
  split.
  - rewrite count_occ_cons_neq by exact Ha. exact IH1.
  - constructor; assumption.
Qed.

(** What an accepted address looks like: exactly one [@], no white space
    anywhere, and at least five code units
    (one for each part and each separator). *)
Theorem valid_email_shape (email : list N) :
  isValidEmail email = true ->
  count_occ N.eq_dec email 64%N = 1%nat /\
  Forall (fun c => is_white_space c = false) email /\
  (5 <= length email)%nat.
Proof.
  intros H. apply accepted_email_parts in H
    as (l & d & t & -> & Hl & Hd & Ht & Al & Ad & At).
  apply plain_not_at in Al as [Cl Wl], Ad as [Cd Wd], At as [Ct Wt].
  split; [|split].
  - rewrite !count_occ_app, Cl, Cd, Ct. reflexivity.
  - rewrite !Forall_app. repeat split; try assumption;
      repeat constructor.
  - rewrite !length_app. cbn [length].
    destruct l; [contradiction|]. destruct d; [contradiction|].
    destruct t; [contradiction|]. cbn [length]. lia.
Qed.

(** [isValidEmail("user@test.com")] *)
Lemma valid_email_shape_witness :
  count_occ N.eq_dec (of_ascii "user@test.com") 64%N = 1%nat /\
  Forall (fun c => is_white_space c = false) (of_ascii "user@test.com") /\
  (5 <= length (of_ascii "user@test.com"))%nat.
Proof.
  apply (valid_email_shape (of_ascii "user@test.com")). reflexivity.
Defined.

End EmailValidation.

(** ** More on the store: saving, expiry, the life of a code *)

Section StoreLifecycle.
Import TestVerificationCode Examples Invariants.

(** Values within the lengths of their columns are stored as they are. *)
Lemma fits_columns (e c ty : string) :
  too_long e c ty = false ->
  varchar 255 e = Some e /\ varchar 10 c = Some c /\ varchar 50 ty = Some ty.
Proof.
  unfold too_long. intros H.
  apply orb_false_iff in H as [H Hty]. apply orb_false_iff in H as [He Hc].
  apply Nat.ltb_ge in He, Hc, Hty.
  repeat split; apply varchar_fits; assumption.
Qed.

(** A save that goes through: the values are text values that fit, the
    sequence has a next value, and that value is not in use. *)
Lemma save_connected (e c ty : string) (db : database) (t : table) :
  connected db = true -> verification_codes db = Some t ->
  has_nul e || has_nul c || has_nul ty = false ->
  too_long e c ty = false -> serial t <= int4_max -> rows t !! serial t = None ->
  saveVerificationCode e c ty db =
    (Returned (Some (serial t)),
     with_table (Table (<[serial t := Row e c ty (now db) (now db + thirty_minutes) false]>
                          (rows t))
                       (serial t + 1)) db).
Proof.
  intros Hc Ht Hn Hl Hmax Hs. rewrite save_result, Hc, Ht, Hn.
  destruct (fits_columns e c ty Hl) as (-> & -> & ->).
  apply Z.ltb_ge in Hmax. rewrite Hmax, Hs. reflexivity.
Qed.

(** In a well-formed table the next value of the sequence is not in use. *)
Lemma serial_is_fresh (db : database) (t : table) :
  well_formed db -> verification_codes db = Some t -> rows t !! serial t = None.
Proof.
  intros Hwf Ht. destruct (rows t !! serial t) eqn:E; [|reflexivity].
  destruct (Hwf t Ht) as [_ H]. specialize (H (serial t) ltac:(eauto)). lia.
Qed.

(** Every operation keeps the ids within the sequence. *)
Lemma step_keeps_well_formed (db db' : database) :
  step db db' -> well_formed db -> well_formed db'.
Proof.
  intros Hstep Hwf.
  destruct Hstep as [db|e c ty db|e c db|id db|db t' _|db b].
  - unfold createVerificationCodesTable, try_catch, bind, pool_query,
      create_table_if_not_exists, ret.
    destruct (connected db); [|exact Hwf].
    destruct (verification_codes db) as [t|] eqn:Ht; cbn [snd]; [exact Hwf|].
    intros t Et. injection Et as <-. cbn [rows serial]. split; [lia|].
    intros i [r Hr]. rewrite lookup_empty in Hr. discriminate.
  - rewrite save_result.
    destruct (connected db); [|exact Hwf].
    destruct (verification_codes db) as [t|] eqn:Ht; [|exact Hwf].
    destruct (has_nul e || has_nul c || has_nul ty); [exact Hwf|].
    destruct (varchar 255 e), (varchar 10 c), (varchar 50 ty); try exact Hwf.
    destruct (int4_max <? serial t); [exact Hwf|].
    rewrite (serial_is_fresh db t Hwf Ht). cbn [snd].
    destruct (Hwf t Ht) as [H1 Hids].
    intros t1 Et. injection Et as <-. cbn [rows serial]. split; [lia|].
    intros i Hi. apply lookup_insert_is_Some in Hi as [<-|[_ Hi]]; [lia|].
    specialize (Hids i Hi). lia.
  - destruct (check_returns e c db) as [o ->]. exact Hwf.
  - destruct (connected db) eqn:Hc; [|rewrite mark_unavailable by auto; exact Hwf].
    destruct (verification_codes db) as [t|] eqn:Ht;
      [|rewrite mark_unavailable by auto; exact Hwf].
    destruct (int4 id) eqn:Hid; [|rewrite mark_unavailable by auto; exact Hwf].
    rewrite (mark_connected id db t Hc Ht Hid). cbn [snd].
    destruct (Hwf t Ht) as [H1 Hids].
    intros t1 Et. injection Et as <-. cbn [rows serial]. split; [exact H1|].
    intros i Hi. apply Hids. apply lookup_alter_is_Some in Hi. exact Hi.
  - intros t Et. apply (Hwf t Et).
  - intros t Et. apply (Hwf t Et).
Qed.

(** The sequence does not go past the [integer] after the largest one it
    hands out. *)
Lemma step_keeps_sequence_bound (db db' : database) :
  step db db' ->
  (forall t, verification_codes db = Some t -> serial t <= int4_max + 1) ->
  forall t, verification_codes db' = Some t -> serial t <= int4_max + 1.
Proof.
  intros Hstep Hb t1.
  destruct Hstep as [db|e c ty db|e c db|id db|db t' _|db b].
  - unfold createVerificationCodesTable, try_catch, bind, pool_query,
      create_table_if_not_exists, ret.
    destruct (connected db); [|apply Hb].
    destruct (verification_codes db) as [t|] eqn:Ht; cbn [snd].
    + rewrite Ht. apply Hb.
    + cbn. intros Et. injection Et as <-. unfold int4_max. cbn. lia.
  - rewrite save_result.
    destruct (connected db); [|apply Hb].
    destruct (verification_codes db) as [t|] eqn:Ht; [|cbn [snd]; rewrite Ht; apply Hb].
    assert (Hsame : verification_codes db = Some t1 -> serial t1 <= int4_max + 1)
      by (rewrite Ht; apply Hb).
    destruct (has_nul e || has_nul c || has_nul ty); [exact Hsame|].
    destruct (varchar 255 e), (varchar 10 c), (varchar 50 ty); try exact Hsame.
    destruct (Z.ltb_spec int4_max (serial t)) as [Hmax|Hmax]; [exact Hsame|].
    destruct (rows t !! serial t); cbn;
      intros Et; injection Et as <-; cbn [serial]; lia.
  - destruct (check_returns e c db) as [o ->]. apply Hb.
  - destruct (connected db) eqn:Hc; [|rewrite mark_unavailable by auto; apply Hb].
    destruct (int4 id) eqn:Hid; [|rewrite mark_unavailable by auto; apply Hb].
    destruct (verification_codes db) as [t|] eqn:Ht;
      [|rewrite mark_unavailable by auto; cbn [snd]; rewrite Ht; apply Hb].
    rewrite (mark_connected id db t Hc Ht Hid). cbn.
    intros Et. injection Et as <-. cbn [serial]. apply (Hb t). reflexivity.
  - apply Hb.
  - apply Hb.
Qed.

(** Ids are fresh, positive [integer]s. In every database reached from a
    well-formed one (an absent table is well-formed), the ids stay within
    the sequence, and an id that [saveVerificationCode] returns is at
    least 1 (so never falsy) and at most the largest [integer], was not in
    use, and now holds the new row: unused, created now, expiring 30
    minutes later, with the three values, which hold no NUL, as they were
    assigned to their [VARCHAR] columns, which is as supplied when they
    are within the columns' lengths and cut to the column's length
    otherwise. The other rows are as they were. And when the sequence
    started within the [integer]s, every id in the table is an [integer]
    other than 0. *)
Theorem saved_ids_are_fresh (db0 db : database) (e c ty : string) (id : Z) :
  well_formed db0 -> rtc step db0 db ->
  fst (saveVerificationCode e c ty db) = Returned (Some id) ->
  well_formed db /\
  1 <= id /\ int4 id = true /\
  has_nul e = false /\ has_nul c = false /\ has_nul ty = false /\
  exists t t' e' c' ty',
    verification_codes db = Some t /\ rows t !! id = None /\
    varchar 255 e = Some e' /\ varchar 10 c = Some c' /\ varchar 50 ty = Some ty' /\
    (String.length e' <= 255)%nat /\ (String.length c' <= 10)%nat /\
    (String.length ty' <= 50)%nat /\
    (too_long e c ty = false -> e' = e /\ c' = c /\ ty' = ty) /\
    verification_codes (snd (saveVerificationCode e c ty db)) = Some t' /\
    rows t' !! id = Some (Row e' c' ty' (now db) (now db + thirty_minutes) false) /\
    (forall j, j <> id -> rows t' !! j = rows t !! j) /\
    ((forall t0, verification_codes db0 = Some t0 -> serial t0 <= int4_max + 1) ->
     forall i, is_Some (rows t !! i) -> int4 i = true /\ i <> 0).
Proof.
  intros Hwf0 Hsteps Hsave.
  assert (Hwf : well_formed db).
  { clear Hsave. induction Hsteps as [|a b d Hab _ IH]; [exact Hwf0|].
    apply IH. apply (step_keeps_well_formed a b Hab Hwf0). }
  assert (Hbound : (forall t0, verification_codes db0 = Some t0 -> serial t0 <= int4_max + 1) ->
                   forall t0, verification_codes db = Some t0 -> serial t0 <= int4_max + 1).
  { clear Hsave Hwf Hwf0. induction Hsteps as [|a b d Hab _ IH]; [auto|].
    intros H0. apply IH. apply (step_keeps_sequence_bound a b Hab H0). }
  split; [exact Hwf|].
  rewrite save_result in Hsave |- *.
  destruct (connected db) eqn:Hc; [|discriminate].
  destruct (verification_codes db) as [t|] eqn:Ht; [|discriminate].
  destruct (has_nul e || has_nul c || has_nul ty) eqn:Hn; [discriminate|].
  destruct (varchar 255 e) as [e'|] eqn:Ee; [|discriminate].
  destruct (varchar 10 c) as [c'|] eqn:Ec; [|discriminate].
  destruct (varchar 50 ty) as [ty'|] eqn:Ety; [|discriminate].
  destruct (Z.ltb_spec int4_max (serial t)) as [Hmax|Hmax]; [discriminate|].
  pose proof (serial_is_fresh db t Hwf Ht) as Hs. rewrite Hs in Hsave |- *.
  cbn [fst snd] in *. injection Hsave as <-.
  destruct (Hwf t Ht) as [H1 _]. split; [exact H1|].
  split; [unfold int4, int4_max in *; apply andb_true_iff; split; apply Z.leb_le; lia|].
  apply orb_false_iff in Hn as [Hn Hnty]. apply orb_false_iff in Hn as [Hne Hnc].
  split; [exact Hne|]. split; [exact Hnc|]. split; [exact Hnty|].
  exists t. eexists. exists e', c', ty'.
  split; [reflexivity|]. split; [exact Hs|].
  split; [reflexivity|]. split; [reflexivity|]. split; [reflexivity|].
  split; [apply (varchar_length _ _ _ Ee)|]. split; [apply (varchar_length _ _ _ Ec)|].
  split; [apply (varchar_length _ _ _ Ety)|].
  split.
  { intros Hl. destruct (fits_columns e c ty Hl) as (Fe & Fc & Fty).
    rewrite Fe in Ee. rewrite Fc in Ec. rewrite Fty in Ety.
    injection Ee as <-. injection Ec as <-. injection Ety as <-. auto. }
  split; [reflexivity|]. cbn [rows]. split; [|split].
  - apply lookup_insert_eq.
  - intros j Hj. apply lookup_insert_ne. auto.
  - intros H0 i Hi. pose proof (Hbound H0 t eq_refl) as Hb.
    destruct (Hwf t Ht) as [_ Hids]. specialize (Hids i Hi).
    unfold int4, int4_max in *. split; [|lia].
    apply andb_true_iff. split; apply Z.leb_le; lia.
Qed.

(** Saving, into the store that holds one code, a code for an address of
    256 characters whose last character is a space. *)
Lemma saved_ids_are_fresh_witness :
  well_formed db_one_code /\
  1 <= 2 /\ int4 2 = true /\
  has_nul (String.concat "" (repeat "a@b.com " 32)) = false /\
  has_nul "222222" = false /\ has_nul "verification" = false /\
  exists t t' e' c' ty',
    verification_codes db_one_code = Some t /\ rows t !! 2 = None /\
    varchar 255 (String.concat "" (repeat "a@b.com " 32)) = Some e' /\
    varchar 10 "222222" = Some c' /\ varchar 50 "verification" = Some ty' /\
    (String.length e' <= 255)%nat /\ (String.length c' <= 10)%nat /\
    (String.length ty' <= 50)%nat /\
    (too_long (String.concat "" (repeat "a@b.com " 32)) "222222" "verification" = false ->
     e' = String.concat "" (repeat "a@b.com " 32) /\ c' = "222222" /\ ty' = "verification") /\
    verification_codes
      (snd (saveVerificationCode (String.concat "" (repeat "a@b.com " 32)) "222222"
              "verification" db_one_code)) = Some t' /\
    rows t' !! 2 =
      Some (Row e' c' ty' (now db_one_code) (now db_one_code + thirty_minutes) false) /\
    (forall j, j <> 2 -> rows t' !! j = rows t !! j) /\
    ((forall t0, verification_codes db_one_code = Some t0 -> serial t0 <= int4_max + 1) ->
     forall i, is_Some (rows t !! i) -> int4 i = true /\ i <> 0).
Proof.
  apply (saved_ids_are_fresh db_one_code db_one_code).
  - intros t Ht. injection Ht as <-. cbn [rows serial]. split; [lia|].
    intros i [r Hr]. apply lookup_singleton_Some in Hr as [<- _]. lia.
  - apply rtc_refl.
  - vm_compute. reflexivity.
Defined.

(** When saving fails. On a well-formed database [saveVerificationCode]
    never throws, and it returns [null] exactly when the database is out
    of reach, the table is absent, a value holds a NUL or does not fit
    its [VARCHAR] column (it is longer, and not only by spaces), or the
    sequence has no [integer] left; a failed save leaves the database as
    it was. *)
Theorem save_fails_iff (db : database) (e c ty : string) :
  well_formed db ->
  (exists o, fst (saveVerificationCode e c ty db) = Returned o) /\
  (fst (saveVerificationCode e c ty db) = Returned None <->
   connected db = false \/ verification_codes db = None \/
   has_nul e || has_nul c || has_nul ty = true \/
   varchar 255 e = None \/ varchar 10 c = None \/ varchar 50 ty = None \/
   exists t, verification_codes db = Some t /\ int4_max < serial t) /\
  (fst (saveVerificationCode e c ty db) = Returned None ->
   snd (saveVerificationCode e c ty db) = db).
Proof.
  intros Hwf. rewrite save_result.
  destruct (connected db) eqn:Hc;
    [|cbn; split; [eauto|]; split; [|reflexivity]; split; auto].
  destruct (verification_codes db) as [t|] eqn:Ht;
    [|cbn; split; [eauto|]; split; [|reflexivity]; split; auto].
  destruct (has_nul e || has_nul c || has_nul ty) eqn:Hn;
    [cbn; split; [eauto|]; split; [|reflexivity]; split; auto|].
  destruct (varchar 255 e) as [e'|] eqn:Ee;
    [|cbn; split; [eauto|]; split; [|reflexivity]; split; auto 10].
  destruct (varchar 10 c) as [c'|] eqn:Ec;
    [|cbn; split; [eauto|]; split; [|reflexivity]; split; auto 10].
  destruct (varchar 50 ty) as [ty'|] eqn:Ety;
    [|cbn; split; [eauto|]; split; [|reflexivity]; split; auto 10].
  destruct (Z.ltb_spec int4_max (serial t)) as [Hmax|Hmax];
    [cbn; split; [eauto|]; split; [|reflexivity]; split; eauto 10|].
  rewrite (serial_is_fresh db t Hwf Ht). cbn [fst snd].
  split; [eauto|]. split; [|discriminate].
  split; [discriminate|].
  intros [H|[H|[H|[H|[H|[H|(t0 & Ht0 & H)]]]]]]; try discriminate.
  injection Ht0 as <-. lia.
Qed.

(** An address of 256 characters that ends in a full stop does not fit
    [VARCHAR(255)]. *)
Lemma save_fails_iff_witness :
  varchar 255 (String.concat "" (repeat "a@b.com." 32)) = None /\
  (exists o, fst (saveVerificationCode (String.concat "" (repeat "a@b.com." 32)) "123456"
                    "verification" db_one_code) = Returned o) /\
  (fst (saveVerificationCode (String.concat "" (repeat "a@b.com." 32)) "123456"
          "verification" db_one_code) = Returned None <->
   connected db_one_code = false \/ verification_codes db_one_code = None \/
   has_nul (String.concat "" (repeat "a@b.com." 32)) || has_nul "123456"
     || has_nul "verification" = true \/
   varchar 255 (String.concat "" (repeat "a@b.com." 32)) = None \/
   varchar 10 "123456" = None \/ varchar 50 "verification" = None \/
   exists t, verification_codes db_one_code = Some t /\ int4_max < serial t) /\
  (fst (saveVerificationCode (String.concat "" (repeat "a@b.com." 32)) "123456"
          "verification" db_one_code) = Returned None ->
   snd (saveVerificationCode (String.concat "" (repeat "a@b.com." 32)) "123456"
          "verification" db_one_code) = db_one_code).
Proof.
  split; [vm_compute; reflexivity|].
  apply (save_fails_iff db_one_code).
  intros t Ht. injection Ht as <-. cbn [rows serial]. split; [lia|].
  intros i [r Hr]. apply lookup_singleton_Some in Hr as [<- _]. lia.
Defined.

(** The lookup of a pair that one unused row holds and no other row. *)
Lemma lookup_only_row (e c : string) (m : gmap Z row) (i s cr ex later : Z) :
  (forall j r, m !! j = Some r -> ~ (email r = e /\ code r = c)) ->
  let db := Database true (Some (Table (<[i := Row e c "verification" cr ex false]> m) s))
                     later in
  checkVerificationCode e c db = (Returned (if later <? ex then Some i else None), db).
Proof.
  intros Hother db.
  set (new := Row e c "verification" cr ex false).
  assert (Hv : valid_for e c later new = (later <? ex)).
  { unfold valid_for, new. cbn. rewrite !String.eqb_refl. cbn.
    rewrite andb_true_r. reflexivity. }
  destruct (check_connected e c db (Table (<[i := new]> m) s) eq_refl eq_refl)
    as [(j & r & E & Hj & Hvr & _)|[E Hnone]]; cbn [rows now db] in *.
  - rewrite E. destruct (decide (j = i)) as [->|Hne].
    + rewrite lookup_insert_eq in Hj. injection Hj as <-.
      rewrite Hv in Hvr. rewrite Hvr. reflexivity.
    + rewrite lookup_insert_ne in Hj by auto.
      apply valid_for_true in Hvr as (He & Hcd & _). destruct (Hother j r Hj (conj He Hcd)).
  - rewrite E. specialize (Hnone i new (lookup_insert_eq _ _ _)).
    rewrite Hv in Hnone. rewrite Hnone. reflexivity.
Qed.

(** A saved code can be redeemed for 30 minutes. After a successful save
    of a 'verification' code whose values are within the lengths of their
    columns, a lookup of the pair at any reading of the clock before
    [now + 30 minutes] returns a row; and when no other row holds the
    pair, it returns the new row's id before that instant and [null] from
    that instant on. *)
Theorem saved_code_is_redeemable (db : database) (t : table) (e c : string) (later : Z) :
  verification_codes db = Some t -> too_long e c "verification" = false ->
  fst (saveVerificationCode e c "verification" db) = Returned (Some (serial t)) ->
  let db' := at_time later (snd (saveVerificationCode e c "verification" db)) in
  (later < now db + thirty_minutes ->
   exists j, fst (checkVerificationCode e c db') = Returned (Some j)) /\
  ((forall i r, rows t !! i = Some r -> ~ (email r = e /\ code r = c)) ->
   fst (checkVerificationCode e c db') =
     Returned (if later <? now db + thirty_minutes then Some (serial t) else None)).
Proof.
  intros Ht Hl Hsave db'.
  set (new := Row e c "verification" (now db) (now db + thirty_minutes) false).
  set (t' := Table (<[serial t := new]> (rows t)) (serial t + 1)).
  assert (Hdb' : db' = Database true (Some t') later).
  { subst db'. rewrite save_result in Hsave |- *. rewrite Ht in Hsave |- *.
    destruct (connected db) eqn:Hc; [|discriminate].
    destruct (has_nul e || has_nul c || has_nul "verification"); [discriminate|].
    destruct (fits_columns e c "verification" Hl) as (Fe & Fc & Fty).
    rewrite Fe, Fc, Fty in Hsave |- *.
    destruct (int4_max <? serial t); [discriminate|].
    destruct (rows t !! serial t); [discriminate|].
    unfold at_time, with_table. cbn. rewrite Hc. reflexivity. }
  assert (Hc' : connected db' = true) by (rewrite Hdb'; reflexivity).
  assert (Ht' : verification_codes db' = Some t') by (rewrite Hdb'; reflexivity).
  assert (Hnow : now db' = later) by (rewrite Hdb'; reflexivity).
  assert (Hnew : rows t' !! serial t = Some new) by apply lookup_insert_eq.
  assert (Hvnew : valid_for e c later new = (later <? now db + thirty_minutes)).
  { unfold valid_for, new. cbn. rewrite !String.eqb_refl. cbn.
    rewrite andb_true_r. reflexivity. }
  destruct (check_connected e c db' t' Hc' Ht')
    as [(j & r & E & Hj & Hv & _)|[E Hnone]]; rewrite Hnow in *.
  - split; [rewrite E; eauto|].
    intros Hother. rewrite E. cbn [fst].
    destruct (decide (j = serial t)) as [->|Hne].
    + assert (r = new) by congruence. subst r. rewrite Hvnew in Hv. rewrite Hv. reflexivity.
    + unfold t' in Hj. cbn in Hj. rewrite lookup_insert_ne in Hj by auto.
      apply valid_for_true in Hv. exfalso. apply (Hother j r Hj). tauto.
  - specialize (Hnone (serial t) new Hnew). rewrite Hvnew in Hnone.
    split.
    + intros Hlt. apply Z.ltb_lt in Hlt. congruence.
    + intros _. rewrite E, Hnone. reflexivity.
Qed.

(** A code saved at time 500 into an empty table, looked up 29 minutes
    later. *)
Lemma saved_code_is_redeemable_witness :
  let db' := at_time (500 + 29 * 60 * 1000000)
               (snd (saveVerificationCode "c@d.com" "222222" "verification" db_one_code)) in
  (500 + 29 * 60 * 1000000 < now db_one_code + thirty_minutes ->
   exists j, fst (checkVerificationCode "c@d.com" "222222" db') = Returned (Some j)) /\
  ((forall i r, rows (Table {[ 1 := row_old ]} 2) !! i = Some r ->
                ~ (email r = "c@d.com" /\ code r = "222222")) ->
   fst (checkVerificationCode "c@d.com" "222222" db') =
     Returned (if 500 + 29 * 60 * 1000000 <? now db_one_code + thirty_minutes
               then Some (serial (Table {[ 1 := row_old ]} 2)) else None)).
Proof.
  apply (saved_code_is_redeemable db_one_code (Table {[ 1 := row_old ]} 2)
           "c@d.com" "222222" (500 + 29 * 60 * 1000000)); reflexivity.
Defined.

(** The life of a code, as steps 3, 5 and 6 of [runVerificationTest] run
    it: save, look up, mark used, look up again. With no other row holding
    the pair, values that hold no NUL and the next id an [integer], the
    save returns the next id, the first lookup returns that id, marking
    returns [true], and the second lookup returns [null]. *)
Theorem code_lifecycle (db : database) (t : table) (e c : string) :
  connected db = true -> verification_codes db = Some t ->
  too_long e c "verification" = false ->
  has_nul e = false -> has_nul c = false -> int4 (serial t) = true ->
  rows t !! serial t = None ->
  (forall i r, rows t !! i = Some r -> ~ (email r = e /\ code r = c)) ->
  let id := serial t in
  let db1 := snd (saveVerificationCode e c "verification" db) in
  let db2 := snd (markVerificationCodeAsUsed id db1) in
  fst (saveVerificationCode e c "verification" db) = Returned (Some id) /\
  checkVerificationCode e c db1 = (Returned (Some id), db1) /\
  fst (markVerificationCodeAsUsed id db1) = Returned true /\
  checkVerificationCode e c db2 = (Returned None, db2).
Proof.
  intros Hc Ht Hl Hnule Hnulc Hid Hs Hother id db1 db2.
  assert (Hmax : serial t <= int4_max)
    by (unfold int4 in Hid; apply andb_true_iff in Hid as [_ Hid]; apply Z.leb_le, Hid).
  assert (Hn : has_nul e || has_nul c || has_nul "verification" = false)
    by (rewrite Hnule, Hnulc; reflexivity).
  assert (Hlt : (now db <? now db + thirty_minutes) = true)
    by (apply Z.ltb_lt; unfold thirty_minutes; lia).
  set (new := Row e c "verification" (now db) (now db + thirty_minutes) false).
  set (t1 := Table (<[serial t := new]> (rows t)) (serial t + 1)).
  assert (Hsave : saveVerificationCode e c "verification" db =
                  (Returned (Some id), with_table t1 db))
    by apply (save_connected e c "verification" db t Hc Ht Hn Hl Hmax Hs).
  assert (Hdb1 : db1 = with_table t1 db) by (subst db1; rewrite Hsave; reflexivity).
  assert (Hlook : fst (checkVerificationCode e c db1) = Returned (Some (serial t))).
  { rewrite Hdb1. unfold with_table. rewrite Hc.
    pose proof (lookup_only_row e c (rows t) (serial t) (serial t + 1) (now db)
                  (now db + thirty_minutes) (now db) Hother) as E.
    cbv zeta in E. unfold t1, new. rewrite E. cbn [fst]. rewrite Hlt. reflexivity. }
  assert (Hc1 : connected db1 = true) by (rewrite Hdb1; exact Hc).
  assert (Ht1 : verification_codes db1 = Some t1) by (rewrite Hdb1; reflexivity).
  assert (Hmark := mark_connected id db1 t1 Hc1 Ht1 Hid).
  split; [rewrite Hsave; reflexivity|].
  split.
  { destruct (check_returns e c db1) as [o Ho]. rewrite Ho in Hlook |- *.
    cbn [fst] in Hlook. injection Hlook as ->. reflexivity. }
  split; [rewrite Hmark; reflexivity|].
  subst db2. rewrite Hmark. cbn [snd].
  set (t2 := Table (alter set_used id (rows t1)) (serial t1)).
  assert (Hc2 : connected (with_table t2 db1) = true) by exact Hc1.
  destruct (check_connected e c (with_table t2 db1) t2 Hc2 eq_refl)
    as [(i & r & _ & Hi & Hv & _)|[E _]]; [exfalso | exact E].
  apply valid_for_true in Hv as (He & Hcd & _ & _ & Hu).
  unfold t2, t1, id in Hi. cbn [rows] in Hi.
  destruct (decide (serial t = i)) as [<-|Hne].
  - rewrite lookup_alter_eq, lookup_insert_eq in Hi. cbn in Hi.
    injection Hi as <-. discriminate Hu.
  - rewrite lookup_alter_ne, lookup_insert_ne in Hi by exact Hne.
    apply (Hother i r Hi). split; assumption.
Qed.

(** The life of the code "222222" in the store that holds "123456". *)
Lemma code_lifecycle_witness :
  let id := serial (Table {[ 1 := row_old ]} 2) in
  let db1 := snd (saveVerificationCode "c@d.com" "222222" "verification" db_one_code) in
  let db2 := snd (markVerificationCodeAsUsed id db1) in
  fst (saveVerificationCode "c@d.com" "222222" "verification" db_one_code) =
    Returned (Some id) /\
  checkVerificationCode "c@d.com" "222222" db1 = (Returned (Some id), db1) /\
  fst (markVerificationCodeAsUsed id db1) = Returned true /\
  checkVerificationCode "c@d.com" "222222" db2 = (Returned None, db2).
Proof.
  apply (code_lifecycle db_one_code (Table {[ 1 := row_old ]} 2) "c@d.com" "222222");
    try reflexivity.
  intros i r Hi. cbn [rows] in Hi. apply lookup_singleton_Some in Hi as [_ <-].
  intros [H _]. discriminate H.
Defined.

(** An expired row stays behind the clock, whatever happens to the
    database: no operation changes [expires_at], and the clock does not go
    back. *)
Lemma step_keeps_expired (db db' : database) (i : Z) :
  step db db' ->
  (exists t r, verification_codes db = Some t /\ rows t !! i = Some r /\
               expires_at r <= now db) ->
  exists t r, verification_codes db' = Some t /\ rows t !! i = Some r /\
              expires_at r <= now db'.
Proof.
  intros Hstep (t & r & Ht & Hi & Hx).
  destruct (step_keeps_rows db db' Hstep) as [Hnow H].
  destruct (H t i r Ht Hi) as (t' & r' & Ht' & Hi' & [->| ->]);
    exists t'; eexists; (split; [exact Ht'|]); (split; [exact Hi'|]); cbn; lia.
Qed.

(** Expiry is final: a row whose [expires_at] the clock has reached is not
    returned by any later lookup, even though it is still unused. *)
Theorem expired_stays_expired (db db' : database) (t : table) (i : Z) (r : row) :
  verification_codes db = Some t -> rows t !! i = Some r ->
  expires_at r <= now db -> rtc step db db' ->
  forall e c, fst (checkVerificationCode e c db') <> Returned (Some i).
Proof.
  intros Ht Hi Hx Hsteps e c H.
  assert (Hinv : exists t' r', verification_codes db' = Some t' /\
                   rows t' !! i = Some r' /\ expires_at r' <= now db').
  { assert (H0 : exists t r, verification_codes db = Some t /\ rows t !! i = Some r /\
                   expires_at r <= now db) by eauto.
    clear Ht Hi Hx H. induction Hsteps as [|a b d Hab _ IH]; [exact H0|].
    apply IH. apply (step_keeps_expired a b i Hab H0). }
  destruct Hinv as (t' & r' & Ht' & Hi' & Hx').
  apply check_Some_inv in H as (t2 & r2 & _ & Ht2 & Hi2 & Hv).
  apply valid_for_true in Hv as (_ & _ & _ & Hlt & _).
  assert (t2 = t') by congruence. subst t2.
  assert (r2 = r') by congruence. subst r2. lia.
Qed.

(** The expired code of [db_expired_only], after the clock moved on and
    another code was saved. *)
Lemma expired_stays_expired_witness :
  expires_at row_expired <= now db_expired_only /\
  fst (checkVerificationCode "a@b.com" "111111"
         (snd (saveVerificationCode "c@d.com" "222222" "verification"
                 (at_time 600 db_expired_only))))
  <> Returned (Some 5).
Proof.
  split; [cbn; lia|].
  apply (expired_stays_expired db_expired_only _ (Table {[ 5 := row_expired ]} 6) 5 row_expired).
  - reflexivity.
  - reflexivity.
  - cbn. lia.
  - eapply rtc_l; [apply (step_clock db_expired_only 600); cbn; lia|].
    apply rtc_once. apply (step_save "c@d.com" "222222" "verification").
Defined.

(** [createVerificationCodesTable] and [checkVerificationCodesTable]:
    neither throws; creating returns [true] exactly when the database is
    reachable, keeps an existing table with all its rows, and creates an
    empty one otherwise; afterwards the check for the table returns
    [true] on a reachable database. *)
Theorem create_table_keeps_codes (db : database) :
  fst (createVerificationCodesTable db) = Returned (connected db) /\
  (is_Some (verification_codes db) \/ connected db = false ->
   snd (createVerificationCodesTable db) = db) /\
  (connected db = true -> verification_codes db = None ->
   verification_codes (snd (createVerificationCodesTable db)) = Some (Table ∅ 1)) /\
  checkVerificationCodesTable (snd (createVerificationCodesTable db)) =
    (Returned (connected db), snd (createVerificationCodesTable db)).
Proof.
  unfold createVerificationCodesTable, checkVerificationCodesTable, try_catch, bind,
    pool_query, create_table_if_not_exists, select_table_exists, ret.
  destruct db as [[|] [t|] n]; cbn;
    (split; [reflexivity|]); (split; [|split]);
    try reflexivity; try discriminate;
    try (intros [[x H]|H]; discriminate);
    rewrite bool_decide_eq_true_2 by eauto; reflexivity.
Qed.

End StoreLifecycle.

(** ** The migration's validation *)

Section SchemaValidation.
Import EnsureVerificationCodes Examples.

Lemma Returned_inj {A} (a b : A) : Returned a = Returned b -> a = b.
Proof. congruence. Qed.

(** The object [validateTableStructure] builds from the reported columns. *)
Local Abbreviation column_map :=
  (fold_left (fun (acc : gmap string (string * string)) (col : column) =>
                <[column_name col := (data_type col, is_nullable col)]> acc)).

(** A binding of that object comes from one of the columns. *)
Lemma column_map_lookup (cols : list column) :
  forall (acc : gmap string (string * string)) (n : string) (v : string * string),
    column_map cols acc !! n = Some v ->
    acc !! n = Some v \/
    exists col, col ∈ cols /\ column_name col = n /\ v = (data_type col, is_nullable col).
Proof.
  induction cols as [|c cols IH]; intros acc n v H; cbn [fold_left] in H.
  - left. exact H.
  - destruct (IH _ _ _ H) as [H'|(col & Hin & Hn & Hv)].
    + destruct (decide (column_name c = n)) as [E|E].
      * rewrite E, lookup_insert_eq in H'. injection H' as <-.
        right. exists c. split; [apply elem_of_cons; auto|auto].
      * rewrite lookup_insert_ne in H' by exact E. left. exact H'.
    + right. exists col. split; [apply elem_of_cons; auto|auto].
Qed.

Lemma column_map_absent (cols : list column) :
  forall (acc : gmap string (string * string)) (n : string),
    n ∉ map column_name cols -> column_map cols acc !! n = acc !! n.
Proof.
  induction cols as [|c cols IH]; intros acc n Hn; cbn [fold_left map] in *.
  - reflexivity.
  - apply not_elem_of_cons in Hn as [Hne Hn]. rewrite IH by exact Hn.
    apply lookup_insert_ne. congruence.
Qed.

(** With distinct column names every column is bound as reported. *)
Lemma column_map_present (cols : list column) :
  NoDup (map column_name cols) ->
  forall (col : column) (acc : gmap string (string * string)),
    col ∈ cols ->
    column_map cols acc !! column_name col = Some (data_type col, is_nullable col).
Proof.
  induction cols as [|c cols IH]; intros Hnd col acc Hin; cbn [fold_left map] in *.
  - inversion Hin.
  - apply NoDup_cons in Hnd as [Hc Hnd]. apply elem_of_cons in Hin as [->|Hin].
    + rewrite column_map_absent by exact Hc. apply lookup_insert_eq.
    + apply IH; assumption.
Qed.

(** The validation on a reachable database: the loop over
    [expectedColumns], on the columns of the table (none when it is
    absent). *)
Lemma validate_connected (db : database) :
  connected db = true ->
  validateTableStructure db =
    (Returned
       (forallb
          (fun '(colName, (expected_type, expected_nullable)) =>
             match column_map (default [] (tables db !! "verification_codes")) ∅ !! colName with
             | None => false
             | Some (actual_type, actual_nullable) =>
                 String.eqb actual_type expected_type &&
                 String.eqb actual_nullable expected_nullable
             end)
          expectedColumns),
     db).
Proof.
  intros Hc.
  unfold validateTableStructure, try_catch, bind, pool_query, select_columns, ret.
  rewrite Hc. reflexivity.
Qed.

Lemma validate_unreachable (db : database) :
  connected db = false -> validateTableStructure db = (Returned false, db).
Proof.
  intros Hc.
  unfold validateTableStructure, try_catch, bind, pool_query, select_columns, ret.
  rewrite Hc. reflexivity.
Qed.

(** What a passed validation guarantees: the database is reachable, the
    table exists, and each of the nine expected columns is reported with
    the expected type and nullability. *)
Theorem validated_structure_conforms (db : database) :
  fst (validateTableStructure db) = Returned true ->
  connected db = true /\
  exists cols,
    tables db !! "verification_codes" = Some cols /\
    forall n ty nl, (n, (ty, nl)) ∈ expectedColumns -> Column n ty nl ∈ cols.
Proof.
  intros H.
  destruct (connected db) eqn:Hc;
    [|rewrite (validate_unreachable db Hc) in H; discriminate].
  split; [reflexivity|].
  rewrite (validate_connected db Hc) in H. cbn [fst] in H.
  apply Returned_inj in H. rewrite forallb_forall in H.
  destruct (tables db !! "verification_codes") as [cols|] eqn:Et; cbn [default from_option id] in H.
  - exists cols. split; [reflexivity|].
    intros n ty nl Hin. apply list_elem_of_In in Hin.
    specialize (H _ Hin). cbn beta iota in H.
    destruct (column_map cols ∅ !! n) as [[aty anl]|] eqn:El; [|discriminate].
    apply andb_true_iff in H as [H1 H2].
    apply String.eqb_eq in H1, H2. subst aty anl.
    destruct (column_map_lookup _ _ _ _ El) as [Habs|(col & Hcol & Hn & Hv)].
    + rewrite lookup_empty in Habs. discriminate.
    + destruct col as [n' ty' nl']. cbn in Hn, Hv. congruence.
  - specialize (H ("id", ("integer", "NO")) ltac:(left; reflexivity)).
    cbn in H. discriminate.
Qed.

(** The table the migration creates passes. *)
Lemma validated_structure_conforms_witness :
  connected table_without_indexes = true /\
  exists cols,
    tables table_without_indexes !! "verification_codes" = Some cols /\
    forall n ty nl, (n, (ty, nl)) ∈ expectedColumns -> Column n ty nl ∈ cols.
Proof.
  apply (validated_structure_conforms table_without_indexes).
  vm_compute. reflexivity.
Defined.

(** When the validation passes. On a reachable database whose table
    reports each column name once, the validation returns [true] exactly
    when each expected column is among the reported ones with the
    expected type and nullability; further columns and the order of the
    columns do not matter. *)
Theorem validation_passes_iff (db : database) (cols : list column) :
  connected db = true -> tables db !! "verification_codes" = Some cols ->
  NoDup (map column_name cols) ->
  (fst (validateTableStructure db) = Returned true <->
   forall n ty nl, (n, (ty, nl)) ∈ expectedColumns -> Column n ty nl ∈ cols).
Proof.
  intros Hc Et Hnd. rewrite (validate_connected db Hc), Et. cbn [fst default from_option id].
  split.
  - intros H. apply Returned_inj in H. rewrite forallb_forall in H.
    intros n ty nl Hin. apply list_elem_of_In in Hin.
    specialize (H _ Hin). cbn beta iota in H.
    destruct (column_map cols ∅ !! n) as [[aty anl]|] eqn:El; [|discriminate].
    apply andb_true_iff in H as [H1 H2].
    apply String.eqb_eq in H1, H2. subst aty anl.
    destruct (column_map_lookup _ _ _ _ El) as [Habs|(col & Hcol & Hn & Hv)].
    + rewrite lookup_empty in Habs. discriminate.
    + destruct col as [n' ty' nl']. cbn in Hn, Hv. congruence.
  - intros H. f_equal. apply forallb_forall. intros [n [ty nl]] Hin.
    apply list_elem_of_In in Hin.
    pose proof (column_map_present cols Hnd (Column n ty nl) ∅ (H n ty nl Hin)) as E.
    cbn [column_name data_type is_nullable] in E. rewrite E.
    rewrite !String.eqb_refl. reflexivity.
Qed.

(** A table with a tenth column, in another order. *)
Lemma validation_passes_iff_witness :
  fst (validateTableStructure
         (Database true
            {[ "verification_codes" :=
                 Column "attempts" "integer" "YES" :: rev verification_codes_columns ]} ∅)) =
    Returned true <->
  forall n ty nl, (n, (ty, nl)) ∈ expectedColumns ->
    Column n ty nl ∈ Column "attempts" "integer" "YES" :: rev verification_codes_columns.
Proof.
  apply (validation_passes_iff
           (Database true
              {[ "verification_codes" :=
                   Column "attempts" "integer" "YES" :: rev verification_codes_columns ]} ∅)).
  - reflexivity.
  - reflexivity.
  - apply (bool_decide_unpack _). vm_compute. exact I.
Defined.

(** The migration's own table passes the migration's validation: after
    [ensureVerificationCodesTable] created the table, the validation
    returns [true]. *)
Theorem migration_passes_validation (db : database) :
  connected db = true -> tables db !! "verification_codes" = None ->
  validateTableStructure (snd (ensureVerificationCodesTable db)) =
    (Returned true, snd (ensureVerificationCodesTable db)).
Proof.
  intros Hc Ht. destruct (ensure_table_absent db Hc Ht) as (idx' & -> & _).
  cbn [snd]. rewrite validate_connected by reflexivity.
  cbn [tables]. rewrite lookup_insert_eq. cbn [default from_option id].
  reflexivity.
Qed.

Lemma migration_passes_validation_witness :
  validateTableStructure (snd (ensureVerificationCodesTable empty_schema)) =
    (Returned true, snd (ensureVerificationCodesTable empty_schema)).
Proof. apply (migration_passes_validation empty_schema); reflexivity. Defined.

Lemma create_unreachable (db : database) :
  connected db = false -> createVerificationCodesTable db = (Returned false, db).
Proof.
  intros Hc. unfold createVerificationCodesTable, try_catch, bind, pool_query.
  rewrite Hc. reflexivity.
Qed.

Lemma create_returns_true (db : database) :
  connected db = true -> fst (createVerificationCodesTable db) = Returned true.
Proof.
  intros Hc. unfold createVerificationCodesTable, try_catch.
  unfold bind at 1. unfold pool_query at 1. unfold select_table_exists. rewrite Hc.
  destruct (tables db !! "verification_codes") as [cols|] eqn:Ht.
  - rewrite bool_decide_eq_true_2 by eauto. reflexivity.
  - rewrite bool_decide_eq_false_2 by (intros [? ?]; discriminate).
    set (db1 := Database (connected db)
                  (<["verification_codes" := verification_codes_columns]> (tables db))
                  (indexes db)).
    destruct (create_indexes_ok db1) as (idx' & Ei & _); [apply lookup_insert_eq|].
    unfold bind at 1. unfold pool_query at 1. rewrite Hc.
    unfold create_table_if_not_exists. rewrite Ht. fold db1.
    unfold bind at 1. unfold pool_query at 1.
    change (connected db1) with (connected db). rewrite Hc, Ei. reflexivity.
Qed.

(** What the results report. [ensureVerificationCodesTable] and
    [createVerificationCodesTable] return [true] exactly when the database
    is reachable, and never throw; the result of the validation plays no
    part, so a table that fails it still gives [true]. Out of reach, all
    three return [false] and change nothing. *)
Theorem migration_reports_reachability (db : database) :
  fst (ensureVerificationCodesTable db) = Returned (connected db) /\
  fst (createVerificationCodesTable db) = Returned (connected db) /\
  (connected db = true -> is_Some (tables db !! "verification_codes") ->
   ensureVerificationCodesTable db = (Returned true, db) /\
   createVerificationCodesTable db = (Returned true, db)) /\
  (connected db = false ->
   ensureVerificationCodesTable db = (Returned false, db) /\
   createVerificationCodesTable db = (Returned false, db) /\
   validateTableStructure db = (Returned false, db)).
Proof.
  split; [|split; [|split]].
  - destruct (connected db) eqn:Hc; [|rewrite (ensure_unreachable db Hc); reflexivity].
    destruct (tables db !! "verification_codes") as [cols|] eqn:Ht.
    + rewrite (ensure_table_present db Hc) by eauto. reflexivity.
    + destruct (ensure_table_absent db Hc Ht) as (idx' & -> & _). reflexivity.
  - destruct (connected db) eqn:Hc; [apply create_returns_true, Hc|].
    rewrite (create_unreachable db Hc). reflexivity.
  - intros Hc Ht. split; [apply ensure_table_present; assumption|].
    unfold createVerificationCodesTable, try_catch, bind, pool_query, select_table_exists.
    rewrite Hc, bool_decide_eq_true_2 by exact Ht. reflexivity.
  - intros Hc. split; [apply ensure_unreachable, Hc|].
    split; [apply create_unreachable, Hc | apply validate_unreachable, Hc].
Qed.

End SchemaValidation.

(** ** The delivery adapter's contract *)

Section DeliveryContract.
Import TestSendgridServiceNew.

(** One code of the generator [Math.floor(100000 + Math.random() * 900000)]. *)
Lemma floor_generator_code (g : rng_state) :
  unit_supply g ->
  exists code,
    TestVerificationCode.generateVerificationCode g =
      (Returned code, Rng (supply g) (1 + drawn g)) /\
    six_ascii_digits code = true /\
    matches_code_pattern code = true.
Proof.
  intros Hg.
  unfold TestVerificationCode.generateVerificationCode, bind, Math_random.
  destruct (random_code (supply g (drawn g)) (Hg _)) as (k & Hk & ->).
  destruct (decimal_six_digits k Hk)
    as (d5 & d4 & d3 & d2 & d1 & d0 & -> & H5 & H4 & H3 & H2 & H1 & H0 & Ek).
  destruct (six_digit_string d5 d4 d3 d2 d1 d0) as (S6 & NV & MP); try lia.
  eexists. split; [reflexivity|]. split; [exact S6|]. apply MP. lia.
Qed.

(** The adapter of [test-sendgrid-service-new.js], whatever SendGrid
    answers: it never throws; it hands exactly one message to [send],
    addressed to [testEmail] from [SENDGRID_FROM_EMAIL], whose bodies embed
    a generated 6-digit code; [success] is [true] exactly when SendGrid
    accepts that message; the returned code is a 6-digit code in every
    case, the embedded one on success; it draws one random number on
    success and two on failure. *)
Theorem delivery_contract (w : world) :
  unit_supply (rng w) ->
  exists sent returned ok w',
    testSendVerificationCode w = (Returned (Delivery returned ok), w') /\
    attempted w' =
      Message (testEmail w) (SENDGRID_FROM_EMAIL w) "Your Tixoraa Verification Code (Test)"
              (html_body sent) (text_body sent) :: attempted w /\
    six_ascii_digits sent = true /\ matches_code_pattern sent = true /\
    six_ascii_digits returned = true /\ matches_code_pattern returned = true /\
    (ok = true <->
     provider w (Message (testEmail w) (SENDGRID_FROM_EMAIL w)
                         "Your Tixoraa Verification Code (Test)"
                         (html_body sent) (text_body sent)) = None) /\
    (ok = true -> returned = sent) /\
    supply (rng w') = supply (rng w) /\
    drawn (rng w') = ((if ok then 1 else 2) + drawn (rng w))%nat.
Proof.
  intros Hg. destruct w as [g from0 to0 prov att]. cbn [rng] in Hg.
  destruct (floor_generator_code g Hg) as (c1 & E1 & S1 & P1).
  assert (Hg1 : unit_supply (Rng (supply g) (1 + drawn g))) by (intros n; apply Hg).
  destruct (floor_generator_code _ Hg1) as (c2 & E2 & S2 & P2).
  cbn [supply drawn] in E2.
  change TestVerificationCode.generateVerificationCode with generateVerificationCode in E1, E2.
  unfold testSendVerificationCode, try_catch.
  unfold bind at 1. unfold zoom at 1. cbn [rng]. rewrite E1.
  unfold bind at 1. unfold get at 1. unfold with_rng at 1 2 3.
  cbn [rng SENDGRID_FROM_EMAIL testEmail provider attempted].
  unfold bind at 1. unfold mailService_send.
  cbn [rng SENDGRID_FROM_EMAIL testEmail provider attempted].
  destruct (prov _) as [err|] eqn:Ep.
  - unfold bind at 1. unfold zoom at 1. cbn [rng]. rewrite E2. unfold ret, with_rng.
    cbn [rng SENDGRID_FROM_EMAIL testEmail provider attempted].
    exists c1, c2, false. eexists. split; [reflexivity|].
    cbn [rng SENDGRID_FROM_EMAIL testEmail provider attempted supply drawn].
    split; [reflexivity|]. repeat (split; [assumption|]).
    split; [rewrite Ep; split; discriminate|].
    split; [discriminate|]. split; reflexivity.
  - unfold ret.
    exists c1, c1, true. eexists. split; [reflexivity|].
    cbn [rng SENDGRID_FROM_EMAIL testEmail provider attempted supply drawn].
    split; [reflexivity|]. repeat (split; [assumption|]).
    split; [rewrite Ep; split; reflexivity|].
    split; [reflexivity|]. split; reflexivity.
Qed.

(** The contract where SendGrid rejects every message. *)
Lemma delivery_contract_witness :
  exists sent returned ok w',
    testSendVerificationCode Examples.rejecting_world = (Returned (Delivery returned ok), w') /\
    attempted w' =
      Message (testEmail Examples.rejecting_world) (SENDGRID_FROM_EMAIL Examples.rejecting_world)
              "Your Tixoraa Verification Code (Test)"
              (html_body sent) (text_body sent) :: attempted Examples.rejecting_world /\
    six_ascii_digits sent = true /\ matches_code_pattern sent = true /\
    six_ascii_digits returned = true /\ matches_code_pattern returned = true /\
    (ok = true <->
     provider Examples.rejecting_world
       (Message (testEmail Examples.rejecting_world) (SENDGRID_FROM_EMAIL Examples.rejecting_world)
                "Your Tixoraa Verification Code (Test)"
                (html_body sent) (text_body sent)) = None) /\
    (ok = true -> returned = sent) /\
    supply (rng w') = supply (rng Examples.rejecting_world) /\
    drawn (rng w') = ((if ok then 1 else 2) + drawn (rng Examples.rejecting_world))%nat.
Proof.
  apply (delivery_contract Examples.rejecting_world).
  intros [|n]; reflexivity.
Defined.

End DeliveryContract.

(** ** The whole run of test-verification-code.js *)

Section Run.
Import TestVerificationCode Invariants VerificationRun.

Ltac world_simpl :=
  unfold with_store, with_rng;
  cbn [store rng SENDGRID_API_KEY SENDGRID_FROM_EMAIL provider attempted year overrun].

Lemma on_store_returned {A} (c : M database A) (d : database) (g : rng_state)
    (key from0 : option string) (prov : message -> option js_error)
    (att : list message) (yr ov : Z) (a : A) (d' : database) :
  c d = (Returned a, d') ->
  on_store c (World d g key from0 prov att yr ov) =
    (Returned a, World d' g key from0 prov att yr ov).
Proof. unfold on_store, zoom. cbn [store]. intros ->. reflexivity. Qed.

Ltac store_step E :=
  rewrite (bind_returned _ _ _ _ _ (on_store_returned _ _ _ _ _ _ _ _ _ _ _ E)).


(** The probe [SELECT NOW()] tells whether the database is in reach. *)
Lemma probe_result (w : world) :
  try_catch (on_store (pool_query select_now) ;;; ret true) (fun error => ret false) w =
    (Returned (connected (store w)), with_store (store w) w).
Proof.
  unfold try_catch, bind, on_store, zoom, pool_query, select_now, ret.
  destruct (connected (store w)); reflexivity.
Qed.

(** The email step: it never throws, sends nothing without both
    environment variables, and reports whether SendGrid accepted. *)
Lemma send_email_result (email0 code0 : string) (w : world) :
  let msg := verification_message email0 (default "" (SENDGRID_FROM_EMAIL w)) code0 (year w) in
  let env_ok := negb (falsy (SENDGRID_API_KEY w)) && negb (falsy (SENDGRID_FROM_EMAIL w)) in
  sendVerificationCodeEmail email0 code0 w =
    (Returned (env_ok && match provider w msg with None => true | Some _ => false end),
     World (store w) (rng w) (SENDGRID_API_KEY w) (SENDGRID_FROM_EMAIL w) (provider w)
           ((if env_ok then [msg] else []) ++ attempted w) (year w) (overrun w)).
Proof.
  destruct w as [d g key from0 prov att yr ov].
  cbn [store rng SENDGRID_API_KEY SENDGRID_FROM_EMAIL provider attempted year overrun].
  unfold sendVerificationCodeEmail, bind, get.
  cbn [store rng SENDGRID_API_KEY SENDGRID_FROM_EMAIL provider attempted year overrun].
  destruct (falsy key); [reflexivity|]. destruct (falsy from0); [reflexivity|].
  unfold try_catch, bind, sgMail_send, ret.
  cbn [store rng SENDGRID_API_KEY SENDGRID_FROM_EMAIL provider attempted year overrun
       negb andb app].
  destruct (prov _); reflexivity.
Qed.

Lemma store_operations_return (d : database) :
  (exists b, checkVerificationCodesTable d = (Returned b, d)) /\
  (exists b d', createVerificationCodesTable d = (Returned b, d')) /\
  (forall e c ty, exists o d', saveVerificationCode e c ty d = (Returned o, d')) /\
  (forall id, exists b d', markVerificationCodeAsUsed id d = (Returned b, d')).
Proof.
  split; [|split; [|split]].
  - unfold checkVerificationCodesTable, try_catch, pool_query, select_table_exists, ret.
    destruct (connected d); eauto.
  - unfold createVerificationCodesTable, try_catch, bind, pool_query,
      create_table_if_not_exists, ret.
    destruct (connected d); [|eauto]. destruct (verification_codes d); eauto.
  - intros e c ty. rewrite save_result.
    destruct (connected d); [|eauto]. destruct (verification_codes d) as [t|]; [|eauto].
    destruct (has_nul e || has_nul c || has_nul ty); [eauto|].
    destruct (varchar 255 e), (varchar 10 c), (varchar 50 ty); eauto.
    destruct (int4_max <? serial t); [eauto|].
    destruct (rows t !! serial t); eauto.
  - intros id.
    unfold markVerificationCodeAsUsed, try_catch, bind, pool_query, update_used,
      on_verification_codes, ret.
    destruct (connected d); [|eauto]. destruct (verification_codes d); [|eauto].
    destruct (int4 id); eauto.
Qed.

(** [runVerificationTest] never throws, whatever the database, the
    environment and SendGrid do; and with the database out of reach it
    does nothing at all: no code is drawn, nothing is sent. *)
Theorem run_never_throws (email0 : string) (w : world) :
  unit_supply (rng w) ->
  exists w',
    runVerificationTest email0 w = (Returned tt, w') /\
    (connected (store w) = false -> w' = w).
Proof.
  intros Hg. destruct w as [d g key from0 prov att yr ov]. cbn [rng store] in *.
  unfold runVerificationTest.
  rewrite (bind_returned _ _ _ _ _ (probe_result _)).
  world_simpl.
  destruct (connected d) eqn:Hc; cbn [negb]; [|eexists; split; [reflexivity|reflexivity]].
  assert (Hend : forall w0 : world, exists w', ret tt w0 = (Returned tt, w') /\
                   (true = false -> w' = World d g key from0 prov att yr ov))
    by (intros w0; eexists; split; [reflexivity|discriminate]).
  destruct (store_operations_return d) as ([b Eb] & _).
  store_step Eb.
  world_simpl.
  assert (Ecreated : exists b' d0,
            (if b then ret true else on_store createVerificationCodesTable)
              (World d g key from0 prov att yr ov) =
            (Returned b', World d0 g key from0 prov att yr ov)).
  { destruct b; [eexists _, _; reflexivity|].
    destruct (store_operations_return d) as (_ & (b' & d0 & E) & _).
    exists b', d0. apply on_store_returned, E. }
  destruct Ecreated as (b' & d0 & Ecreated).
  rewrite (bind_returned _ _ _ _ _ Ecreated).
  destruct b'; cbn [negb]; [|apply Hend].
  destruct (floor_generator_code g Hg) as (code0 & Ecode & _).
  assert (Egen : zoom rng with_rng generateVerificationCode (World d0 g key from0 prov att yr ov) =
                 (Returned code0,
                  World d0 (Rng (supply g) (1 + drawn g)) key from0 prov att yr ov))
    by (unfold zoom; cbn [rng]; rewrite Ecode; reflexivity).
  rewrite (bind_returned _ _ _ _ _ Egen).
  destruct (store_operations_return d0) as (_ & _ & Hsave & _).
  destruct (Hsave email0 code0 "verification") as (o & d1 & Esave).
  store_step Esave.
  world_simpl.
  destruct o as [id|]; [|apply Hend].
  destruct (id =? 0); [apply Hend|].
  rewrite (bind_returned _ _ _ _ _ (send_email_result _ _ _)).
  world_simpl.
  destruct (_ && _); cbn [negb]; [|apply Hend].
  unfold bind at 1. unfold sleep at 1.
  world_simpl.
  match goal with
  | |- context [bind (on_store (checkVerificationCode _ _)) _ (World ?d2 _ _ _ _ _ _ _)] =>
      destruct (check_returns email0 code0 d2) as [o Echeck]
  end.
  store_step Echeck.
  world_simpl.
  destruct o as [verified|]; [|apply Hend].
  destruct (verified =? 0); [apply Hend|].
  match goal with
  | |- context [bind (on_store (markVerificationCodeAsUsed _)) _ (World ?d2 _ _ _ _ _ _ _)] =>
      destruct (store_operations_return d2) as (_ & _ & _ & Hmark)
  end.
  destruct (Hmark verified) as (b' & d3 & Emark).
  store_step Emark.
  apply Hend.
Qed.

(** With no database in reach, a run leaves the world as it was. *)
Lemma run_never_throws_witness :
  exists w',
    runVerificationTest "c@d.com"
      (with_store (Database false None 500) (example_world None)) = (Returned tt, w') /\
    (connected (store (with_store (Database false None 500) (example_world None))) = false ->
     w' = with_store (Database false None 500) (example_world None)).
Proof.
  apply (run_never_throws "c@d.com" (with_store (Database false None 500) (example_world None))).
  intros n. reflexivity.
Defined.



End Run.

(** ** The test-sendgrid.js script *)

Section SendgridScript.
Import JsRegExp TestSendgridScript.

(** One code of the digit-by-digit generator. *)
Lemma digitwise_generator_code (g : rng_state) :
  unit_supply g ->
  exists code,
    TestSendgrid.generateVerificationCode g = (Returned code, Rng (supply g) (6 + drawn g)) /\
    six_ascii_digits code = true.
Proof.
  intros Hg. unfold TestSendgrid.generateVerificationCode. unfold bind at 1.
  rewrite (Array_from_length_random
             (fun r => JsNumber.Math_floor (JsNumber.mul r (JsNumber.literal 10)))).
  cbn [seq map JsNumber.join_empty modelled].
  destruct (random_digit _ (Hg (drawn g + 0)%nat)) as (k0 & K0 & ->).
  destruct (random_digit _ (Hg (drawn g + 1)%nat)) as (k1 & K1 & ->).
  destruct (random_digit _ (Hg (drawn g + 2)%nat)) as (k2 & K2 & ->).
  destruct (random_digit _ (Hg (drawn g + 3)%nat)) as (k3 & K3 & ->).
  destruct (random_digit _ (Hg (drawn g + 4)%nat)) as (k4 & K4 & ->).
  destruct (random_digit _ (Hg (drawn g + 5)%nat)) as (k5 & K5 & ->).
  rewrite !decimal_one_digit by assumption.
  cbn [String.append].
  destruct (six_digit_string k0 k1 k2 k3 k4 k5) as (S6 & _ & _); try lia.
  eexists. split; [reflexivity|]. exact S6.
Qed.

(** The script of [test-sendgrid.js], whatever the argument, the
    environment and SendGrid's answer. It sends only when the address
    ([process.argv[2]], or test@example.com when that is missing or empty)
    passes [isValidEmail] and [SENDGRID_API_KEY] is non-empty; then it
    draws six random numbers and hands exactly one message to [send], to
    that address, from [SENDGRID_FROM_EMAIL] or else test@example.com,
    embedding a code of six ASCII digits. Otherwise it draws and sends
    nothing. It runs to its end exactly when it was ready and SendGrid
    accepted the message; every other run ends in [process.exit(1)]. *)
Theorem test_email_script (w : world) :
  unit_supply (rng w) ->
  exists code0 result w',
    script w = (Returned result, w') /\
    six_ascii_digits code0 = true /\
    let fromEmail :=
      if VerificationRun.falsy (SENDGRID_FROM_EMAIL w) then "test@example.com"
      else default "" (SENDGRID_FROM_EMAIL w) in
    let ready := isValidEmail (testEmail w) &&
                 negb (VerificationRun.falsy (SENDGRID_API_KEY w)) in
    let msg := Message (testEmail w) fromEmail "Your Verification Code"
                       (text_body code0) (html_body code0) in
    attempted w' = (if ready then [msg] else []) ++ attempted w /\
    supply (rng w') = supply (rng w) /\
    drawn (rng w') = ((if ready then 6 else 0) + drawn (rng w))%nat /\
    (result = Finished <-> ready = true /\ provider w msg = None) /\
    (result = Finished \/ result = Exited 1).
Proof.
  intros Hg. destruct w as [g arg key from0 prov att].
  cbn [rng SENDGRID_API_KEY SENDGRID_FROM_EMAIL provider attempted] in *.
  destruct (digitwise_generator_code g Hg) as (code0 & Ecode & S6).
  exists code0. cbv zeta.
  unfold script. unfold bind at 1. unfold get at 1.
  destruct (isValidEmail (testEmail _)) eqn:Ev; cbn [negb andb].
  2:{ eexists _, _. split; [reflexivity|]. split; [exact S6|].
      cbn [rng attempted drawn supply]. split; [reflexivity|]. split; [reflexivity|].
      split; [reflexivity|]. split; [|right; reflexivity].
      split; [discriminate|intros [H _]; discriminate]. }
  unfold try_catch at 1. unfold sendTestEmail. unfold bind at 1. unfold get at 1.
  cbn [SENDGRID_API_KEY SENDGRID_FROM_EMAIL].
  destruct (VerificationRun.falsy key) eqn:Ek; cbn [negb andb].
  { eexists _, _. split; [reflexivity|]. split; [exact S6|].
    cbn [rng attempted drawn supply]. split; [reflexivity|]. split; [reflexivity|].
    split; [reflexivity|]. split; [|right; reflexivity].
    split; [discriminate|intros [H _]; discriminate]. }
  unfold try_catch at 1. unfold bind at 1. unfold zoom at 1.
  cbn [rng]. rewrite Ecode.
  unfold bind at 1. unfold mailService_send, with_rng.
  cbn [rng argv2 SENDGRID_API_KEY SENDGRID_FROM_EMAIL provider attempted].
  destruct (prov _) as [err|] eqn:Ep.
  - eexists _, _. split; [reflexivity|]. split; [exact S6|].
    cbn [rng attempted drawn supply app]. split; [reflexivity|]. split; [reflexivity|].
    split; [reflexivity|]. split; [|right; reflexivity].
    split; [discriminate|intros [_ H]; discriminate].
  - eexists _, _. split; [reflexivity|]. split; [exact S6|].
    cbn [rng attempted drawn supply app]. split; [reflexivity|]. split; [reflexivity|].
    split; [reflexivity|]. split; [|left; reflexivity].
    split; [intros _; split; reflexivity|reflexivity].
Qed.

(** A run without arguments: the message goes to test@example.com, from
    test@example.com. *)
Lemma test_email_script_witness :
  exists code0 result w',
    script example_world = (Returned result, w') /\
    six_ascii_digits code0 = true /\
    let w := example_world in
    let fromEmail :=
      if VerificationRun.falsy (SENDGRID_FROM_EMAIL w) then "test@example.com"
      else default "" (SENDGRID_FROM_EMAIL w) in
    let ready := isValidEmail (testEmail w) &&
                 negb (VerificationRun.falsy (SENDGRID_API_KEY w)) in
    let msg := Message (testEmail w) fromEmail "Your Verification Code"
                       (text_body code0) (html_body code0) in
    attempted w' = (if ready then [msg] else []) ++ attempted w /\
    supply (rng w') = supply (rng w) /\
    drawn (rng w') = ((if ready then 6 else 0) + drawn (rng w))%nat /\
    (result = Finished <-> ready = true /\ provider w msg = None) /\
    (result = Finished \/ result = Exited 1).
Proof.
  apply (test_email_script example_world).
  intros n. reflexivity.
Defined.

End SendgridScript.
